(** * Orbiter: the project aggregator of [orbiter/objects/project.py]

    A shallow embedding of [OrbiterProject]: its seven collections, the
    per-kind add-operations behind pydantic's [validate_call], the recursive
    walker [_add_recursively] of [add_dags], the combine operation [__add__],
    structural equality [__eq__] and [render]. *)

From Stdlib Require Import String Ascii ZArith List Lia.
From stdpp Require Import functions gmap strings list sorting.
Import ListNotations.
Local Open Scope string_scope.
Local Open Scope Z_scope.

(** ** Entities

    The entity classes live in sibling modules of [orbiter.objects]; their
    field lists are read off the reprs printed by the doctests of
    [project.py]. *)

(** Modelled from the spec: [OrbiterPool] (orbiter/objects/pool.py is not
    among the sources); the fields are those of the doctest repr
    [OrbiterPool(name='foo', description='', slots=1)]. *)
Record OrbiterPool := mkPool {
  pool_name : string;
  pool_description : string;
  slots : Z }.

(** Modelled from the spec: [OrbiterConnection], identity [conn_id]; repr
    [OrbiterConnection(conn_id=foo, conn_type=generic)]. *)
Record OrbiterConnection := mkConnection {
  conn_id : string;
  conn_type : string }.

(** Modelled from the spec: [OrbiterVariable], identity [key]. *)
Record OrbiterVariable := mkVariable {
  var_key : string;
  var_value : string }.

(** Modelled from the spec: [OrbiterEnvVar], identity [key]. *)
Record OrbiterEnvVar := mkEnvVar {
  env_key : string;
  env_value : string }.

(** Modelled from the spec: [OrbiterInclude], identity [filepath]. *)
Record OrbiterInclude := mkInclude {
  filepath : string;
  contents : string }.

(** Modelled from the spec: [OrbiterRequirement], a hashable value; repr
    [OrbiterRequirements(names=[DAG], package=apache-airflow, module=airflow,
    sys_package=None)]. *)
Record OrbiterRequirement := mkRequirement {
  req_names : list string;
  package : option string;
  module : option string;
  sys_package : option string }.

#[global] Instance OrbiterPool_eq_dec : EqDecision OrbiterPool.
Proof. solve_decision. Defined.
#[global] Instance OrbiterConnection_eq_dec : EqDecision OrbiterConnection.
Proof. solve_decision. Defined.
#[global] Instance OrbiterVariable_eq_dec : EqDecision OrbiterVariable.
Proof. solve_decision. Defined.
#[global] Instance OrbiterEnvVar_eq_dec : EqDecision OrbiterEnvVar.
Proof. solve_decision. Defined.
#[global] Instance OrbiterInclude_eq_dec : EqDecision OrbiterInclude.
Proof. solve_decision. Defined.
#[global] Instance OrbiterRequirement_eq_dec : EqDecision OrbiterRequirement.
Proof. solve_decision. Defined.

#[global] Instance OrbiterRequirement_countable : Countable OrbiterRequirement.
Proof.
  apply (inj_countable'
    (fun r => (req_names r, package r, module r, sys_package r))
    (fun t => match t with (n, p, m, s) => mkRequirement n p m s end)).
  intros []; reflexivity.
Defined.

(** ** Python values

    The walker and the validators look at arbitrary Python objects
    ([hasattr], [isinstance], [__dict__], truthiness, iteration), so values
    are a tagged tree. *)

Inductive py_class :=
| OrbiterOperator
| OrbiterTaskGroup
| OrbiterCallback
| OrbiterTimetable
| PyObject.

#[global] Instance py_class_eq_dec : EqDecision py_class.
Proof. solve_decision. Defined.

(** [PyList] stands for the builtin sequences and sets (list, tuple, set);
    [PyObj cls attrs] is an instance whose [__dict__ | model_extra] is the
    association list [attrs]; the orbiter classes are pydantic models,
    [PyObject] is any other class. *)
#[warnings="-register-all"]
Inductive thing :=
| PyNone
| PyInt (z : Z)
| PyStr (s : string)
| PyList (items : list thing)
| PyDict (kvs : list (string * thing))
| PyPool (p : OrbiterPool)
| PyConnection (c : OrbiterConnection)
| PyVariable (v : OrbiterVariable)
| PyEnvVar (e : OrbiterEnvVar)
| PyInclude (i : OrbiterInclude)
| PyRequirement (r : OrbiterRequirement)
| PyObj (cls : py_class) (attrs : list (string * thing))
| PyDAG (d : OrbiterDAG)
with OrbiterDAG :=
| mkDAG (dag_id : string) (file_path : string)
        (tasks : list (string * thing)) (dag_attrs : list (string * thing)).

Definition dag_id (d : OrbiterDAG) : string :=
  match d with mkDAG i _ _ _ => i end.
Definition file_path (d : OrbiterDAG) : string :=
  match d with mkDAG _ f _ _ => f end.
Definition tasks (d : OrbiterDAG) : list (string * thing) :=
  match d with mkDAG _ _ t _ => t end.
Definition dag_attrs (d : OrbiterDAG) : list (string * thing) :=
  match d with mkDAG _ _ _ a => a end.

(** Lookup in an association list, first binding wins. *)
Fixpoint assoc {V} (k : string) (l : list (string * V)) : option V :=
  match l with
  | [] => None
  | (k', v) :: l' => if decide (k = k') then Some v else assoc k l'
  end.

Definition opt_str (o : option string) : thing :=
  match o with Some s => PyStr s | None => PyNone end.

(** [vars(thing) | thing.model_extra]: [None] for the builtins, which have
    no [__dict__]. *)
Definition py_vars (t : thing) : option (list (string * thing)) :=
  match t with
  | PyNone | PyInt _ | PyStr _ | PyList _ | PyDict _ => None
  | PyPool p =>
      Some [("name", PyStr (pool_name p));
            ("description", PyStr (pool_description p));
            ("slots", PyInt (slots p))]
  | PyConnection c =>
      Some [("conn_id", PyStr (conn_id c)); ("conn_type", PyStr (conn_type c))]
  | PyVariable v =>
      Some [("key", PyStr (var_key v)); ("value", PyStr (var_value v))]
  | PyEnvVar e =>
      Some [("key", PyStr (env_key e)); ("value", PyStr (env_value e))]
  | PyInclude i =>
      Some [("filepath", PyStr (filepath i)); ("contents", PyStr (contents i))]
  | PyRequirement r =>
      Some [("names", PyList (map PyStr (req_names r)));
            ("package", opt_str (package r));
            ("module", opt_str (module r));
            ("sys_package", opt_str (sys_package r))]
  | PyObj _ attrs => Some attrs
  | PyDAG d =>
      Some (("dag_id", PyStr (dag_id d)) :: ("file_path", PyStr (file_path d))
            :: ("tasks", PyDict (tasks d)) :: dag_attrs d)
  end.

(** [hasattr(thing, name)] and [getattr(thing, name)]. *)
Definition py_getattr (t : thing) (name : string) : option thing :=
  match py_vars t with
  | Some vs => assoc name vs
  | None => None
  end.

(** Truth value of an object: [None], [0], and the empty string, sequence
    or dict are falsy; every instance is truthy. *)
Definition py_truthy (t : thing) : bool :=
  match t with
  | PyNone => false
  | PyInt z => negb (z =? 0)
  | PyStr s => negb (String.eqb s "")
  | PyList items => negb (Nat.eqb (List.length items) 0)
  | PyDict kvs => negb (Nat.eqb (List.length kvs) 0)
  | _ => true
  end.

(** [iter(thing)]: a string yields its characters, a dict its keys, a
    pydantic model its [(field, value)] pairs; [None], an [int] and a plain
    object are not iterable. *)
Definition py_iter (t : thing) : option (list thing) :=
  match t with
  | PyNone | PyInt _ => None
  | PyStr s => Some (map (fun c => PyStr (String c EmptyString)) (list_ascii_of_string s))
  | PyList items => Some items
  | PyDict kvs => Some (map (fun kv => PyStr (fst kv)) kvs)
  | PyObj PyObject _ => None
  | _ =>
      match py_vars t with
      | Some vs => Some (map (fun kv => PyList [PyStr (fst kv); snd kv]) vs)
      | None => None
      end
  end.

Definition is_str (t : thing) : bool :=
  match t with PyStr _ => true | _ => false end.

Definition is_task_group (t : thing) : bool :=
  match t with PyObj OrbiterTaskGroup _ => true | _ => false end.

Definition is_dict (t : thing) : bool :=
  match t with PyDict _ => true | _ => false end.

(** [isinstance] checks, returning the typed entity. *)
Definition as_pool (t : thing) : option OrbiterPool :=
  match t with PyPool p => Some p | _ => None end.
Definition as_connection (t : thing) : option OrbiterConnection :=
  match t with PyConnection c => Some c | _ => None end.
Definition as_variable (t : thing) : option OrbiterVariable :=
  match t with PyVariable v => Some v | _ => None end.
Definition as_env_var (t : thing) : option OrbiterEnvVar :=
  match t with PyEnvVar e => Some e | _ => None end.
Definition as_include (t : thing) : option OrbiterInclude :=
  match t with PyInclude i => Some i | _ => None end.
Definition as_requirement (t : thing) : option OrbiterRequirement :=
  match t with PyRequirement r => Some r | _ => None end.
Definition as_dag (t : thing) : option OrbiterDAG :=
  match t with PyDAG d => Some d | _ => None end.

(** ** Python dicts

    A [dict] keeps insertion order; assigning to an existing key keeps the
    key's position. *)
Definition pydict (V : Type) := list (string * V).

Fixpoint dict_set {V} (k : string) (v : V) (d : pydict V) : pydict V :=
  match d with
  | [] => [(k, v)]
  | (k', v') :: d' =>
      if decide (k = k') then (k, v) :: d' else (k', v') :: dict_set k v d'
  end.

Definition dict_get {V} (k : string) (d : pydict V) : option V := assoc k d.
Definition dict_keys {V} (d : pydict V) : list string := map fst d.
Definition dict_values {V} (d : pydict V) : list V := map snd d.
Definition dict_mem {V} (k : string) (d : pydict V) : bool :=
  match dict_get k d with Some _ => true | None => false end.

(** The representation invariant of a dict: every key once. *)
Definition dict_wf {V} (d : pydict V) : Prop := NoDup (dict_keys d).

(** ** The project *)

Record OrbiterProject := mkProject {
  dags : pydict OrbiterDAG;
  requirements : gset OrbiterRequirement;
  pools : pydict OrbiterPool;
  connections : pydict OrbiterConnection;
  variables : pydict OrbiterVariable;
  env_vars : pydict OrbiterEnvVar;
  includes : pydict OrbiterInclude }.

(** [OrbiterProject()] *)
Definition empty_project : OrbiterProject :=
  mkProject [] ∅ [] [] [] [] [].

Definition project_wf (P : OrbiterProject) : Prop :=
  dict_wf (dags P) /\ dict_wf (pools P) /\ dict_wf (connections P) /\
  dict_wf (variables P) /\ dict_wf (env_vars P) /\ dict_wf (includes P).

(** ** Exceptions and the method monad

    A method runs on the project it is called on and either returns or
    raises; what it mutated before raising stays mutated. *)
Inductive exn :=
| ValidationError
| TypeError (msg : string)
| RuntimeError (msg : string)
| AttributeError (name : string)
| KeyError (key : string)
| RecursionError.

Definition M (S A : Type) : Type := S -> (exn + A) * S.

Definition ret {S A} (a : A) : M S A := fun s => (inr a, s).
Definition raise {S A} (e : exn) : M S A := fun s => (inl e, s).
Definition bind {S A B} (m : M S A) (f : A -> M S B) : M S B :=
  fun s => match m s with
           | (inr a, s') => f a s'
           | (inl e, s') => (inl e, s')
           end.
Definition modify {S} (f : S -> S) : M S unit := fun s => (inr tt, f s).

Notation "x <- m ;; k" := (bind m (fun x => k))
  (at level 100, m at next level, right associativity).
Notation "m ;; k" := (bind m (fun _ => k))
  (at level 100, right associativity).

(** [for x in xs: body(x)] *)
Fixpoint for_each {S A} (xs : list A) (body : A -> M S unit) : M S unit :=
  match xs with
  | [] => ret tt
  | x :: rest => body x ;; for_each rest body
  end.

(** ** [validate_call]

    Each add-operation is wrapped by pydantic's [validate_call] and its
    parameter is annotated [Entity | Iterable[Entity]].  An instance of the
    entity class is passed through.  Anything else is tried as
    [Iterable[Entity]]: pydantic only checks that the value is iterable and
    hands the function a validating iterator, which checks each item when
    the loop asks for it and raises [ValidationError] at the first item that
    is not an entity.  A value that is neither raises [ValidationError] at
    the call.  (Pydantic also builds an entity from a dict of its fields;
    that coercion is left out, and the statements about validation below
    are about values that are not dicts.) *)
Section validate_call.
Context {S A : Type}.
Variable isinstance : thing -> option A.
Variable body : A -> M S unit.

(** The loop over the validating iterator. *)
Fixpoint for_validated (items : list thing) : M S unit :=
  match items with
  | [] => ret tt
  | x :: rest =>
      match isinstance x with
      | Some a => body a ;; for_validated rest
      | None => raise ValidationError
      end
  end.

(** [for x in ([arg] if isinstance(arg, Entity) else arg): body(x)] behind
    the validator. *)
Definition validated_for (arg : thing) : M S unit :=
  match isinstance arg with
  | Some a => body a
  | None =>
      match py_iter arg with
      | Some items => for_validated items
      | None => raise ValidationError
      end
  end.

End validate_call.

(** ** The add-operations *)

Definition set_dags f (P : OrbiterProject) : OrbiterProject :=
  mkProject (f (dags P)) (requirements P) (pools P) (connections P)
            (variables P) (env_vars P) (includes P).
Definition set_requirements f (P : OrbiterProject) : OrbiterProject :=
  mkProject (dags P) (f (requirements P)) (pools P) (connections P)
            (variables P) (env_vars P) (includes P).
Definition set_pools f (P : OrbiterProject) : OrbiterProject :=
  mkProject (dags P) (requirements P) (f (pools P)) (connections P)
            (variables P) (env_vars P) (includes P).
Definition set_connections f (P : OrbiterProject) : OrbiterProject :=
  mkProject (dags P) (requirements P) (pools P) (f (connections P))
            (variables P) (env_vars P) (includes P).
Definition set_variables f (P : OrbiterProject) : OrbiterProject :=
  mkProject (dags P) (requirements P) (pools P) (connections P)
            (f (variables P)) (env_vars P) (includes P).
Definition set_env_vars f (P : OrbiterProject) : OrbiterProject :=
  mkProject (dags P) (requirements P) (pools P) (connections P)
            (variables P) (f (env_vars P)) (includes P).
Definition set_includes f (P : OrbiterProject) : OrbiterProject :=
  mkProject (dags P) (requirements P) (pools P) (connections P)
            (variables P) (env_vars P) (f (includes P)).

Abbreviation Method := (M OrbiterProject unit).

(** [self.connections[connection.conn_id] = connection] *)
Definition add_connection (c : OrbiterConnection) : Method :=
  modify (set_connections (dict_set (conn_id c) c)).
Definition add_connections : thing -> Method :=
  validated_for as_connection add_connection.

(** [self.env_vars[env_var.key] = env_var] *)
Definition add_env_var (e : OrbiterEnvVar) : Method :=
  modify (set_env_vars (dict_set (env_key e) e)).
Definition add_env_vars : thing -> Method :=
  validated_for as_env_var add_env_var.

(** [self.includes[include.filepath] = include] *)
Definition add_include (i : OrbiterInclude) : Method :=
  modify (set_includes (dict_set (filepath i) i)).
Definition add_includes : thing -> Method :=
  validated_for as_include add_include.

(** [self.variables[variable.key] = variable] *)
Definition add_variable (v : OrbiterVariable) : Method :=
  modify (set_variables (dict_set (var_key v) v)).
Definition add_variables : thing -> Method :=
  validated_for as_variable add_variable.

(** [self.requirements.add(requirement)] *)
Definition add_requirement (r : OrbiterRequirement) : Method :=
  modify (set_requirements (fun s => {[ r ]} ∪ s)).
Definition add_requirements : thing -> Method :=
  validated_for as_requirement add_requirement.

Section Aggregator.

(** [OrbiterPool.__add__] and [OrbiterDAG.__add__], the merges behind
    [self.pools[name] += pool] and [self.dags[dag_id] += dag]; their
    modules are not among the sources, so they are parameters. *)
Variable pool_add : OrbiterPool -> OrbiterPool -> OrbiterPool.
Variable dag_add : OrbiterDAG -> OrbiterDAG -> OrbiterDAG.

(** [if pool.name in self.pools: self.pools[pool.name] += pool
     else: self.pools[pool.name] = pool] *)
Definition merge_pool (pool : OrbiterPool) (d : pydict OrbiterPool) : pydict OrbiterPool :=
  match dict_get (pool_name pool) d with
  | Some existing => dict_set (pool_name pool) (pool_add existing pool) d
  | None => dict_set (pool_name pool) pool d
  end.
Definition add_pool (pool : OrbiterPool) : Method :=
  modify (set_pools (merge_pool pool)).
Definition add_pools : thing -> Method :=
  validated_for as_pool add_pool.

(** [if dag_id in self.dags: self.dags[dag_id] += dag
     else: self.dags[dag_id] = dag] *)
Definition merge_dag (dag : OrbiterDAG) (d : pydict OrbiterDAG) : pydict OrbiterDAG :=
  match dict_get (dag_id dag) d with
  | Some existing => dict_set (dag_id dag) (dag_add existing dag) d
  | None => dict_set (dag_id dag) dag d
  end.

(** [if hasattr(thing, name) and (value := getattr(thing, name)): add(value)] *)
Definition probe (t : thing) (name : string) (add : thing -> Method) : Method :=
  match py_getattr t name with
  | Some value => if py_truthy value then add value else ret tt
  | None => ret tt
  end.

(** The body of the loop of [_add_recursively]; [recur] is the nested call
    [_add_recursively(...)]. *)
Definition visit (recur : thing -> Method) (t : thing) : Method :=
  if is_str t then ret tt else
  probe t "orbiter_pool" add_pools ;;
  probe t "orbiter_conns" add_connections ;;
  probe t "orbiter_vars" add_variables ;;
  probe t "orbiter_env_vars" add_env_vars ;;
  probe t "orbiter_includes" add_includes ;;
  probe t "imports" add_requirements ;;
  (if is_task_group t then
     match py_getattr t "tasks" with
     | Some tasks_ => if py_truthy tasks_ then recur tasks_ else ret tt
     | None => raise (AttributeError "tasks")
     end
   else ret tt) ;;
  match py_vars t with
  | Some vs => recur (PyList (map snd vs))
  | None => ret tt
  end.

(** The walker.  Python bounds the depth of nested calls; [limit] is the
    number of nested [_add_recursively] frames still available, and a call
    with none left raises [RecursionError].  The argument is any iterable. *)
Fixpoint _add_recursively (limit : nat) (things : thing) : Method :=
  match limit with
  | O => raise RecursionError
  | Datatypes.S limit' =>
      match py_iter things with
      | None => raise (TypeError "object is not iterable")
      | Some items => for_each items (visit (_add_recursively limit'))
      end
  end.

(** The body of the loop of [add_dags]. *)
Definition add_dag (limit : nat) (dag : OrbiterDAG) : Method :=
  modify (set_dags (merge_dag dag)) ;;
  _add_recursively limit (PyList (map snd (tasks dag))) ;;
  _add_recursively limit (PyList [PyDAG dag]).
Definition add_dags (limit : nat) : thing -> Method :=
  validated_for as_dag (add_dag limit).

End Aggregator.

(** ** [__add__]: combining two projects

    Projects are objects with identity; the heap maps a reference to the
    project's current state.  A method call on [self] updates the heap at
    [self]; its arguments are read from the heap when the call is made. *)
Abbreviation loc := nat.
Abbreviation heap := (loc -> OrbiterProject).

(** The right operand of [+]: a project, or any other value. *)
Inductive operand :=
| Ref (other : loc)
| Value (t : thing).

(** [self.method(arg)] where [arg] is computed from the heap. *)
Definition call (self : loc) (m : heap -> Method) : M heap unit :=
  fun h => let '(r, P') := m h (h self) in (r, <[self := P']> h).

(** [type(other)] as the message prints it. *)
Definition py_type (t : thing) : string :=
  match t with
  | PyNone => "<class 'NoneType'>"
  | PyInt _ => "<class 'int'>"
  | PyStr _ => "<class 'str'>"
  | PyList _ => "<class 'list'>"
  | PyDict _ => "<class 'dict'>"
  | PyPool _ => "<class 'orbiter.objects.pool.OrbiterPool'>"
  | PyConnection _ => "<class 'orbiter.objects.connection.OrbiterConnection'>"
  | PyVariable _ => "<class 'orbiter.objects.variable.OrbiterVariable'>"
  | PyEnvVar _ => "<class 'orbiter.objects.env_var.OrbiterEnvVar'>"
  | PyInclude _ => "<class 'orbiter.objects.include.OrbiterInclude'>"
  | PyRequirement _ => "<class 'orbiter.objects.requirement.OrbiterRequirement'>"
  | PyObj _ _ => "<class 'object'>"
  | PyDAG _ => "<class 'orbiter.objects.dag.OrbiterDAG'>"
  end.

Section Combine.
Variable pool_add : OrbiterPool -> OrbiterPool -> OrbiterPool.
Variable dag_add : OrbiterDAG -> OrbiterDAG -> OrbiterDAG.

(** The seven calls of [__add__], for the state [other] of the right
    operand. *)
Definition dags_of (other : OrbiterProject) : thing :=
  PyList (map PyDAG (dict_values (dags other))).
Definition requirements_of (other : OrbiterProject) : thing :=
  PyList (map PyRequirement (elements (requirements other))).
Definition pools_of (other : OrbiterProject) : thing :=
  PyList (map PyPool (dict_values (pools other))).
Definition connections_of (other : OrbiterProject) : thing :=
  PyList (map PyConnection (dict_values (connections other))).
Definition variables_of (other : OrbiterProject) : thing :=
  PyList (map PyVariable (dict_values (variables other))).
Definition env_vars_of (other : OrbiterProject) : thing :=
  PyList (map PyEnvVar (dict_values (env_vars other))).
Definition includes_of (other : OrbiterProject) : thing :=
  PyList (map PyInclude (dict_values (includes other))).

Definition __add__ (limit : nat) (self : loc) (other : operand) : M heap loc :=
  match other with
  | Value t =>
      if negb (py_truthy t) then ret self
      else raise (TypeError ("Expected OrbiterProject, got " ++ py_type t))
  | Ref o =>
      call self (fun h => add_dags pool_add dag_add limit (dags_of (h o))) ;;
      call self (fun h => add_requirements (requirements_of (h o))) ;;
      call self (fun h => add_pools pool_add (pools_of (h o))) ;;
      call self (fun h => add_connections (connections_of (h o))) ;;
      call self (fun h => add_variables (variables_of (h o))) ;;
      call self (fun h => add_env_vars (env_vars_of (h o))) ;;
      call self (fun h => add_includes (includes_of (h o))) ;;
      ret self
  end.

End Combine.

(** ** [__eq__] *)

(** [d[k]] *)
Definition getitem {V} (k : string) (d : pydict V) : exn + V :=
  match dict_get k d with
  | Some v => inr v
  | None => inl (KeyError k)
  end.

(** [[f(x) for x in xs]], stopping at the first exception. *)
Fixpoint comprehension {A B} (f : A -> exn + B) (xs : list A) : exn + list B :=
  match xs with
  | [] => inr []
  | x :: rest =>
      match f x with
      | inl e => inl e
      | inr b =>
          match comprehension f rest with
          | inl e => inl e
          | inr bs => inr (b :: bs)
          end
      end
  end.

(** [d1 == d2] on dicts: the same keys with equal values, in any order. *)
Definition dict_eqb {V} `{EqDecision V} (d1 d2 : pydict V) : bool :=
  Nat.eqb (List.length d1) (List.length d2) &&
  forallb (fun kv => bool_decide (dict_get (fst kv) d2 = Some (snd kv))) d1.

Section Equality.
(** [str(dag)], the rendered text of a DAG. *)
Variable dag_str : OrbiterDAG -> string.

Definition same_text (self other : OrbiterProject) (d : string) : exn + bool :=
  match getitem d (dags self) with
  | inl e => inl e
  | inr a =>
      match getitem d (dags other) with
      | inl e => inl e
      | inr b => inr (String.eqb (dag_str a) (dag_str b))
      end
  end.

Definition __eq__ (self other : OrbiterProject) : exn + bool :=
  match comprehension (same_text self other) (dict_keys (dags self)) with
  | inl e => inl e
  | inr by_self =>
      match comprehension (same_text self other) (dict_keys (dags other)) with
      | inl e => inl e
      | inr by_other =>
          inr (forallb (fun b => b)
                 (by_self ++ by_other
                  ++ [bool_decide (requirements self = requirements other)]
                  ++ [dict_eqb (pools self) (pools other)]
                  ++ [dict_eqb (connections self) (connections other)]
                  ++ [dict_eqb (variables self) (variables other)]
                  ++ [dict_eqb (env_vars self) (env_vars other)])%list)
      end
  end.

End Equality.

(** ** [render] *)

(** What [render] does to the file system, in order. *)
Inductive fs_op :=
| Mkdir (p : string)
| WriteText (p : string) (text : string).

Definition newline : string := String (ascii_of_nat 10) EmptyString.

(** The order of [str]: by code point, which on UTF-8 text is the order of
    the bytes. *)
Definition str_le (s1 s2 : string) : Prop := String.leb s1 s2 = true.

#[global] Instance str_le_dec : RelDecision str_le.
Proof. intros s1 s2. unfold str_le. apply _. Defined.

(** [sorted(xs)] on strings. *)
Definition sorted (xs : list string) : list string := merge_sort str_le xs.

(** [if s] for [s : str | None]. *)
Definition nonempty (o : option string) : option string :=
  match o with
  | Some s => if String.eqb s "" then None else Some s
  | None => None
  end.

(** What [render] takes from the entities and the libraries: [str(dag)],
    the [render()] of each entity kind ([rendered] is what an entity
    renders to inside the settings document), [yaml.safe_dump] of
    [{"airflow": {"pools": .., "variables": .., "connections": ..}}], and
    [pathlib]'s [path / name] and [path.parent]. *)
Record Renderers := {
  dag_str : OrbiterDAG -> string;
  rendered : Type;
  pool_render : OrbiterPool -> rendered;
  variable_render : OrbiterVariable -> rendered;
  connection_render : OrbiterConnection -> rendered;
  include_render : OrbiterInclude -> string;
  env_render : OrbiterEnvVar -> string;
  yaml_safe_dump : list rendered -> list rendered -> list rendered -> string;
  joinpath : string -> string -> string;
  parent : string -> string }.

Section Render.
Variable rs : Renderers.
(** The order in which a [set] is iterated. *)
Variable set_iter : forall (A : Type) (E : EqDecision A) (C : Countable A), gset A -> list A.

Definition mkdir (p : string) : M (list fs_op) unit :=
  modify (fun fs => (fs ++ [Mkdir p])%list).
Definition write_text (p : string) (text : string) : M (list fs_op) unit :=
  modify (fun fs => (fs ++ [WriteText p text])%list).

(** ["\n".join(sorted(set(f(r) for r in self.requirements if f(r))))],
    when [len([1 for r in self.requirements if f(r)])] is not zero. *)
Definition manifest (f : OrbiterRequirement -> option string)
    (self : OrbiterProject) : option string :=
  let named := omap (fun r => nonempty (f r)) (set_iter _ _ _ (requirements self)) in
  if Nat.eqb (List.length named) 0 then None
  else Some (String.concat newline
               (sorted (set_iter _ _ _ (list_to_set named : gset string)))).

Definition render (self : OrbiterProject) (output_dir : string) : M (list fs_op) unit :=
  if Nat.eqb (List.length (dags self)) 0 then raise (RuntimeError "No DAGs to render!")
  else
    let dags_dir := joinpath rs output_dir "dags" in
    mkdir dags_dir ;;
    for_each (dags self) (fun '(_, dag) =>
      let dag_file := joinpath rs dags_dir (file_path dag) in
      mkdir (parent rs dag_file) ;;
      write_text dag_file (dag_str rs dag)) ;;
    match manifest package self with
    | Some text => write_text (joinpath rs output_dir "requirements.txt") text
    | None => ret tt
    end ;;
    match manifest sys_package self with
    | Some text => write_text (joinpath rs output_dir "packages.txt") text
    | None => ret tt
    end ;;
    (if negb (Nat.eqb (List.length (pools self)) 0)
        || negb (Nat.eqb (List.length (variables self)) 0)
        || negb (Nat.eqb (List.length (connections self)) 0)
     then write_text (joinpath rs output_dir "airflow_settings.yaml")
            (yaml_safe_dump rs (map (pool_render rs) (dict_values (pools self)))
                            (map (variable_render rs) (dict_values (variables self)))
                            (map (connection_render rs) (dict_values (connections self))))
     else ret tt) ;;
    (if negb (Nat.eqb (List.length (includes self)) 0)
     then for_each (dict_values (includes self)) (fun include =>
            write_text (joinpath rs output_dir (filepath include)) (include_render rs include))
     else ret tt) ;;
    (if negb (Nat.eqb (List.length (env_vars self)) 0)
     then write_text (joinpath rs output_dir ".env")
            (String.concat newline (map (env_render rs) (dict_values (env_vars self))))
     else ret tt).

End Render.

(** ** [__repr__] *)

Section Repr.
(** [repr(s)] of a [str], and the text of [sorted(self.requirements)]: the
    order and the repr of [OrbiterRequirement] are defined outside the
    sources. *)
Variable str_repr : string -> string.
Variable requirements_text : gset OrbiterRequirement -> string.

(** [f"{xs}"] for a list of [str]. *)
Definition list_text (xs : list string) : string :=
  "[" ++ String.concat ", " (map str_repr xs) ++ "]".

Definition __repr__ (self : OrbiterProject) : string :=
  "OrbiterProject("
  ++ "dags=[" ++ String.concat "," (sorted (dict_keys (dags self))) ++ "], "
  ++ "requirements=" ++ requirements_text (requirements self) ++ ", "
  ++ "pools=" ++ list_text (sorted (dict_keys (pools self))) ++ ", "
  ++ "connections=" ++ list_text (sorted (dict_keys (connections self))) ++ ", "
  ++ "variables=" ++ list_text (sorted (dict_keys (variables self))) ++ ", "
  ++ "env_vars=" ++ list_text (sorted (dict_keys (env_vars self))) ++ ")".

End Repr.

(** ** [analyze] *)

(** A cell of the analysis table: the file name under the key [""], a
    count under every other key. *)
Inductive cell :=
| Label (s : string)
| Count (n : nat).

#[global] Instance cell_eq_dec : EqDecision cell.
Proof. solve_decision. Defined.

(** [d | other] and [d |= other]: the entries of [other] are set in [d],
    in their order. *)
Definition dict_update {V} (d other : pydict V) : pydict V :=
  fold_left (fun acc kv => dict_set (fst kv) (snd kv) acc) other d.

(** A loop whose body can raise. *)
Fixpoint fold_exn {A B} (f : B -> A -> exn + B) (xs : list A) (b : B) : exn + B :=
  match xs with
  | [] => inr b
  | x :: rest =>
      match f b x with
      | inl e => inl e
      | inr b' => fold_exn f rest b'
      end
  end.

(** An entry of [dag_analysis]. *)
Record analysis := mkAnalysis {
  analysis_file : string;
  analysis_dag_id : string;
  analysis_task_types : list string }.

Section Analyze.
(** [type(task).__name__], and the file a DAG is reported under,
    [dag.orbiter_kwargs.get("file_path", dag.file_path)]: the classes of
    the tasks and the field [orbiter_kwargs] are defined outside the
    sources. *)
Variable type_name : thing -> string.
Variable report_file : OrbiterDAG -> string.

Definition dag_analysis (self : OrbiterProject) : list analysis :=
  map (fun dag => mkAnalysis (report_file dag) (dag_id dag)
                    (map type_name (dict_values (tasks dag))))
      (dict_values (dags self)).

(** [reduce(lambda acc, task_type: acc | {task_type: acc.get(task_type, 0) + 1},
    task_types, dict())]. *)
Definition tasks_of_type (task_types : list string) : pydict nat :=
  fold_left (fun acc task_type =>
               dict_set task_type (default 0 (dict_get task_type acc) + 1)%nat acc)
            task_types [].

(** One turn of [for analysis in dag_analysis]. *)
Definition analysis_output (file_analysis : pydict (pydict nat)) (a : analysis)
    : pydict nat :=
  let analysis_output := default [] (dict_get (analysis_file a) file_analysis) in
  let analysis_output :=
    dict_set "DAGs" (default 0 (dict_get "DAGs" analysis_output) + 1)%nat analysis_output in
  dict_update analysis_output (tasks_of_type (analysis_task_types a)).

Definition file_analysis (self : OrbiterProject) : pydict (pydict nat) :=
  fold_left (fun file_analysis a =>
               dict_set (analysis_file a) (analysis_output file_analysis a) file_analysis)
            (dag_analysis self) [].

(** [[{"": k} | v for k, v in file_analysis.items()]]. *)
Definition file_rows (file_analysis : pydict (pydict nat)) : list (pydict cell) :=
  map (fun kv => dict_update [("", Label (fst kv))]
                   (map (fun tn => (fst tn, Count (snd tn))) (snd kv)))
      file_analysis.

(** [totals[k] = totals.get(k, 0) + v] when [k != ""]; adding a [str] to
    an [int] raises. *)
Definition add_to_totals (totals : pydict cell) (kv : string * cell) : exn + pydict cell :=
  if decide (fst kv = "") then inr totals
  else
    match default (Count 0%nat) (dict_get (fst kv) totals), snd kv with
    | Count a, Count v => inr (dict_set (fst kv) (Count (a + v)%nat) totals)
    | _, _ => inl (TypeError "unsupported operand type(s) for +: 'int' and 'str'")
    end.

Definition totals (rows : list (pydict cell)) : exn + pydict cell :=
  fold_exn (fun totals file => fold_exn add_to_totals file totals)
           rows [("", Label "Totals")].

(** The table that [analyze] prints, as JSON, CSV or Markdown: the rows of
    the files, then the totals.  The argument is validated before the body
    runs; the printing itself is left out. *)
Definition analyze (self : OrbiterProject) (output_fmt : string)
    : exn + list (pydict cell) :=
  if bool_decide (output_fmt ∈ ["json"; "csv"; "md"]) then
    let rows := file_rows (file_analysis self) in
    match totals rows with
    | inl e => inl e
    | inr t => inr (rows ++ [t])%list
    end
  else inl ValidationError.

End Analyze.

(** * Properties *)

(** ** Dicts *)

Lemma dict_get_set_eq {V} k (v : V) d : dict_get k (dict_set k v d) = Some v.
Proof.
  unfold dict_get. induction d as [|[k' v'] d IH]; simpl.
  - destruct (decide (k = k)); congruence.
  - destruct (decide (k = k')) as [->|Hne]; simpl.
    + destruct (decide (k' = k')); congruence.
    + destruct (decide (k = k')); [congruence|exact IH].
Qed.

Lemma dict_get_set_ne {V} k k' (v : V) d :
  k <> k' -> dict_get k' (dict_set k v d) = dict_get k' d.
Proof.
  unfold dict_get. intros Hne. induction d as [|[k0 v0] d IH]; simpl.
  - destruct (decide (k' = k)); congruence.
  - destruct (decide (k = k0)) as [->|Hne0]; simpl.
    + destruct (decide (k' = k0)); congruence.
    + destruct (decide (k' = k0)); [reflexivity|exact IH].
Qed.

Lemma dict_get_Some_keys {V} k (v : V) d :
  dict_get k d = Some v -> In k (dict_keys d).
Proof.
  unfold dict_get. induction d as [|[k' v'] d IH]; simpl; [discriminate|].
  destruct (decide (k = k')); [left; congruence | right; auto].
Qed.

Lemma dict_get_None_keys {V} k (d : pydict V) :
  dict_get k d = None <-> ~ In k (dict_keys d).
Proof.
  unfold dict_get. induction d as [|[k' v'] d IH]; simpl; [tauto|].
  destruct (decide (k = k')) as [->|Hne].
  - split; [discriminate | intros H; exfalso; apply H; left; reflexivity].
  - rewrite IH. split; [intros H [E|I]; [congruence|tauto] | tauto].
Qed.

Lemma dict_keys_set {V} k (v : V) d :
  dict_keys (dict_set k v d) =
  if dict_mem k d then dict_keys d else (dict_keys d ++ [k])%list.
Proof.
  unfold dict_mem, dict_get. induction d as [|[k' v'] d IH]; simpl; [reflexivity|].
  destruct (decide (k = k')) as [->|Hne]; simpl; [reflexivity|].
  rewrite IH. destruct (assoc k d); reflexivity.
Qed.

Lemma dict_wf_set {V} k (v : V) d : dict_wf d -> dict_wf (dict_set k v d).
Proof.
  unfold dict_wf. intros Hwf. rewrite dict_keys_set.
  unfold dict_mem. destruct (dict_get k d) eqn:E; [exact Hwf|].
  apply dict_get_None_keys in E.
  apply NoDup_app. repeat split; [exact Hwf| |apply NoDup_singleton].
  intros x Hx Hx'. apply list_elem_of_In in Hx.
  apply list_elem_of_singleton in Hx'. subst. tauto.
Qed.


(** The number of times a key occurs among the keys of a dict. *)
Definition key_count {V} (k : string) (d : pydict V) : nat :=
  List.length (filter (fun k' => k' = k) (dict_keys d)).

Lemma key_count_wf {V} k (v : V) d :
  dict_wf d -> dict_get k d = Some v -> key_count k d = 1%nat.
Proof.
  unfold dict_wf, key_count, dict_get.
  induction d as [|[k' v'] d IH]; simpl; [discriminate|].
  intros Hnd Hget. apply NoDup_cons in Hnd as [Hnotin Hnd].
  rewrite filter_cons. destruct (decide (k = k')) as [->|Hne].
  - destruct (decide (k' = k')); [|congruence]. simpl. f_equal.
    assert (Hf : forall l : list string, k' ∉ l -> filter (fun x => x = k') l = []).
    { intros l Hl. induction l as [|x l IHl]; [reflexivity|].
      rewrite filter_cons. apply not_elem_of_cons in Hl as [Hx Hl].
      destruct (decide (x = k')); [congruence|auto]. }
    rewrite Hf; [reflexivity|exact Hnotin].
  - destruct (decide (k' = k)); [congruence|]. apply IH; assumption.
Qed.

(** ** The monad *)

Lemma for_each_modify {S A} (f : A -> S -> S) (xs : list A) (s : S) :
  for_each xs (fun a => modify (f a)) s = (inr tt, fold_left (fun s a => f a s) xs s).
Proof.
  revert s. induction xs as [|x xs IH]; intros s; simpl; [reflexivity|].
  unfold bind, modify at 1. simpl. apply IH.
Qed.

Lemma for_validated_entities {S A} (isinstance : thing -> option A)
    (inj : A -> thing) (body : A -> M S unit) (es : list A) :
  (forall a, isinstance (inj a) = Some a) ->
  for_validated isinstance body (map inj es) = for_each es body.
Proof.
  intros Hinj. induction es as [|e es IH]; simpl; [reflexivity|].
  rewrite Hinj, IH. reflexivity.
Qed.

(** ** Overwrite by key: connections, variables, env vars, includes *)

(** The last entity of [es] whose key is [k]. *)
Fixpoint last_by {A} (key : A -> string) (k : string) (es : list A) : option A :=
  match es with
  | [] => None
  | e :: es' =>
      match last_by key k es' with
      | Some x => Some x
      | None => if decide (key e = k) then Some e else None
      end
  end.

(** What last-write-wins means for the add-operation [add] of the collection
    [coll]: a single entity is treated as a one-element sequence; after a
    sequence of entities the call has returned, a key holds the last entity
    added under it, unchanged as passed, or what it held before when none
    was, and no other collection of the project has changed. *)
Definition last_write_wins {A} (key : A -> string) (inj : A -> thing)
    (coll : OrbiterProject -> pydict A)
    (set : (pydict A -> pydict A) -> OrbiterProject -> OrbiterProject)
    (add : thing -> Method) : Prop :=
  (forall P e, add (inj e) P = add (PyList [inj e]) P) /\
  (forall P es, exists P',
     add (PyList (map inj es)) P = (inr tt, P') /\
     (forall k, dict_get k (coll P') =
                match last_by key k es with
                | Some e => Some e
                | None => dict_get k (coll P)
                end) /\
     P' = set (fun _ => coll P') P).

Section overwrite.
Context {A : Type} (key : A -> string) (inj : A -> thing).
Context (isinstance : thing -> option A).
Context (coll : OrbiterProject -> pydict A).
Context (set : (pydict A -> pydict A) -> OrbiterProject -> OrbiterProject).
Hypothesis Hinj : forall a, isinstance (inj a) = Some a.
Hypothesis Hlist : forall l, isinstance (PyList l) = None.
Hypothesis Hget : forall f P, coll (set f P) = f (coll P).
Hypothesis Hset : forall f g P, set f (set g P) = set (fun d => f (g d)) P.
Hypothesis Hid : forall P, set (fun d => d) P = P.
Hypothesis Hconst : forall f P, set f P = set (fun _ => f (coll P)) P.

Definition overwritten (es : list A) (d : pydict A) : pydict A :=
  fold_left (fun d a => dict_set (key a) a d) es d.

Lemma get_overwritten k es d :
  dict_get k (overwritten es d) =
  match last_by key k es with Some e => Some e | None => dict_get k d end.
Proof.
  unfold overwritten. revert d. induction es as [|e es IH]; intros d; simpl; [reflexivity|].
  rewrite IH. destruct (last_by key k es); [reflexivity|].
  destruct (decide (key e = k)) as [<-|Hne].
  - apply dict_get_set_eq.
  - apply dict_get_set_ne. exact Hne.
Qed.

Lemma fold_set es P :
  fold_left (fun s a => set (dict_set (key a) a) s) es P = set (overwritten es) P.
Proof.
  unfold overwritten. revert P. induction es as [|e es IH]; intros P; simpl.
  - symmetry. apply Hid.
  - rewrite IH, Hset. reflexivity.
Qed.

Lemma overwrite_last_write_wins :
  last_write_wins key inj coll set
    (validated_for isinstance (fun a => modify (set (dict_set (key a) a)))).
Proof.
  split.
  - intros P e. unfold validated_for. rewrite Hinj, Hlist. simpl.
    rewrite Hinj. unfold bind, modify, ret. reflexivity.
  - intros P es. exists (set (overwritten es) P).
    unfold validated_for. rewrite Hlist. simpl.
    rewrite (for_validated_entities isinstance inj _ es Hinj).
    rewrite (for_each_modify (fun a => set (dict_set (key a) a))), fold_set.
    split; [reflexivity|]. split.
    + intros k. rewrite Hget. apply get_overwritten.
    + rewrite Hget. apply Hconst.
Qed.

End overwrite.

Ltac by_overwrite :=
  match goal with
  | |- last_write_wins ?key ?inj ?coll ?set (validated_for ?isinst _) =>
      apply (overwrite_last_write_wins key inj isinst coll set);
      try reflexivity; intros []; reflexivity
  end.

(** C5: [add_connections], [add_variables], [add_env_vars] and
    [add_includes] are last-write-wins by key ([conn_id], [key], [key],
    [filepath]): the entity added last under a key is stored as it was
    passed, replacing whatever the key held, keys that are not added keep
    their entry, and no other collection changes. *)
Theorem add_overwrite_kinds_last_write_wins :
  last_write_wins conn_id PyConnection connections set_connections add_connections /\
  last_write_wins var_key PyVariable variables set_variables add_variables /\
  last_write_wins env_key PyEnvVar env_vars set_env_vars add_env_vars /\
  last_write_wins filepath PyInclude includes set_includes add_includes.
Proof.
  unfold add_connections, add_variables, add_env_vars, add_includes,
    add_connection, add_variable, add_env_var, add_include.
  split; [|split; [|split]]; by_overwrite.
Qed.

(** ** Pools: merge on collision *)

Section pools.
Variable pool_add : OrbiterPool -> OrbiterPool -> OrbiterPool.

(** What a name holds after one more pool of that name arrives. *)
Definition merge_into (held : option OrbiterPool) (pool : OrbiterPool) : option OrbiterPool :=
  match held with
  | Some existing => Some (pool_add existing pool)
  | None => Some pool
  end.

Lemma get_merge_pool n pool d :
  dict_get n (merge_pool pool_add pool d) =
  if decide (pool_name pool = n) then merge_into (dict_get n d) pool
  else dict_get n d.
Proof.
  unfold merge_pool, merge_into. destruct (decide (pool_name pool = n)) as [<-|Hne].
  - destruct (dict_get (pool_name pool) d); apply dict_get_set_eq.
  - destruct (dict_get (pool_name pool) d); apply dict_get_set_ne; exact Hne.
Qed.

Lemma get_merge_pools n ps d :
  dict_get n (fold_left (fun d p => merge_pool pool_add p d) ps d) =
  fold_left merge_into (filter (fun p => pool_name p = n) ps) (dict_get n d).
Proof.
  revert d. induction ps as [|p ps IH]; intros d; simpl; [reflexivity|].
  rewrite IH, get_merge_pool, filter_cons.
  destruct (decide (pool_name p = n)); reflexivity.
Qed.

Lemma fold_set_pools ps P :
  fold_left (fun s p => set_pools (merge_pool pool_add p) s) ps P =
  set_pools (fun d => fold_left (fun d p => merge_pool pool_add p d) ps d) P.
Proof.
  revert P. induction ps as [|p ps IH]; intros P; simpl.
  - destruct P; reflexivity.
  - rewrite IH. reflexivity.
Qed.

Lemma add_pools_entities ps P :
  add_pools pool_add (PyList (map PyPool ps)) P =
  (inr tt, set_pools (fun d => fold_left (fun d p => merge_pool pool_add p d) ps d) P).
Proof.
  unfold add_pools, validated_for. simpl.
  rewrite (for_validated_entities as_pool PyPool _ ps (fun _ => eq_refl)).
  unfold add_pool.
  rewrite (for_each_modify (fun p => set_pools (merge_pool pool_add p))).
  rewrite fold_set_pools. reflexivity.
Qed.

Lemma add_pools_single p P :
  add_pools pool_add (PyPool p) P = add_pools pool_add (PyList [PyPool p]) P.
Proof. reflexivity. Qed.

End pools.

(** The doctest of [add_pools]:
    [OrbiterProject().add_pools([OrbiterPool(name="foo", slots=1)])
     .add_pools([OrbiterPool(name="foo", slots=2)]).pools]
    is [{'foo': OrbiterPool(name='foo', description='', slots=2)}]. *)
Definition add_pools_doctest (pool_add : OrbiterPool -> OrbiterPool -> OrbiterPool) : Prop :=
  pools (snd (add_pools pool_add (PyList [PyPool (mkPool "foo" "" 2)])
          (snd (add_pools pool_add (PyList [PyPool (mkPool "foo" "" 1)])
                  empty_project))))
  = [("foo", mkPool "foo" "" 2)].

(** Slot counts combine additively on a name collision. *)
Definition additive_on_collision (pool_add : OrbiterPool -> OrbiterPool -> OrbiterPool) : Prop :=
  forall P existing pool,
    dict_get (pool_name pool) (pools P) = Some existing ->
    exists merged,
      dict_get (pool_name pool) (pools (snd (add_pools pool_add (PyPool pool) P)))
        = Some merged /\
      slots merged = slots existing + slots pool.

(** C2, as stated, against the doctest of [add_pools]: no pool merge under
    which the doctest passes adds slot counts; with [foo] at 1 slot in the
    project, adding [foo] with 2 slots stores 2 slots, not 3. *)
Lemma additive_pool_merge_fails_doctest :
  ~ (exists pool_add, add_pools_doctest pool_add /\ additive_on_collision pool_add).
Proof.
  intros (pool_add & Hdoc & Hadd).
  unfold add_pools_doctest in Hdoc.
  destruct (Hadd (snd (add_pools pool_add (PyList [PyPool (mkPool "foo" "" 1)]) empty_project))
                 (mkPool "foo" "" 1) (mkPool "foo" "" 2) eq_refl)
    as (merged & Hget & Hslots).
  rewrite add_pools_single, Hdoc in Hget.
  injection Hget as <-. simpl in Hslots. lia.
Qed.

(** C2, amended: on a name collision [add_pools] stores
    [existing + pool], the pools' own merge, and it inserts the pool
    otherwise; so after a sequence of pools a name holds the left-to-right
    merge of what it held before with the pools of that name, other names
    and other collections are unchanged, and a single pool is a
    one-element sequence. *)
Theorem add_pools_merges_on_collision
    (pool_add : OrbiterPool -> OrbiterPool -> OrbiterPool) (P : OrbiterProject) :
  (forall p, add_pools pool_add (PyPool p) P = add_pools pool_add (PyList [PyPool p]) P) /\
  (forall ps, exists P',
     add_pools pool_add (PyList (map PyPool ps)) P = (inr tt, P') /\
     (forall n, dict_get n (pools P') =
                fold_left (merge_into pool_add)
                          (filter (fun p => pool_name p = n) ps)
                          (dict_get n (pools P))) /\
     P' = set_pools (fun _ => pools P') P).
Proof.
  split; [intros p; apply add_pools_single|].
  intros ps. eexists. split; [apply add_pools_entities|]. split.
  - intros n. simpl. apply get_merge_pools.
  - reflexivity.
Qed.

(** ** The order of strings *)

Lemma ascii_compare_refl a : Ascii.compare a a = Eq.
Proof. unfold Ascii.compare. apply N.compare_refl. Qed.

Lemma str_compare_lt_trans a b c :
  String.compare a b = Lt -> String.compare b c = Lt -> String.compare a c = Lt.
Proof.
  revert b c. induction a as [|x a IH]; intros [|y b] [|z c]; simpl;
    try discriminate; try reflexivity.
  destruct (Ascii.compare x y) eqn:Exy; destruct (Ascii.compare y z) eqn:Eyz;
    try discriminate.
  - apply Ascii.compare_eq_iff in Exy, Eyz. subst.
    rewrite ascii_compare_refl. apply IH.
  - apply Ascii.compare_eq_iff in Exy. subst. rewrite Eyz. reflexivity.
  - apply Ascii.compare_eq_iff in Eyz. subst. rewrite Exy. reflexivity.
  - intros _ _. unfold Ascii.compare in *.
    rewrite N.compare_lt_iff in Exy, Eyz.
    assert (H : (N_of_ascii x < N_of_ascii z)%N) by lia.
    apply N.compare_lt_iff in H. rewrite H. reflexivity.
Qed.

Lemma str_le_cases a b : str_le a b <-> String.compare a b = Lt \/ a = b.
Proof.
  unfold str_le, String.leb. split.
  - destruct (String.compare a b) eqn:E; try discriminate.
    + right. apply String.compare_eq_iff. exact E.
    + left. reflexivity.
  - intros [->| ->]; [reflexivity|].
    destruct (String.compare b b) eqn:E; try reflexivity.
    pose proof (String.compare_antisym b b) as H. rewrite E in H. discriminate.
Qed.

#[global] Instance str_le_trans : Transitive str_le.
Proof.
  intros a b c Hab Hbc. apply str_le_cases in Hab, Hbc. apply str_le_cases.
  destruct Hab as [Hab| ->], Hbc as [Hbc| ->]; eauto using str_compare_lt_trans.
Qed.

#[global] Instance str_le_total : Total str_le.
Proof. intros a b. apply String.leb_total. Qed.

#[global] Instance str_le_antisym : AntiSymm (=) str_le.
Proof. intros a b. apply String.leb_antisym. Qed.

(** [sorted] does not depend on the order of its input. *)
Lemma sorted_Permutation l1 l2 : l1 ≡ₚ l2 -> sorted l1 = sorted l2.
Proof.
  intros Hp. unfold sorted.
  apply (Sorted_unique str_le); try apply Sorted_merge_sort; try apply _.
  rewrite !merge_sort_Permutation. exact Hp.
Qed.

(** ** Rendering *)

(** A [set] is iterated in some order that visits each element once. *)
Definition iteration_order
    (set_iter : forall (A : Type) (E : EqDecision A) (C : Countable A), gset A -> list A) : Prop :=
  forall A E C (s : gset A), set_iter A E C s ≡ₚ elements s.

Lemma nonempty_Some o s : nonempty o = Some s <-> o = Some s /\ s <> "".
Proof.
  unfold nonempty. destruct o as [t|]; [|split; [discriminate|intros [? _]; discriminate]].
  destruct (String.eqb_spec t ""); split.
  - discriminate.
  - intros [[= ->] ?]. contradiction.
  - intros [= ->]. split; [reflexivity|assumption].
  - intros [[= ->] _]. reflexivity.
Qed.

Section render_facts.
Variable rs : Renderers.

Lemma manifest_order_irrelevant iter1 iter2 f self :
  iteration_order iter1 -> iteration_order iter2 ->
  manifest iter1 f self = manifest iter2 f self.
Proof.
  intros H1 H2. unfold iteration_order in H1, H2. unfold manifest.
  assert (Hnamed : omap (fun r => nonempty (f r)) (iter1 _ _ _ (requirements self))
                   ≡ₚ omap (fun r => nonempty (f r)) (iter2 _ _ _ (requirements self))).
  { apply omap_Permutation. etrans; [apply H1 | symmetry; apply H2]. }
  rewrite (Permutation_length Hnamed).
  destruct (Nat.eqb _ 0); [reflexivity|]. do 2 f_equal.
  rewrite (list_to_set_perm_L _ _ Hnamed).
  apply sorted_Permutation. etrans; [apply H1 | symmetry; apply H2].
Qed.

Lemma manifest_contents iter f self :
  iteration_order iter ->
  match manifest iter f self with
  | Some text =>
      exists names,
        text = String.concat newline names /\
        Sorted str_le names /\ NoDup names /\
        forall s, s ∈ names <->
                  s <> "" /\ exists r, r ∈ requirements self /\ f r = Some s
  | None => forall r, r ∈ requirements self -> nonempty (f r) = None
  end.
Proof.
  intros Hiter. unfold iteration_order in Hiter. unfold manifest.
  set (named := omap (fun r => nonempty (f r)) (iter _ _ _ (requirements self))).
  assert (Hnamed : forall s, s ∈ named <->
            s <> "" /\ exists r, r ∈ requirements self /\ f r = Some s).
  { intros s. unfold named. rewrite list_elem_of_omap. split.
    - intros (r & Hr & Hs). rewrite Hiter in Hr. apply elem_of_elements in Hr.
      apply nonempty_Some in Hs as [Hs Hne]. eauto.
    - intros (Hne & r & Hr & Hs). exists r. split.
      + rewrite Hiter. apply elem_of_elements. exact Hr.
      + apply nonempty_Some. auto. }
  destruct (Nat.eqb (List.length named) 0) eqn:Hlen.
  - apply Nat.eqb_eq in Hlen. apply nil_length_inv in Hlen.
    intros r Hr. destruct (nonempty (f r)) as [s|] eqn:Hs; [|reflexivity].
    exfalso. assert (Hin : s ∈ named).
    { apply Hnamed. apply nonempty_Some in Hs as [Hs Hne]. eauto. }
    rewrite Hlen in Hin. inversion Hin.
  - eexists. split; [reflexivity|]. split; [apply Sorted_merge_sort; apply _|].
    unfold sorted. split.
    + rewrite merge_sort_Permutation, Hiter. apply NoDup_elements.
    + intros s. rewrite merge_sort_Permutation, Hiter, elem_of_elements,
        elem_of_list_to_set. apply Hnamed.
Qed.

Lemma render_order_irrelevant iter1 iter2 self output_dir :
  iteration_order iter1 -> iteration_order iter2 ->
  render rs iter1 self output_dir = render rs iter2 self output_dir.
Proof.
  intros H1 H2. unfold render.
  rewrite !(manifest_order_irrelevant iter1 iter2) by assumption. reflexivity.
Qed.

End render_facts.

(** What a computation that cannot fail appends to the trace of
    file-system operations. *)
Definition produces (m : M (list fs_op) unit) (ops : list fs_op) : Prop :=
  forall fs, m fs = (inr tt, (fs ++ ops)%list).

Lemma produces_ret : produces (ret tt) [].
Proof. intros fs. unfold ret. rewrite app_nil_r. reflexivity. Qed.

Lemma produces_bind m k a b :
  produces m a -> produces k b -> produces (m ;; k) (a ++ b)%list.
Proof.
  intros Hm Hk fs. unfold bind. rewrite Hm, Hk, <- app_assoc. reflexivity.
Qed.

Lemma produces_mkdir p : produces (mkdir p) [Mkdir p].
Proof. intros fs. reflexivity. Qed.

Lemma produces_write_text p t : produces (write_text p t) [WriteText p t].
Proof. intros fs. reflexivity. Qed.

Lemma produces_for_each {A} (xs : list A) body (ops : A -> list fs_op) :
  (forall x, produces (body x) (ops x)) ->
  produces (for_each xs body) (flat_map ops xs).
Proof.
  intros Hbody. induction xs as [|x xs IH]; simpl.
  - apply produces_ret.
  - apply produces_bind; [apply Hbody | exact IH].
Qed.

Lemma flat_map_single {A B} (f : A -> B) (l : list A) :
  flat_map (fun x => [f x]) l = map f l.
Proof. induction l as [|x l IH]; simpl; [reflexivity|]. rewrite IH. reflexivity. Qed.

Definition option_write (p : string) (text : option string) : list fs_op :=
  match text with
  | Some t => [WriteText p t]
  | None => []
  end.

(** The artifacts of a project, in the order [render] writes them. *)
Definition artifacts (rs : Renderers)
    (set_iter : forall (A : Type) (E : EqDecision A) (C : Countable A), gset A -> list A)
    (self : OrbiterProject) (output_dir : string) : list fs_op :=
  let dags_dir := joinpath rs output_dir "dags" in
  ([Mkdir dags_dir]
   ++ flat_map (fun kv => [Mkdir (parent rs (joinpath rs dags_dir (file_path (snd kv))));
                           WriteText (joinpath rs dags_dir (file_path (snd kv)))
                                     (dag_str rs (snd kv))]) (dags self)
   ++ option_write (joinpath rs output_dir "requirements.txt")
                   (manifest set_iter package self)
   ++ option_write (joinpath rs output_dir "packages.txt")
                   (manifest set_iter sys_package self)
   ++ match pools self, variables self, connections self with
      | [], [], [] => []
      | _, _, _ =>
          [WriteText (joinpath rs output_dir "airflow_settings.yaml")
             (yaml_safe_dump rs (map (pool_render rs) (dict_values (pools self)))
                (map (variable_render rs) (dict_values (variables self)))
                (map (connection_render rs) (dict_values (connections self))))]
      end
   ++ map (fun i => WriteText (joinpath rs output_dir (filepath i)) (include_render rs i))
          (dict_values (includes self))
   ++ match env_vars self with
      | [] => []
      | _ => [WriteText (joinpath rs output_dir ".env")
                (String.concat newline (map (env_render rs) (dict_values (env_vars self))))]
      end)%list.

Lemma render_produces rs set_iter self output_dir :
  dags self <> [] ->
  produces (render rs set_iter self output_dir) (artifacts rs set_iter self output_dir).
Proof.
  intros Hdags. unfold render, artifacts.
  destruct (dags self) as [|d ds] eqn:Ed; [congruence|]. simpl Nat.eqb. cbv iota.
  apply produces_bind; [apply produces_mkdir|].
  apply produces_bind.
  { apply produces_for_each. intros [k dag]. simpl.
    apply (produces_bind _ _ [_] [_]); [apply produces_mkdir|apply produces_write_text]. }
  apply produces_bind.
  { destruct (manifest set_iter package self); [apply produces_write_text|apply produces_ret]. }
  apply produces_bind.
  { destruct (manifest set_iter sys_package self); [apply produces_write_text|apply produces_ret]. }
  apply produces_bind.
  { destruct (pools self), (variables self), (connections self); simpl;
      first [apply produces_ret | apply produces_write_text]. }
  apply produces_bind.
  { destruct (includes self) as [|i is_]; simpl; [apply produces_ret|].
    apply (produces_bind _ _ [_]); [apply produces_write_text|].
    rewrite <- flat_map_single.
    apply produces_for_each. intros x. apply produces_write_text. }
  destruct (env_vars self); simpl; [apply produces_ret|apply produces_write_text].
Qed.

(** C3: rendering a project with no DAGs raises (the guard's
    [RuntimeError("No DAGs to render!")], which the specification calls
    EmptyProjectError) before anything is done to the file system: the
    trace of file-system operations is as it was. *)
Theorem render_empty_project_raises rs set_iter (self : OrbiterProject)
    (output_dir : string) (fs : list fs_op) :
  dags self = [] ->
  render rs set_iter self output_dir fs
  = (inl (RuntimeError "No DAGs to render!"), fs).
Proof. intros Hdags. unfold render. rewrite Hdags. reflexivity. Qed.

(** Sample renderers and set iteration orders, to run [render] on examples. *)
Definition sample_renderers : Renderers := {|
  dag_str := fun d => "dag " ++ dag_id d;
  rendered := string;
  pool_render := pool_name;
  variable_render := var_key;
  connection_render := conn_id;
  include_render := contents;
  env_render := fun e => env_key e ++ "=" ++ env_value e;
  yaml_safe_dump := fun ps vs cs =>
    String.concat "," ps ++ ";" ++ String.concat "," vs ++ ";" ++ String.concat "," cs;
  joinpath := fun p name => p ++ "/" ++ name;
  parent := fun p => p ++ "/.." |}.

Definition forwards (A : Type) (E : EqDecision A) (C : Countable A) (s : gset A) : list A :=
  elements s.
Definition backwards (A : Type) (E : EqDecision A) (C : Countable A) (s : gset A) : list A :=
  reverse (elements s).

Lemma forwards_order : iteration_order forwards.
Proof. intros A E C s. reflexivity. Qed.
Lemma backwards_order : iteration_order backwards.
Proof. intros A E C s. apply reverse_Permutation. Qed.

Definition no_dags_project : OrbiterProject :=
  mkProject [] {[ mkRequirement ["DAG"] (Some "apache-airflow") (Some "airflow") None ]}
            [("p1", mkPool "p1" "" 2)] [("c1", mkConnection "c1" "generic")] [] [] [].

Lemma render_empty_project_raises_witness :
  render sample_renderers forwards no_dags_project "out" []
  = (inl (RuntimeError "No DAGs to render!"), []).
Proof.
  exact (render_empty_project_raises sample_renderers forwards no_dags_project "out" [] eq_refl).
Defined.

(** What a manifest holds: the names, joined by newlines, sorted, each
    once, and exactly the non-empty names [f] gives to some requirement;
    no manifest when there is no such name. *)
Definition sorted_manifest (f : OrbiterRequirement -> option string)
    (self : OrbiterProject) (text : option string) : Prop :=
  match text with
  | Some text =>
      exists names,
        text = String.concat newline names /\
        Sorted str_le names /\ NoDup names /\
        forall s, s ∈ names <->
                  s <> "" /\ exists r, r ∈ requirements self /\ f r = Some s
  | None => forall r, r ∈ requirements self -> nonempty (f r) = None
  end.

Definition render_determinism (rs : Renderers)
    (iter1 iter2 : forall (A : Type) (E : EqDecision A) (C : Countable A), gset A -> list A)
    (self : OrbiterProject) (output_dir : string) : Prop :=
  (forall fs, render rs iter1 self output_dir fs = render rs iter2 self output_dir fs) /\
  (dags self <> [] ->
   produces (render rs iter1 self output_dir) (artifacts rs iter1 self output_dir)) /\
  sorted_manifest package self (manifest iter1 package self) /\
  sorted_manifest sys_package self (manifest iter1 sys_package self).

(** C8: [render] is deterministic.  The only collection without an order
    of its own is the set of requirements; in whatever orders two runs
    iterate sets, they do the same file-system operations with the same
    texts.  The texts of requirements.txt and packages.txt are the
    non-empty package (system-package) names of the requirements, each
    once, sorted, joined by newlines. *)
Theorem render_deterministic rs iter1 iter2 (self : OrbiterProject) (output_dir : string) :
  iteration_order iter1 -> iteration_order iter2 ->
  render_determinism rs iter1 iter2 self output_dir.
Proof.
  intros H1 H2. unfold render_determinism. repeat split.
  - intros fs. rewrite (render_order_irrelevant rs iter1 iter2); auto.
  - apply render_produces.
  - apply manifest_contents. exact H1.
  - apply manifest_contents. exact H1.
Qed.

Definition two_packages_project : OrbiterProject :=
  mkProject [("foo", mkDAG "foo" "foo.py" [] [])]
    ({[ mkRequirement ["DAG"] (Some "pendulum") (Some "airflow") None ]}
     ∪ {[ mkRequirement ["BashOperator"] (Some "apache-airflow") (Some "airflow.operators.bash") (Some "bash") ]}
     ∪ {[ mkRequirement ["TaskGroup"] (Some "apache-airflow") (Some "airflow.utils.task_group") None ]}
     ∪ {[ mkRequirement ["local"] (Some "") None None ]})
    [] [] [] [] [].

Lemma render_deterministic_witness :
  render_determinism sample_renderers forwards backwards two_packages_project "out".
Proof.
  exact (render_deterministic sample_renderers forwards backwards
           two_packages_project "out" forwards_order backwards_order).
Defined.

Example render_two_packages :
  snd (render sample_renderers backwards two_packages_project "out" [])
  = [Mkdir "out/dags"; Mkdir "out/dags/foo.py/.."; WriteText "out/dags/foo.py" "dag foo";
     WriteText "out/requirements.txt" ("apache-airflow" ++ newline ++ "pendulum");
     WriteText "out/packages.txt" "bash"].
Proof. vm_compute. reflexivity. Qed.

(** ** Projects only grow

    No add-operation removes a key or a requirement, and each keeps the
    dicts well formed, also when it raises half-way. *)

Definition grows (P P' : OrbiterProject) : Prop :=
  dict_keys (dags P) ⊆ dict_keys (dags P') /\
  requirements P ⊆ requirements P' /\
  dict_keys (pools P) ⊆ dict_keys (pools P') /\
  dict_keys (connections P) ⊆ dict_keys (connections P') /\
  dict_keys (variables P) ⊆ dict_keys (variables P') /\
  dict_keys (env_vars P) ⊆ dict_keys (env_vars P') /\
  dict_keys (includes P) ⊆ dict_keys (includes P') /\
  (project_wf P -> project_wf P').

Definition growing {A} (m : M OrbiterProject A) : Prop :=
  forall P, grows P (snd (m P)).

Lemma grows_refl P : grows P P.
Proof. unfold grows. split_and!; auto; reflexivity. Qed.

Lemma grows_trans P1 P2 P3 : grows P1 P2 -> grows P2 P3 -> grows P1 P3.
Proof.
  unfold grows. intros (?&?&?&?&?&?&?&?) (?&?&?&?&?&?&?&?).
  split_and!; try (etrans; eassumption); auto.
Qed.

Lemma dict_keys_set_grows {V} k (v : V) d : dict_keys d ⊆ dict_keys (dict_set k v d).
Proof.
  rewrite dict_keys_set. destruct (dict_mem k d); [reflexivity|].
  intros x Hx. apply elem_of_app. left. exact Hx.
Qed.

Lemma dict_keys_set_here {V} k (v : V) d : k ∈ dict_keys (dict_set k v d).
Proof.
  apply list_elem_of_In. apply (dict_get_Some_keys k v). apply dict_get_set_eq.
Qed.

Lemma growing_ret {A} (a : A) : growing (ret a).
Proof. intros P. apply grows_refl. Qed.

Lemma growing_raise {A} e : growing (raise (A := A) e).
Proof. intros P. apply grows_refl. Qed.

Lemma growing_bind {A B} (m : M OrbiterProject A) (k : A -> M OrbiterProject B) :
  growing m -> (forall a, growing (k a)) -> growing (bind m k).
Proof.
  intros Hm Hk P. unfold bind. specialize (Hm P).
  destruct (m P) as [[e|a] P1]; simpl in *; [exact Hm|].
  eapply grows_trans; [exact Hm|apply Hk].
Qed.

Lemma growing_for_each {A} (xs : list A) body :
  (forall x, growing (body x)) -> growing (for_each xs body).
Proof.
  intros Hbody. induction xs as [|x xs IH]; simpl.
  - apply growing_ret.
  - apply growing_bind; [apply Hbody|intros _; exact IH].
Qed.

Lemma growing_for_validated {A} (isinstance : thing -> option A) body items :
  (forall a, growing (body a)) -> growing (for_validated isinstance body items).
Proof.
  intros Hbody. induction items as [|x items IH]; simpl.
  - apply growing_ret.
  - destruct (isinstance x); [|apply growing_raise].
    apply growing_bind; [apply Hbody|intros _; exact IH].
Qed.

Lemma growing_validated_for {A} (isinstance : thing -> option A) body arg :
  (forall a, growing (body a)) -> growing (validated_for isinstance body arg).
Proof.
  intros Hbody. unfold validated_for.
  destruct (isinstance arg); [apply Hbody|].
  destruct (py_iter arg); [apply growing_for_validated; exact Hbody|apply growing_raise].
Qed.

Ltac grows_by_set :=
  intros ? P; unfold grows, project_wf; destruct P; simpl;
  split_and!; try reflexivity; try apply dict_keys_set_grows;
  try (intros (?&?&?&?&?&?); split_and!; try assumption; apply dict_wf_set; assumption).

Lemma growing_add_connection c : growing (add_connection c).
Proof. revert c. grows_by_set. Qed.
Lemma growing_add_variable v : growing (add_variable v).
Proof. revert v. grows_by_set. Qed.
Lemma growing_add_env_var e : growing (add_env_var e).
Proof. revert e. grows_by_set. Qed.
Lemma growing_add_include i : growing (add_include i).
Proof. revert i. grows_by_set. Qed.
Lemma growing_add_requirement r : growing (add_requirement r).
Proof. revert r. grows_by_set. set_solver. Qed.

Section growth.
Variable pool_add : OrbiterPool -> OrbiterPool -> OrbiterPool.
Variable dag_add : OrbiterDAG -> OrbiterDAG -> OrbiterDAG.

Lemma growing_add_pool p : growing (add_pool pool_add p).
Proof.
  intros P. unfold grows, project_wf, add_pool, merge_pool. destruct P; simpl.
  destruct (dict_get (pool_name p) pools0);
    split_and!; try reflexivity; try apply dict_keys_set_grows;
    intros (?&?&?&?&?&?); split_and!; try assumption; apply dict_wf_set; assumption.
Qed.

Lemma growing_merge_dag d : growing (modify (set_dags (merge_dag dag_add d))).
Proof.
  intros P. unfold grows, project_wf, merge_dag. destruct P; simpl.
  destruct (dict_get (dag_id d) dags0);
    split_and!; try reflexivity; try apply dict_keys_set_grows;
    intros (?&?&?&?&?&?); split_and!; try assumption; apply dict_wf_set; assumption.
Qed.

Lemma growing_probe t name add :
  (forall v, growing (add v)) -> growing (probe t name add).
Proof.
  intros Hadd. unfold probe. destruct (py_getattr t name); [|apply growing_ret].
  destruct (py_truthy _); [apply Hadd|apply growing_ret].
Qed.

Lemma growing_add_pools v : growing (add_pools pool_add v).
Proof. apply growing_validated_for, growing_add_pool. Qed.
Lemma growing_add_connections v : growing (add_connections v).
Proof. apply growing_validated_for, growing_add_connection. Qed.
Lemma growing_add_variables v : growing (add_variables v).
Proof. apply growing_validated_for, growing_add_variable. Qed.
Lemma growing_add_env_vars v : growing (add_env_vars v).
Proof. apply growing_validated_for, growing_add_env_var. Qed.
Lemma growing_add_includes v : growing (add_includes v).
Proof. apply growing_validated_for, growing_add_include. Qed.
Lemma growing_add_requirements v : growing (add_requirements v).
Proof. apply growing_validated_for, growing_add_requirement. Qed.

Lemma growing_visit recur t :
  (forall x, growing (recur x)) -> growing (visit pool_add recur t).
Proof.
  intros IH. unfold visit. destruct (is_str t); [apply growing_ret|].
  repeat (apply growing_bind; [|intros _]);
    try (apply growing_probe; intros v);
    auto using growing_add_pools, growing_add_connections, growing_add_variables,
      growing_add_env_vars, growing_add_includes, growing_add_requirements.
  - destruct (is_task_group t); [|apply growing_ret].
    destruct (py_getattr t "tasks"); [|apply growing_raise].
    destruct (py_truthy _); [apply IH|apply growing_ret].
  - destruct (py_vars t); [apply IH|apply growing_ret].
Qed.

Lemma growing_walker limit things : growing (_add_recursively pool_add limit things).
Proof.
  revert things. induction limit as [|limit IH]; intros things; simpl.
  - apply growing_raise.
  - destruct (py_iter things); [|apply growing_raise].
    apply growing_for_each. intros t. apply growing_visit. exact IH.
Qed.

Lemma growing_add_dag limit d : growing (add_dag pool_add dag_add limit d).
Proof.
  unfold add_dag.
  repeat (apply growing_bind; [|intros _]);
    auto using growing_merge_dag, growing_walker.
Qed.

Lemma growing_add_dags limit v : growing (add_dags pool_add dag_add limit v).
Proof. apply growing_validated_for, growing_add_dag. Qed.

End growth.

(** ** What the walker collects *)

Lemma bind_ok {S A B} (m : M S A) (k : A -> M S B) s b s' :
  bind m k s = (inr b, s') ->
  exists a s1, m s = (inr a, s1) /\ k a s1 = (inr b, s').
Proof.
  unfold bind. destruct (m s) as [[e|a] s1]; [discriminate|]. eauto.
Qed.

Lemma snd_grows {A} (m : M OrbiterProject A) P r P' :
  growing m -> m P = (r, P') -> grows P P'.
Proof. intros Hm E. specialize (Hm P). rewrite E in Hm. exact Hm. Qed.

Lemma for_each_ok {A} (xs : list A) body P P' x :
  (forall x, growing (body x)) ->
  for_each xs body P = (inr tt, P') -> In x xs ->
  exists P1 P2, body x P1 = (inr tt, P2) /\ grows P2 P'.
Proof.
  intros Hbody. revert P. induction xs as [|y xs IH]; intros P Hrun Hin; [destruct Hin|].
  simpl in Hrun. apply bind_ok in Hrun as ([] & P1 & Hy & Hrest).
  destruct Hin as [->|Hin].
  - exists P, P1. split; [exact Hy|].
    eapply snd_grows; [|exact Hrest]. apply growing_for_each, Hbody.
  - eapply IH; eassumption.
Qed.

Lemma for_validated_ok {A} (isinstance : thing -> option A) body items P P' x :
  (forall a, growing (body a)) ->
  for_validated isinstance body items P = (inr tt, P') -> In x items ->
  exists a P1 P2, isinstance x = Some a /\ body a P1 = (inr tt, P2) /\ grows P2 P'.
Proof.
  intros Hbody. revert P. induction items as [|y items IH]; intros P Hrun Hin; [destruct Hin|].
  simpl in Hrun. destruct (isinstance y) as [a|] eqn:Ea; [|discriminate].
  apply bind_ok in Hrun as ([] & P1 & Hy & Hrest).
  destruct Hin as [->|Hin].
  - exists a, P, P1. split; [exact Ea|]. split; [exact Hy|].
    eapply snd_grows; [|exact Hrest]. apply growing_for_validated, Hbody.
  - eapply IH; eassumption.
Qed.

(** The node [n] carries the entity [e] in its attribute [attr]: the
    attribute is set and truthy, and is the entity or an iterable with the
    entity among its items. *)
Definition carried {A} (isinstance : thing -> option A) (n : thing)
    (attr : string) (e : A) : Prop :=
  exists v, py_getattr n attr = Some v /\ py_truthy v = true /\
    (isinstance v = Some e \/
     (isinstance v = None /\
      exists items, py_iter v = Some items /\
        exists x, In x items /\ isinstance x = Some e)).

Lemma probe_collects {A} (isinstance : thing -> option A) body
    (holds : OrbiterProject -> A -> Prop) n attr P P' e :
  (forall a, growing (body a)) ->
  (forall a P1 P2, body a P1 = (inr tt, P2) -> holds P2 a) ->
  (forall P1 P2 a, grows P1 P2 -> holds P1 a -> holds P2 a) ->
  probe n attr (validated_for isinstance body) P = (inr tt, P') ->
  carried isinstance n attr e -> holds P' e.
Proof.
  intros Hgrow Hbody Hmono Hrun (v & Hattr & Htruthy & Hv).
  unfold probe in Hrun. rewrite Hattr, Htruthy in Hrun.
  unfold validated_for in Hrun. destruct Hv as [Hv|(Hv & items & Hiter & x & Hin & Hx)].
  - rewrite Hv in Hrun. eapply Hbody. exact Hrun.
  - rewrite Hv, Hiter in Hrun.
    destruct (for_validated_ok isinstance body items P P' x Hgrow Hrun Hin)
      as (a & P1 & P2 & Ha & Hadd & Hg).
    rewrite Hx in Ha. injection Ha as <-.
    eapply Hmono; [exact Hg|]. eapply Hbody. exact Hadd.
Qed.

(** The project holds, by identity key, everything the node carries. *)
Definition collected (P : OrbiterProject) (n : thing) : Prop :=
  (forall p, carried as_pool n "orbiter_pool" p -> pool_name p ∈ dict_keys (pools P)) /\
  (forall c, carried as_connection n "orbiter_conns" c -> conn_id c ∈ dict_keys (connections P)) /\
  (forall v, carried as_variable n "orbiter_vars" v -> var_key v ∈ dict_keys (variables P)) /\
  (forall e, carried as_env_var n "orbiter_env_vars" e -> env_key e ∈ dict_keys (env_vars P)) /\
  (forall i, carried as_include n "orbiter_includes" i -> filepath i ∈ dict_keys (includes P)) /\
  (forall r, carried as_requirement n "imports" r -> r ∈ requirements P).

Lemma grows_pools P P' k :
  grows P P' -> k ∈ dict_keys (pools P) -> k ∈ dict_keys (pools P').
Proof. intros (?&?&H&?) Hk. apply H, Hk. Qed.
Lemma grows_connections P P' k :
  grows P P' -> k ∈ dict_keys (connections P) -> k ∈ dict_keys (connections P').
Proof. intros (?&?&?&H&?) Hk. apply H, Hk. Qed.
Lemma grows_variables P P' k :
  grows P P' -> k ∈ dict_keys (variables P) -> k ∈ dict_keys (variables P').
Proof. intros (?&?&?&?&H&?) Hk. apply H, Hk. Qed.
Lemma grows_env_vars P P' k :
  grows P P' -> k ∈ dict_keys (env_vars P) -> k ∈ dict_keys (env_vars P').
Proof. intros (?&?&?&?&?&H&?) Hk. apply H, Hk. Qed.
Lemma grows_includes P P' k :
  grows P P' -> k ∈ dict_keys (includes P) -> k ∈ dict_keys (includes P').
Proof. intros (?&?&?&?&?&?&H&?) Hk. apply H, Hk. Qed.
Lemma grows_requirements P P' r :
  grows P P' -> r ∈ requirements P -> r ∈ requirements P'.
Proof. intros (?&H&?) Hr. apply H, Hr. Qed.
Lemma grows_dags P P' k :
  grows P P' -> k ∈ dict_keys (dags P) -> k ∈ dict_keys (dags P').
Proof. intros (H&?) Hk. apply H, Hk. Qed.

Lemma collected_grows P P' n : grows P P' -> collected P n -> collected P' n.
Proof.
  unfold collected. intros Hg (Hp&Hc&Hv&He&Hi&Hr).
  split_and!; intros x Hx.
  - eapply grows_pools; [exact Hg|auto].
  - eapply grows_connections; [exact Hg|auto].
  - eapply grows_variables; [exact Hg|auto].
  - eapply grows_env_vars; [exact Hg|auto].
  - eapply grows_includes; [exact Hg|auto].
  - eapply grows_requirements; [exact Hg|auto].
Qed.

(** The nodes the walker visits below the items of an iterable: an item
    that is not a string, the tasks of a task group, and the values of a
    visited node's attributes. *)
Inductive visits : list thing -> thing -> Prop :=
| visits_item items t :
    In t items -> is_str t = false -> visits items t
| visits_task items t tasks_ sub n :
    In t items -> is_str t = false -> is_task_group t = true ->
    py_getattr t "tasks" = Some tasks_ -> py_truthy tasks_ = true ->
    py_iter tasks_ = Some sub -> visits sub n -> visits items n
| visits_attr items t vs n :
    In t items -> is_str t = false -> py_vars t = Some vs ->
    visits (map snd vs) n -> visits items n.

Section collects.
Variable pool_add : OrbiterPool -> OrbiterPool -> OrbiterPool.
Variable dag_add : OrbiterDAG -> OrbiterDAG -> OrbiterDAG.

(** A successful visit splits into the probes, the descent into the tasks
    and the descent into the attributes. *)
Lemma visit_ok recur t P P' :
  (forall x, growing (recur x)) ->
  is_str t = false ->
  visit pool_add recur t P = (inr tt, P') ->
  exists P6 P7,
    collected P6 t /\
    (if is_task_group t then
       match py_getattr t "tasks" with
       | Some tasks_ => if py_truthy tasks_ then recur tasks_ else ret tt
       | None => raise (AttributeError "tasks")
       end
     else ret tt) P6 = (inr tt, P7) /\
    match py_vars t with
    | Some vs => recur (PyList (map snd vs))
    | None => ret tt
    end P7 = (inr tt, P').
Proof.
  intros Hrec Hstr Hrun. unfold visit in Hrun. rewrite Hstr in Hrun.
  apply bind_ok in Hrun as ([] & P1 & H1 & Hrun).
  apply bind_ok in Hrun as ([] & P2 & H2 & Hrun).
  apply bind_ok in Hrun as ([] & P3 & H3 & Hrun).
  apply bind_ok in Hrun as ([] & P4 & H4 & Hrun).
  apply bind_ok in Hrun as ([] & P5 & H5 & Hrun).
  apply bind_ok in Hrun as ([] & P6 & H6 & Hrun).
  apply bind_ok in Hrun as ([] & P7 & H7 & H8).
  exists P6, P7. split; [|split; assumption].
  assert (G6 : grows P5 P6) by (eapply snd_grows; [|exact H6]; apply growing_probe, growing_add_requirements).
  assert (G5 : grows P4 P6) by (eapply grows_trans; [|exact G6]; eapply snd_grows; [|exact H5]; apply growing_probe, growing_add_includes).
  assert (G4 : grows P3 P6) by (eapply grows_trans; [|exact G5]; eapply snd_grows; [|exact H4]; apply growing_probe, growing_add_env_vars).
  assert (G3 : grows P2 P6) by (eapply grows_trans; [|exact G4]; eapply snd_grows; [|exact H3]; apply growing_probe, growing_add_variables).
  assert (G2 : grows P1 P6) by (eapply grows_trans; [|exact G3]; eapply snd_grows; [|exact H2]; apply growing_probe, growing_add_connections).
  unfold collected. split_and!.
  - intros p Hp. apply (grows_pools P1 P6 _ G2).
    apply (probe_collects as_pool (add_pool pool_add)
             (fun P p => pool_name p ∈ dict_keys (pools P)) t "orbiter_pool" P P1 p);
      [apply growing_add_pool| | |exact H1|exact Hp].
    + intros a Q1 Q2 [= <-]. simpl. unfold merge_pool.
      destruct (dict_get _ _); apply dict_keys_set_here.
    + intros Q1 Q2 a Hg ?. eapply grows_pools; eassumption.
  - intros c Hc. apply (grows_connections P2 P6 _ G3).
    apply (probe_collects as_connection add_connection
             (fun P c => conn_id c ∈ dict_keys (connections P)) t "orbiter_conns" P1 P2 c);
      [apply growing_add_connection| | |exact H2|exact Hc].
    + intros a Q1 Q2 [= <-]. simpl. apply dict_keys_set_here.
    + intros Q1 Q2 a Hg ?. eapply grows_connections; eassumption.
  - intros v Hv. apply (grows_variables P3 P6 _ G4).
    apply (probe_collects as_variable add_variable
             (fun P v => var_key v ∈ dict_keys (variables P)) t "orbiter_vars" P2 P3 v);
      [apply growing_add_variable| | |exact H3|exact Hv].
    + intros a Q1 Q2 [= <-]. simpl. apply dict_keys_set_here.
    + intros Q1 Q2 a Hg ?. eapply grows_variables; eassumption.
  - intros e He. apply (grows_env_vars P4 P6 _ G5).
    apply (probe_collects as_env_var add_env_var
             (fun P e => env_key e ∈ dict_keys (env_vars P)) t "orbiter_env_vars" P3 P4 e);
      [apply growing_add_env_var| | |exact H4|exact He].
    + intros a Q1 Q2 [= <-]. simpl. apply dict_keys_set_here.
    + intros Q1 Q2 a Hg ?. eapply grows_env_vars; eassumption.
  - intros i Hi. apply (grows_includes P5 P6 _ G6).
    apply (probe_collects as_include add_include
             (fun P i => filepath i ∈ dict_keys (includes P)) t "orbiter_includes" P4 P5 i);
      [apply growing_add_include| | |exact H5|exact Hi].
    + intros a Q1 Q2 [= <-]. simpl. apply dict_keys_set_here.
    + intros Q1 Q2 a Hg ?. eapply grows_includes; eassumption.
  - intros r Hr.
    apply (probe_collects as_requirement add_requirement
             (fun P r => r ∈ requirements P) t "imports" P5 P6 r);
      [apply growing_add_requirement| | |exact H6|exact Hr].
    + intros a Q1 Q2 [= <-]. simpl. apply elem_of_union_l, elem_of_singleton. reflexivity.
    + intros Q1 Q2 a Hg ?. eapply grows_requirements; eassumption.
Qed.

Lemma walker_collects limit things items P P' n :
  _add_recursively pool_add limit things P = (inr tt, P') ->
  py_iter things = Some items ->
  visits items n ->
  collected P' n.
Proof.
  revert things items P P' n.
  induction limit as [|limit IH]; intros things items P P' n Hrun Hiter Hvisits;
    simpl in Hrun; [discriminate|].
  rewrite Hiter in Hrun.
  assert (Hrec : forall x, growing (_add_recursively pool_add limit x))
    by (intros x; apply growing_walker).
  assert (Hvisit : forall t, growing (visit pool_add (_add_recursively pool_add limit) t))
    by (intros t; apply growing_visit, Hrec).
  inversion Hvisits as [? t Hin Hstr|? t tasks_ sub ? Hin Hstr Htg Htasks Htruthy Hsub Hbelow
                         |? t vs ? Hin Hstr Hvars Hbelow]; subst.
  - destruct (for_each_ok _ _ _ _ _ Hvisit Hrun Hin) as (P1 & P2 & Ht & Hg).
    destruct (visit_ok _ _ _ _ Hrec Hstr Ht) as (P6 & P7 & Hcoll & H7 & H8).
    eapply collected_grows; [|exact Hcoll].
    eapply grows_trans; [|exact Hg].
    eapply grows_trans; [eapply snd_grows; [|exact H7]|eapply snd_grows; [|exact H8]].
    + destruct (is_task_group n); [|apply growing_ret].
      destruct (py_getattr n "tasks"); [|apply growing_raise].
      destruct (py_truthy _); [apply Hrec|apply growing_ret].
    + destruct (py_vars n); [apply Hrec|apply growing_ret].
  - destruct (for_each_ok _ _ _ _ _ Hvisit Hrun Hin) as (P1 & P2 & Ht & Hg).
    destruct (visit_ok _ _ _ _ Hrec Hstr Ht) as (P6 & P7 & Hcoll & H7 & H8).
    rewrite Htg, Htasks, Htruthy in H7.
    eapply collected_grows; [|eapply IH; [exact H7|exact Hsub|exact Hbelow]].
    eapply grows_trans; [|exact Hg].
    eapply snd_grows; [|exact H8].
    destruct (py_vars t); [apply Hrec|apply growing_ret].
  - destruct (for_each_ok _ _ _ _ _ Hvisit Hrun Hin) as (P1 & P2 & Ht & Hg).
    destruct (visit_ok _ _ _ _ Hrec Hstr Ht) as (P6 & P7 & Hcoll & H7 & H8).
    rewrite Hvars in H8.
    eapply collected_grows; [exact Hg|].
    eapply IH; [exact H8|reflexivity|exact Hbelow].
Qed.

End collects.

(** ** [add_dags] and the nodes of a DAG *)

(** The DAGs an argument of [add_dags] passes in: the argument itself, or
    an item of the iterable. *)
Definition passed (arg : thing) (dag : OrbiterDAG) : Prop :=
  as_dag arg = Some dag \/
  (as_dag arg = None /\
   exists items, py_iter arg = Some items /\ In (PyDAG dag) items).

(** The nodes of a DAG the two walks of [add_dags] reach: below its tasks,
    and below the DAG itself. *)
Definition reachable (dag : OrbiterDAG) (n : thing) : Prop :=
  visits (map snd (tasks dag)) n \/ visits [PyDAG dag] n.

(** Each entity the node carries is in its collection under its identity
    key, and the key is there once; a requirement is an element of the set. *)
Definition collected_once (P : OrbiterProject) (n : thing) : Prop :=
  (forall p, carried as_pool n "orbiter_pool" p ->
             key_count (pool_name p) (pools P) = 1%nat) /\
  (forall c, carried as_connection n "orbiter_conns" c ->
             key_count (conn_id c) (connections P) = 1%nat) /\
  (forall v, carried as_variable n "orbiter_vars" v ->
             key_count (var_key v) (variables P) = 1%nat) /\
  (forall e, carried as_env_var n "orbiter_env_vars" e ->
             key_count (env_key e) (env_vars P) = 1%nat) /\
  (forall i, carried as_include n "orbiter_includes" i ->
             key_count (filepath i) (includes P) = 1%nat) /\
  (forall r, carried as_requirement n "imports" r -> r ∈ requirements P).

Lemma key_count_once {V} k (d : pydict V) :
  dict_wf d -> k ∈ dict_keys d -> key_count k d = 1%nat.
Proof.
  intros Hwf Hin. apply list_elem_of_In in Hin.
  destruct (dict_get k d) as [v|] eqn:E.
  - eapply key_count_wf; eassumption.
  - apply dict_get_None_keys in E. contradiction.
Qed.

Lemma collected_wf_once P n : project_wf P -> collected P n -> collected_once P n.
Proof.
  unfold project_wf, collected, collected_once.
  intros (?&?&?&?&?&?) (Hp&Hc&Hv&He&Hi&Hr).
  split_and!; auto using @key_count_once.
Qed.

Section add_dags_facts.
Variable pool_add : OrbiterPool -> OrbiterPool -> OrbiterPool.
Variable dag_add : OrbiterDAG -> OrbiterDAG -> OrbiterDAG.

Lemma add_dag_collects limit dag P P' n :
  add_dag pool_add dag_add limit dag P = (inr tt, P') ->
  reachable dag n -> collected P' n.
Proof.
  intros Hrun Hreach. unfold add_dag in Hrun.
  apply bind_ok in Hrun as ([] & P1 & _ & Hrun).
  apply bind_ok in Hrun as ([] & P2 & Htasks & Hself).
  destruct Hreach as [Hv|Hv].
  - eapply collected_grows; [eapply snd_grows; [|exact Hself]; apply growing_walker|].
    eapply walker_collects; [exact Htasks|reflexivity|exact Hv].
  - eapply walker_collects; [exact Hself|reflexivity|exact Hv].
Qed.

Lemma add_dags_collects limit arg P P' dag n :
  add_dags pool_add dag_add limit arg P = (inr tt, P') ->
  passed arg dag -> reachable dag n -> collected P' n.
Proof.
  intros Hrun Hpassed Hreach. unfold add_dags, validated_for in Hrun.
  destruct Hpassed as [Harg|(Harg & items & Hiter & Hin)].
  - rewrite Harg in Hrun. eapply add_dag_collects; eassumption.
  - rewrite Harg, Hiter in Hrun.
    destruct (for_validated_ok as_dag (add_dag pool_add dag_add limit) items P P'
                (PyDAG dag) (growing_add_dag pool_add dag_add limit) Hrun Hin)
      as (a & P1 & P2 & Ha & Hadd & Hg).
    injection Ha as <-.
    eapply collected_grows; [exact Hg|]. eapply add_dag_collects; eassumption.
Qed.

End add_dags_facts.

(** C1, amended: when [add_dags] returns, for every DAG passed in and every
    node the walker reaches from it - the DAG itself, its tasks, the tasks
    of task groups at any depth, and every object that is the value of an
    attribute of such a node, such as a callback on a task or the schedule
    of the DAG - each pool, connection, variable, env var and include the
    node carries is in the project's collection under its identity key,
    that key once, and each requirement is in the set. *)
Theorem add_dags_collects_reachable
    (pool_add : OrbiterPool -> OrbiterPool -> OrbiterPool)
    (dag_add : OrbiterDAG -> OrbiterDAG -> OrbiterDAG)
    (limit : nat) (arg : thing) (P P' : OrbiterProject)
    (dag : OrbiterDAG) (n : thing) :
  project_wf P ->
  add_dags pool_add dag_add limit arg P = (inr tt, P') ->
  passed arg dag -> reachable dag n ->
  collected_once P' n.
Proof.
  intros Hwf Hrun Hpassed Hreach. apply collected_wf_once.
  - pose proof (snd_grows _ _ _ _ (growing_add_dags pool_add dag_add limit arg) Hrun) as Hg.
    apply Hg. exact Hwf.
  - eapply add_dags_collects; eassumption.
Qed.

Lemma returned {S} (m : M S unit) (s : S) :
  fst (m s) = inr tt -> m s = (inr tt, snd (m s)).
Proof. destruct (m s) as [r s']. simpl. intros ->. reflexivity. Qed.

(** The doctest of [add_dags] that adds "a little of everything". *)
Definition smtp_callback : thing :=
  PyObj OrbiterCallback
    [("to", PyStr "foo@bar.com"); ("smtp_conn_id", PyStr "SMTP");
     ("orbiter_conns", PyList [PyConnection (mkConnection "SMTP" "smtp")]);
     ("imports", PyList [PyRequirement
        (mkRequirement ["send_smtp_notification"] (Some "apache-airflow-providers-smtp")
           (Some "airflow.providers.smtp.notifications.smtp") None)])].

Definition bash_task : thing :=
  PyObj OrbiterOperator
    [("task_id", PyStr "foo"); ("bash_command", PyStr "echo Hello");
     ("imports", PyList [PyRequirement
        (mkRequirement ["BashOperator"] (Some "apache-airflow")
           (Some "airflow.operators.bash") None)]);
     ("orbiter_pool", PyPool (mkPool "foo" "" 1));
     ("orbiter_vars", PyList [PyVariable (mkVariable "foo" "bar")]);
     ("orbiter_conns", PyList [PyConnection (mkConnection "foo" "generic")]);
     ("orbiter_env_vars", PyList [PyEnvVar (mkEnvVar "foo" "bar")]);
     ("on_success_callback", smtp_callback)].

Definition task_group : thing :=
  PyObj OrbiterTaskGroup
    [("task_group_id", PyStr "foo");
     ("imports", PyList [PyRequirement
        (mkRequirement ["TaskGroup"] (Some "apache-airflow")
           (Some "airflow.utils.task_group") None)]);
     ("tasks", PyList [bash_task])].

Definition everything_dag : OrbiterDAG :=
  mkDAG "foo" "" [("foo", task_group)]
    [("imports", PyList
        [PyRequirement (mkRequirement ["DAG"] (Some "apache-airflow") (Some "airflow") None);
         PyRequirement (mkRequirement ["DateTime"; "Timezone"] (Some "pendulum") (Some "pendulum") None)]);
     ("orbiter_env_vars", PyList [PyEnvVar (mkEnvVar "foo" "bar")]);
     ("orbiter_includes", PyList [PyInclude (mkInclude "foo.txt" "Hello, World!")]);
     ("schedule", PyObj OrbiterTimetable
        [("cron_defs", PyList [PyStr "0 */5 * * *"; PyStr "0 */3 * * *"]);
         ("imports", PyList [PyRequirement
            (mkRequirement ["MultiCronTimetable"] (Some "croniter")
               (Some "multi_cron_timetable") None)])])].

Definition newer_wins {A} (existing new : A) : A := new.

Example add_dags_everything :
  let P := snd (add_dags newer_wins newer_wins 100 (PyDAG everything_dag) empty_project) in
  dict_keys (dags P) = ["foo"] /\
  dict_keys (pools P) = ["foo"] /\
  dict_keys (connections P) = ["foo"; "SMTP"] /\
  dict_keys (variables P) = ["foo"] /\
  dict_keys (env_vars P) = ["foo"] /\
  dict_keys (includes P) = ["foo.txt"] /\
  size (requirements P) = 6%nat.
Proof. vm_compute. repeat split. Qed.

Lemma add_dags_collects_reachable_witness :
  collected_once
    (snd (add_dags newer_wins newer_wins 100 (PyDAG everything_dag) empty_project))
    smtp_callback.
Proof.
  apply (add_dags_collects_reachable newer_wins newer_wins 100
           (PyDAG everything_dag) empty_project _ everything_dag smtp_callback).
  - unfold project_wf, dict_wf. simpl. split_and!; apply NoDup_nil_2.
  - apply returned. vm_compute. reflexivity.
  - left. reflexivity.
  - left. simpl.
    apply (visits_task _ task_group (PyList [bash_task]) [bash_task]);
      [left; reflexivity|reflexivity|reflexivity|reflexivity|reflexivity|reflexivity|].
    eapply (visits_attr _ bash_task); [left; reflexivity|reflexivity|reflexivity|].
    apply visits_item; [simpl; tauto|reflexivity].
Defined.

(** [n] is held somewhere inside [t]: as an item of a list, a value of a
    dict or the value of an attribute, at any depth. *)
Inductive inside : thing -> thing -> Prop :=
| inside_list items t : In t items -> inside (PyList items) t
| inside_dict kvs k t : In (k, t) kvs -> inside (PyDict kvs) t
| inside_attr t vs k v : py_vars t = Some vs -> In (k, v) vs -> inside t v
| inside_trans a b c : inside a b -> inside b c -> inside a c.

Definition callbacks_task : thing :=
  PyObj OrbiterOperator
    [("task_id", PyStr "foo"); ("on_failure_callback", PyList [smtp_callback])].

Definition callbacks_dag : OrbiterDAG :=
  mkDAG "foo" "foo.py" [("foo", callbacks_task)] [].

(** C1, as stated, fails for a node that is an item of a list held in an
    attribute: the walker visits the list, which has no attributes, and
    does not look at its items.  A task with a list of callbacks, one of
    which carries the connection [SMTP]: [add_dags] returns and [SMTP] is
    not among the connections. *)
Lemma callback_in_list_not_collected :
  inside (PyDAG callbacks_dag) smtp_callback /\
  carried as_connection smtp_callback "orbiter_conns" (mkConnection "SMTP" "smtp") /\
  fst (add_dags newer_wins newer_wins 100 (PyDAG callbacks_dag) empty_project) = inr tt /\
  "SMTP" ∉ dict_keys (connections
     (snd (add_dags newer_wins newer_wins 100 (PyDAG callbacks_dag) empty_project))).
Proof.
  split_and!.
  - eapply inside_trans.
    { eapply (inside_attr _ _ "tasks"); [reflexivity|simpl; tauto]. }
    eapply inside_trans.
    { eapply (inside_dict _ "foo"). left. reflexivity. }
    eapply inside_trans.
    { eapply (inside_attr _ _ "on_failure_callback"); [reflexivity|simpl; tauto]. }
    eapply inside_list. left. reflexivity.
  - exists (PyList [PyConnection (mkConnection "SMTP" "smtp")]).
    split_and!; [reflexivity|reflexivity|].
    right. split; [reflexivity|]. eexists. split; [reflexivity|].
    eexists. split; [left; reflexivity|reflexivity].
  - vm_compute. reflexivity.
  - vm_compute. intros H. inversion H.
Qed.

(** The same happens to a callback held in the [default_args] dict of a
    DAG. *)
Definition default_args_dag : OrbiterDAG :=
  mkDAG "foo" "foo.py" []
    [("default_args", PyDict [("on_failure_callback", smtp_callback)])].

Example callback_in_default_args :
  add_dags newer_wins newer_wins 100 (PyDAG default_args_dag) empty_project
  = (inr tt, mkProject [("foo", default_args_dag)] ∅ [] [] [] [] []).
Proof. vm_compute. reflexivity. Qed.

(** ** Termination of the walker *)

Local Open Scope nat_scope.

(** The height of a value as a tree. *)
Fixpoint height (t : thing) : nat :=
  match t with
  | PyNone | PyInt _ | PyStr _ => 0
  | PyList items =>
      S ((fix hs (l : list thing) : nat :=
            match l with
            | [] => 0
            | x :: l' => Nat.max (height x) (hs l')
            end) items)
  | PyDict kvs =>
      S ((fix hs (l : list (string * thing)) : nat :=
            match l with
            | [] => 0
            | kv :: l' => Nat.max (height (snd kv)) (hs l')
            end) kvs)
  | PyPool _ | PyConnection _ | PyVariable _ | PyEnvVar _ | PyInclude _
  | PyRequirement _ => 2
  | PyObj _ attrs =>
      S ((fix hs (l : list (string * thing)) : nat :=
            match l with
            | [] => 0
            | kv :: l' => Nat.max (height (snd kv)) (hs l')
            end) attrs)
  | PyDAG (mkDAG _ _ tasks_ attrs) =>
      S (S (Nat.max
        ((fix hs (l : list (string * thing)) : nat :=
            match l with
            | [] => 0
            | kv :: l' => Nat.max (height (snd kv)) (hs l')
            end) tasks_)
        ((fix hs (l : list (string * thing)) : nat :=
            match l with
            | [] => 0
            | kv :: l' => Nat.max (height (snd kv)) (hs l')
            end) attrs)))
  end.

Definition heights (l : list thing) : nat :=
  fold_right (fun x h => Nat.max (height x) h) 0%nat l.

Lemma height_PyList items : height (PyList items) = S (heights items).
Proof. reflexivity. Qed.

Lemma height_values (kvs : list (string * thing)) :
  (fix hs (l : list (string * thing)) : nat :=
     match l with
     | [] => 0%nat
     | kv :: l' => Nat.max (height (snd kv)) (hs l')
     end) kvs = heights (map snd kvs).
Proof. induction kvs as [|kv l IH]; simpl; [reflexivity|]. rewrite IH. reflexivity. Qed.

Lemma height_PyDict kvs : height (PyDict kvs) = S (heights (map snd kvs)).
Proof. simpl. rewrite height_values. reflexivity. Qed.

Lemma height_PyObj cls attrs : height (PyObj cls attrs) = S (heights (map snd attrs)).
Proof. simpl. rewrite height_values. reflexivity. Qed.

Lemma height_PyDAG d :
  height (PyDAG d) =
  S (S (Nat.max (heights (map snd (tasks d))) (heights (map snd (dag_attrs d))))).
Proof. destruct d. simpl. rewrite !height_values. reflexivity. Qed.

Lemma heights_In x l : In x l -> (height x <= heights l)%nat.
Proof.
  induction l as [|y l IH]; simpl; [tauto|].
  intros [->|Hin]; [lia|]. specialize (IH Hin). lia.
Qed.

Lemma heights_strs (names : list string) : heights (map PyStr names) = 0%nat.
Proof. induction names as [|n l IH]; simpl; [reflexivity|exact IH]. Qed.

Lemma height_opt_str o : height (opt_str o) = 0%nat.
Proof. destruct o; reflexivity. Qed.

Lemma height_vars t vs :
  py_vars t = Some vs -> (height (PyList (map snd vs)) <= height t)%nat.
Proof.
  intros Hvars. rewrite height_PyList.
  destruct t; simpl in Hvars; try discriminate; injection Hvars as <-;
    try (simpl; lia).
  - simpl. rewrite heights_strs, !height_opt_str. simpl. lia.
  - rewrite height_PyObj. lia.
  - rewrite height_PyDAG. cbn [map snd heights fold_right height].
    rewrite height_values.
    change (fold_right (fun x h => Nat.max (height x) h) 0%nat (map snd (dag_attrs d)))
      with (heights (map snd (dag_attrs d))).
    lia.
Qed.

Lemma assoc_In {V} k (v : V) l : assoc k l = Some v -> In v (map snd l).
Proof.
  induction l as [|[k' v'] l IH]; simpl; [discriminate|].
  destruct (decide (k = k')); [intros [= ->]; left; reflexivity|right; auto].
Qed.

Lemma height_getattr t name v :
  py_getattr t name = Some v -> (height v < height t)%nat.
Proof.
  unfold py_getattr. destruct (py_vars t) as [vs|] eqn:Hvars; [|discriminate].
  intros Hassoc. apply assoc_In, heights_In in Hassoc.
  apply height_vars in Hvars. rewrite height_PyList in Hvars. lia.
Qed.

Lemma height_iter things items t :
  py_iter things = Some items -> In t items ->
  (height t < height things)%nat \/ (py_vars t = None /\ is_task_group t = false).
Proof.
  intros Hiter Hin.
  destruct things as [| | | |kvs| | | | | | |cls attrs|d];
    try destruct cls; try destruct d; simpl in Hiter; try discriminate;
    injection Hiter as <-;
    try (right; simpl in Hin;
         repeat (destruct Hin as [<-|Hin]; [split; reflexivity|]);
         try contradiction;
         apply in_map_iff in Hin as (kv & <- & _); split; reflexivity).
  left. rewrite height_PyList. apply heights_In in Hin. lia.
Qed.

(** The call does not run out of frames. *)
Definition in_bounds {A} (m : M OrbiterProject A) : Prop :=
  forall P, fst (m P) <> inl RecursionError.

Lemma in_bounds_ret {A} (a : A) : in_bounds (ret a).
Proof. intros P. discriminate. Qed.

Lemma in_bounds_bind {A B} (m : M OrbiterProject A) (k : A -> M OrbiterProject B) :
  in_bounds m -> (forall a, in_bounds (k a)) -> in_bounds (bind m k).
Proof.
  intros Hm Hk P. unfold bind. specialize (Hm P).
  destruct (m P) as [[e|a] P1]; simpl in *; [|apply Hk].
  intros [= ->]. apply Hm. reflexivity.
Qed.

Lemma in_bounds_for_each {A} (xs : list A) body :
  (forall x, In x xs -> in_bounds (body x)) -> in_bounds (for_each xs body).
Proof.
  induction xs as [|x xs IH]; intros Hbody; simpl.
  - apply in_bounds_ret.
  - apply in_bounds_bind; [apply Hbody; left; reflexivity|].
    intros _. apply IH. intros y Hy. apply Hbody. right. exact Hy.
Qed.

Lemma in_bounds_validated_for {A} (isinstance : thing -> option A) body arg :
  (forall a, in_bounds (body a)) -> in_bounds (validated_for isinstance body arg).
Proof.
  intros Hbody. unfold validated_for. destruct (isinstance arg); [apply Hbody|].
  destruct (py_iter arg) as [items|]; [|intros P; discriminate].
  induction items as [|x items IH]; simpl; [apply in_bounds_ret|].
  destruct (isinstance x); [|intros P; discriminate].
  apply in_bounds_bind; [apply Hbody|intros _; exact IH].
Qed.

Lemma in_bounds_probe t name add :
  (forall v, in_bounds (add v)) -> in_bounds (probe t name add).
Proof.
  intros Hadd. unfold probe. destruct (py_getattr t name); [|apply in_bounds_ret].
  destruct (py_truthy _); [apply Hadd|apply in_bounds_ret].
Qed.

Section termination.
Variable pool_add : OrbiterPool -> OrbiterPool -> OrbiterPool.

Lemma in_bounds_visit recur t :
  (forall v, is_task_group t = true -> py_getattr t "tasks" = Some v ->
             in_bounds (recur v)) ->
  (forall vs, py_vars t = Some vs -> in_bounds (recur (PyList (map snd vs)))) ->
  in_bounds (visit pool_add recur t).
Proof.
  intros Htasks Hvars. unfold visit. destruct (is_str t); [apply in_bounds_ret|].
  repeat (apply in_bounds_bind; [|intros _]);
    try (apply in_bounds_probe; intros v; apply in_bounds_validated_for;
         intros a P; discriminate).
  - destruct (is_task_group t); [|apply in_bounds_ret].
    destruct (py_getattr t "tasks") as [v|]; [|intros P; discriminate].
    destruct (py_truthy v); [apply Htasks; reflexivity|apply in_bounds_ret].
  - destruct (py_vars t) as [vs|]; [apply Hvars; reflexivity|apply in_bounds_ret].
Qed.

Lemma walker_in_bounds limit things :
  (height things < limit)%nat -> in_bounds (_add_recursively pool_add limit things).
Proof.
  revert things. induction limit as [|limit IH]; intros things Hh; [lia|].
  simpl. destruct (py_iter things) as [items|] eqn:Hiter; [|intros P; discriminate].
  apply in_bounds_for_each. intros t Hin. apply in_bounds_visit.
  - intros v Htg Hattr. apply IH.
    destruct (height_iter _ _ _ Hiter Hin) as [Hlt|[_ Hno]]; [|congruence].
    apply height_getattr in Hattr. lia.
  - intros vs Hvars. apply IH.
    destruct (height_iter _ _ _ Hiter Hin) as [Hlt|[Hno _]]; [|congruence].
    apply height_vars in Hvars. lia.
Qed.

End termination.

(** A chain of [n] task groups, one inside the other, around a task. *)
Fixpoint nest (n : nat) : thing :=
  match n with
  | O => PyObj OrbiterOperator []
  | Datatypes.S k => PyObj OrbiterTaskGroup [("tasks", PyList [nest k])]
  end.

Lemma height_nest n : (n < height (PyList [nest n]))%nat.
Proof.
  rewrite height_PyList. simpl heights.
  induction n as [|n IH]; [simpl; lia|].
  change (nest (Datatypes.S n)) with (PyObj OrbiterTaskGroup [("tasks", PyList [nest n])]).
  rewrite height_PyObj. cbn [map snd heights fold_right].
  rewrite height_PyList. cbn [heights fold_right]. lia.
Qed.

Lemma walk_nest pool_add n limit P :
  (n + 2 <= limit)%nat ->
  _add_recursively pool_add limit (PyList [nest n]) P = (inr tt, P).
Proof.
  revert limit P. induction n as [|n IH]; intros limit P Hlimit.
  - destruct limit as [|[|limit]]; try lia. reflexivity.
  - destruct limit as [|[|limit]]; try lia.
    change (_add_recursively pool_add (S (S limit)) (PyList [nest (S n)]) P)
      with (bind (visit pool_add (_add_recursively pool_add (S limit)) (nest (S n)))
                 (fun _ => ret tt) P).
    unfold visit, probe.
    cbn [nest is_str py_getattr py_vars assoc is_task_group].
    repeat (destruct (decide (_ = "tasks")) as [Heq|_]; [discriminate Heq|]).
    destruct (decide ("tasks" = "tasks")); [|congruence].
    cbn [py_truthy List.length Nat.eqb negb map snd].
    unfold bind at 1 2 3 4 5 6 7 8. cbn [ret].
    rewrite (IH (S limit) P) by lia. reflexivity.
Qed.

(** C9, as stated, would give the walker a depth bound of its own beyond
    which every walk raises.  There is none: however high the bound, a chain
    of task groups nested deeper than it is walked to the end once the
    interpreter allows that many frames. *)
Lemma walker_has_no_depth_cap :
  ~ (exists cap : nat, forall limit things P,
       (cap < height things)%nat ->
       exists e, fst (_add_recursively newer_wins limit things P) = inl e).
Proof.
  intros [cap Hcap].
  destruct (Hcap (cap + 3)%nat (PyList [nest cap]) empty_project (height_nest cap))
    as [e He].
  rewrite walk_nest in He by lia. discriminate.
Qed.

(** C9, amended: the walker terminates on every finite tree: strings are
    skipped and not iterated, and whatever the tree, a walk with more
    frames available than the tree is high does not run out of them.  It
    has no depth cap of its own; the only bound is the interpreter's
    recursion limit, and running into it raises Python's [RecursionError]. *)
Theorem walker_terminates
    (pool_add : OrbiterPool -> OrbiterPool -> OrbiterPool) (things : thing) :
  (forall recur s P, visit pool_add recur (PyStr s) P = (inr tt, P)) /\
  (forall spare P,
     fst (_add_recursively pool_add (Datatypes.S (height things) + spare) things P)
     <> inl RecursionError) /\
  (forall P, _add_recursively pool_add 0 things P = (inl RecursionError, P)).
Proof.
  split_and!.
  - reflexivity.
  - intros spare P. apply walker_in_bounds. lia.
  - reflexivity.
Qed.

Example deep_nest_overflows :
  _add_recursively newer_wins 3 (PyList [nest 5]) empty_project
  = (inl RecursionError, empty_project).
Proof. reflexivity. Qed.

(** ** Validation is lazy *)

Lemma for_validated_stops {S A} (isinstance : thing -> option A) (inj : A -> thing)
    (body : A -> M S unit) good bad rest s :
  (forall a, isinstance (inj a) = Some a) ->
  isinstance bad = None ->
  for_validated isinstance body (map inj good ++ bad :: rest) s =
  match for_validated isinstance body (map inj good) s with
  | (inr _, s') => (inl ValidationError, s')
  | failed => failed
  end.
Proof.
  intros Hinj Hbad. revert s. induction good as [|a good IH]; intros s; simpl.
  - rewrite Hbad. reflexivity.
  - rewrite Hinj. unfold bind. destruct (body a s) as [[e|[]] s1]; [reflexivity|].
    apply IH.
Qed.

(** How the add-operation [add] of the entities [inj a] treats a value of
    another type: an argument that is neither an entity nor iterable
    raises [ValidationError] and leaves the project as it was; a
    non-matching item of an iterable raises [ValidationError] when the loop
    reaches it, and the project is then as the items before it left it
    (the call on those items alone says how); an empty sequence returns. *)
Definition lazily_validated {A} (isinstance : thing -> option A) (inj : A -> thing)
    (add : thing -> Method) : Prop :=
  (forall arg P,
     isinstance arg = None -> py_iter arg = None ->
     add arg P = (inl ValidationError, P)) /\
  (forall arg good bad rest P,
     is_dict arg = false -> is_dict bad = false ->
     isinstance arg = None ->
     py_iter arg = Some (map inj good ++ bad :: rest)%list ->
     isinstance bad = None ->
     add arg P =
     match add (PyList (map inj good)) P with
     | (inr _, P') => (inl ValidationError, P')
     | failed => failed
     end) /\
  (forall P, add (PyList []) P = (inr tt, P)).

Lemma validated_for_lazily {A} (isinstance : thing -> option A) (inj : A -> thing) body :
  (forall a, isinstance (inj a) = Some a) ->
  (forall l, isinstance (PyList l) = None) ->
  lazily_validated isinstance inj (validated_for isinstance body).
Proof.
  intros Hinj Hlist. unfold lazily_validated, validated_for. split_and!.
  - intros arg P -> ->. reflexivity.
  - intros arg good bad rest P _ _ -> -> Hbad. rewrite Hlist. simpl.
    apply for_validated_stops; assumption.
  - intros P. rewrite Hlist. reflexivity.
Qed.

(** C6, amended: validation is per item and lazy.  For each of the seven
    add-operations, a value that is neither an entity of the kind nor
    iterable raises [ValidationError] with the project untouched; in an
    iterable, the first item of another type raises [ValidationError], by
    which time the items before it have been added and stay added.  With
    the offending item first, nothing has changed. *)
Theorem add_operations_validate_lazily
    (pool_add : OrbiterPool -> OrbiterPool -> OrbiterPool)
    (dag_add : OrbiterDAG -> OrbiterDAG -> OrbiterDAG) (limit : nat) :
  lazily_validated as_connection PyConnection add_connections /\
  lazily_validated as_dag PyDAG (add_dags pool_add dag_add limit) /\
  lazily_validated as_env_var PyEnvVar add_env_vars /\
  lazily_validated as_include PyInclude add_includes /\
  lazily_validated as_pool PyPool (add_pools pool_add) /\
  lazily_validated as_requirement PyRequirement add_requirements /\
  lazily_validated as_variable PyVariable add_variables.
Proof.
  split_and!; apply validated_for_lazily; reflexivity.
Qed.

(** C6, as stated, fails on a sequence whose first item is valid:
    [add_connections([OrbiterConnection(conn_id='a'), 'foo'])] raises
    [ValidationError] with connection [a] already stored. *)
Lemma add_connections_applies_prefix :
  add_connections
    (PyList [PyConnection (mkConnection "a" "generic"); PyStr "foo"]) empty_project
  = (inl ValidationError,
     mkProject [] ∅ [] [("a", mkConnection "a" "generic")] [] [] []).
Proof. reflexivity. Qed.

(** The doctests: a string, and a list holding a string, raise. *)
Example add_connections_str P :
  add_connections (PyStr "foo") P = (inl ValidationError, P).
Proof. reflexivity. Qed.

Example add_connections_list_of_str P :
  add_connections (PyList [PyStr "foo"]) P = (inl ValidationError, P).
Proof. reflexivity. Qed.

(** An empty string has no characters to validate. *)
Example add_connections_empty_str P :
  add_connections (PyStr "") P = (inr tt, P).
Proof. reflexivity. Qed.

(** ** Combining projects *)

Lemma add_all_holds {A} (isinstance : thing -> option A) (inj : A -> thing) body
    (holds : OrbiterProject -> A -> Prop) (es : list A) P P' e :
  (forall a, isinstance (inj a) = Some a) ->
  (forall l, isinstance (PyList l) = None) ->
  (forall a, growing (body a)) ->
  (forall a P1 P2, body a P1 = (inr tt, P2) -> holds P2 a) ->
  (forall P1 P2 a, grows P1 P2 -> holds P1 a -> holds P2 a) ->
  validated_for isinstance body (PyList (map inj es)) P = (inr tt, P') ->
  In e es -> holds P' e.
Proof.
  intros Hinj Hlist Hgrow Hbody Hmono Hrun Hin.
  unfold validated_for in Hrun. rewrite Hlist in Hrun. simpl in Hrun.
  destruct (for_validated_ok isinstance body (map inj es) P P' (inj e) Hgrow Hrun
              (in_map inj es e Hin)) as (a & P1 & P2 & Ha & Hadd & Hg).
  rewrite Hinj in Ha. injection Ha as <-.
  eapply Hmono; [exact Hg|]. eapply Hbody. exact Hadd.
Qed.

(** Every entity of [other] is in [P] under its identity key. *)
Definition absorbed (other P : OrbiterProject) : Prop :=
  (forall d, In d (dict_values (dags other)) -> dag_id d ∈ dict_keys (dags P)) /\
  requirements other ⊆ requirements P /\
  (forall p, In p (dict_values (pools other)) -> pool_name p ∈ dict_keys (pools P)) /\
  (forall c, In c (dict_values (connections other)) -> conn_id c ∈ dict_keys (connections P)) /\
  (forall v, In v (dict_values (variables other)) -> var_key v ∈ dict_keys (variables P)) /\
  (forall e, In e (dict_values (env_vars other)) -> env_key e ∈ dict_keys (env_vars P)) /\
  (forall i, In i (dict_values (includes other)) -> filepath i ∈ dict_keys (includes P)).

Section combine_facts.
Variable pool_add : OrbiterPool -> OrbiterPool -> OrbiterPool.
Variable dag_add : OrbiterDAG -> OrbiterDAG -> OrbiterDAG.
Variable limit : nat.

(** The seven add-operations of [__add__], run on the left operand with
    the collections of the right operand [other]. *)
Definition fold_in (other : OrbiterProject) : Method :=
  add_dags pool_add dag_add limit (dags_of other) ;;
  add_requirements (requirements_of other) ;;
  add_pools pool_add (pools_of other) ;;
  add_connections (connections_of other) ;;
  add_variables (variables_of other) ;;
  add_env_vars (env_vars_of other) ;;
  add_includes (includes_of other).

Lemma growing_fold_in other : growing (fold_in other).
Proof.
  unfold fold_in.
  repeat (apply growing_bind; [|intros _]);
    auto using growing_add_dags, growing_add_requirements, growing_add_pools,
      growing_add_connections, growing_add_variables, growing_add_env_vars,
      growing_add_includes.
Qed.

Lemma add_dag_has_key d P P' :
  add_dag pool_add dag_add limit d P = (inr tt, P') -> dag_id d ∈ dict_keys (dags P').
Proof.
  unfold add_dag. intros Hrun.
  apply bind_ok in Hrun as ([] & P1 & Hset & Hrun).
  eapply grows_dags.
  - eapply snd_grows; [|exact Hrun].
    apply growing_bind; [apply growing_walker|intros _; apply growing_walker].
  - injection Hset as <-. simpl. unfold merge_dag.
    destruct (dict_get _ _); apply dict_keys_set_here.
Qed.

Lemma fold_in_absorbs other P P' :
  fold_in other P = (inr tt, P') -> absorbed other P'.
Proof.
  unfold fold_in. intros Hrun.
  apply bind_ok in Hrun as ([] & P1 & H1 & Hrun).
  pose proof (snd_grows _ _ _ _
    (growing_bind _ _ (growing_add_requirements _) (fun _ =>
     growing_bind _ _ (growing_add_pools pool_add _) (fun _ =>
     growing_bind _ _ (growing_add_connections _) (fun _ =>
     growing_bind _ _ (growing_add_variables _) (fun _ =>
     growing_bind _ _ (growing_add_env_vars _) (fun _ =>
     growing_add_includes _))))))
    Hrun) as G1.
  apply bind_ok in Hrun as ([] & P2 & H2 & Hrun).
  pose proof (snd_grows _ _ _ _
    (growing_bind _ _ (growing_add_pools pool_add _) (fun _ =>
     growing_bind _ _ (growing_add_connections _) (fun _ =>
     growing_bind _ _ (growing_add_variables _) (fun _ =>
     growing_bind _ _ (growing_add_env_vars _) (fun _ =>
     growing_add_includes _)))))
    Hrun) as G2.
  apply bind_ok in Hrun as ([] & P3 & H3 & Hrun).
  pose proof (snd_grows _ _ _ _
    (growing_bind _ _ (growing_add_connections _) (fun _ =>
     growing_bind _ _ (growing_add_variables _) (fun _ =>
     growing_bind _ _ (growing_add_env_vars _) (fun _ =>
     growing_add_includes _))))
    Hrun) as G3.
  apply bind_ok in Hrun as ([] & P4 & H4 & Hrun).
  pose proof (snd_grows _ _ _ _
    (growing_bind _ _ (growing_add_variables _) (fun _ =>
     growing_bind _ _ (growing_add_env_vars _) (fun _ =>
     growing_add_includes _)))
    Hrun) as G4.
  apply bind_ok in Hrun as ([] & P5 & H5 & Hrun).
  pose proof (snd_grows _ _ _ _
    (growing_bind _ _ (growing_add_env_vars _) (fun _ => growing_add_includes _))
    Hrun) as G5.
  apply bind_ok in Hrun as ([] & P6 & H6 & H7).
  pose proof (snd_grows _ _ _ _ (growing_add_includes _) H7) as G6.
  unfold absorbed. split_and!.
  - intros d Hd. apply (grows_dags P1 P' _ G1).
    apply (add_all_holds as_dag PyDAG (add_dag pool_add dag_add limit)
             (fun P d => dag_id d ∈ dict_keys (dags P)) (dict_values (dags other)) P P1 d);
      try reflexivity; try assumption.
    + apply growing_add_dag.
    + intros a Q1 Q2. apply add_dag_has_key.
    + intros Q1 Q2 a Hg ?. eapply grows_dags; eassumption.
  - intros r Hr. apply (grows_requirements P2 P' _ G2).
    apply (add_all_holds as_requirement PyRequirement add_requirement
             (fun P r => r ∈ requirements P) (elements (requirements other)) P1 P2 r);
      try reflexivity; try assumption.
    + apply growing_add_requirement.
    + intros a Q1 Q2 [= <-]. simpl. apply elem_of_union_l, elem_of_singleton. reflexivity.
    + intros Q1 Q2 a Hg ?. eapply grows_requirements; eassumption.
    + apply list_elem_of_In, elem_of_elements. exact Hr.
  - intros p Hp. apply (grows_pools P3 P' _ G3).
    apply (add_all_holds as_pool PyPool (add_pool pool_add)
             (fun P p => pool_name p ∈ dict_keys (pools P)) (dict_values (pools other)) P2 P3 p);
      try reflexivity; try assumption.
    + apply growing_add_pool.
    + intros a Q1 Q2 [= <-]. simpl. unfold merge_pool.
      destruct (dict_get _ _); apply dict_keys_set_here.
    + intros Q1 Q2 a Hg ?. eapply grows_pools; eassumption.
  - intros c Hc. apply (grows_connections P4 P' _ G4).
    apply (add_all_holds as_connection PyConnection add_connection
             (fun P c => conn_id c ∈ dict_keys (connections P))
             (dict_values (connections other)) P3 P4 c);
      try reflexivity; try assumption.
    + apply growing_add_connection.
    + intros a Q1 Q2 [= <-]. simpl. apply dict_keys_set_here.
    + intros Q1 Q2 a Hg ?. eapply grows_connections; eassumption.
  - intros v Hv. apply (grows_variables P5 P' _ G5).
    apply (add_all_holds as_variable PyVariable add_variable
             (fun P v => var_key v ∈ dict_keys (variables P))
             (dict_values (variables other)) P4 P5 v);
      try reflexivity; try assumption.
    + apply growing_add_variable.
    + intros a Q1 Q2 [= <-]. simpl. apply dict_keys_set_here.
    + intros Q1 Q2 a Hg ?. eapply grows_variables; eassumption.
  - intros e He. apply (grows_env_vars P6 P' _ G6).
    apply (add_all_holds as_env_var PyEnvVar add_env_var
             (fun P e => env_key e ∈ dict_keys (env_vars P))
             (dict_values (env_vars other)) P5 P6 e);
      try reflexivity; try assumption.
    + apply growing_add_env_var.
    + intros a Q1 Q2 [= <-]. simpl. apply dict_keys_set_here.
    + intros Q1 Q2 a Hg ?. eapply grows_env_vars; eassumption.
  - intros i Hi.
    apply (add_all_holds as_include PyInclude add_include
             (fun P i => filepath i ∈ dict_keys (includes P))
             (dict_values (includes other)) P6 P' i);
      try reflexivity; try assumption.
    + apply growing_add_include.
    + intros a Q1 Q2 [= <-]. simpl. apply dict_keys_set_here.
    + intros Q1 Q2 a Hg ?. eapply grows_includes; eassumption.
Qed.

(** A computation on the heap that does to [self] what the method [m]
    does to a project, reads [other] and touches nothing else. *)
Definition lifts {A} (self o : loc) (other : OrbiterProject)
    (c : M heap A) (m : M OrbiterProject A) : Prop :=
  forall h, h o = other ->
    exists h', c h = (fst (m (h self)), h') /\
               h' self = snd (m (h self)) /\
               forall l, l <> self -> h' l = h l.

Lemma lifts_call self o other (m : OrbiterProject -> Method) :
  lifts self o other (call self (fun h => m (h o))) (m other).
Proof.
  intros h Ho. unfold call. rewrite Ho.
  destruct (m other (h self)) as [r P'] eqn:E. eexists. split; [reflexivity|].
  simpl. split.
  - apply fn_lookup_insert.
  - intros l Hl. apply fn_lookup_insert_ne. congruence.
Qed.

Lemma lifts_ret {A} self o other (a : A) : lifts self o other (ret a) (ret a).
Proof. intros h Ho. exists h. split_and!; reflexivity. Qed.

Lemma lifts_bind {A B} self o other (c : M heap A) (m : M OrbiterProject A)
    (ck : A -> M heap B) (mk : A -> M OrbiterProject B) :
  o <> self ->
  lifts self o other c m -> (forall a, lifts self o other (ck a) (mk a)) ->
  lifts self o other (bind c ck) (bind m mk).
Proof.
  intros Hne Hc Hk h Ho. destruct (Hc h Ho) as (h1 & E1 & Hself & Hrest).
  unfold bind. rewrite E1. destruct (m (h self)) as [[e|a] P1] eqn:Em; simpl in *.
  - exists h1. split_and!; auto.
  - destruct (Hk a h1) as (h2 & E2 & Hself2 & Hrest2).
    { rewrite Hrest by exact Hne. exact Ho. }
    rewrite Hself in E2, Hself2. exists h2. split_and!; auto.
    intros l Hl. rewrite Hrest2, Hrest by exact Hl. reflexivity.
Qed.

Lemma add_lifts self o (h : heap) :
  o <> self ->
  lifts self o (h o) (__add__ pool_add dag_add limit self (Ref o))
    (fold_in (h o) ;; ret self).
Proof.
  intros Hne. unfold __add__, fold_in.
  pose proof (lifts_call self o (h o)) as Hcall.
  intros h0 Ho.
  assert (H : lifts self o (h o)
    (call self (fun h => add_dags pool_add dag_add limit (dags_of (h o))) ;;
     call self (fun h => add_requirements (requirements_of (h o))) ;;
     call self (fun h => add_pools pool_add (pools_of (h o))) ;;
     call self (fun h => add_connections (connections_of (h o))) ;;
     call self (fun h => add_variables (variables_of (h o))) ;;
     call self (fun h => add_env_vars (env_vars_of (h o))) ;;
     call self (fun h => add_includes (includes_of (h o))) ;;
     ret self)
    (add_dags pool_add dag_add limit (dags_of (h o)) ;;
     add_requirements (requirements_of (h o)) ;;
     add_pools pool_add (pools_of (h o)) ;;
     add_connections (connections_of (h o)) ;;
     add_variables (variables_of (h o)) ;;
     add_env_vars (env_vars_of (h o)) ;;
     add_includes (includes_of (h o)) ;;
     ret self)).
  { repeat (apply lifts_bind; [exact Hne| |intros _]); try apply lifts_ret.
    - apply (Hcall (fun other => add_dags pool_add dag_add limit (dags_of other))).
    - apply (Hcall (fun other => add_requirements (requirements_of other))).
    - apply (Hcall (fun other => add_pools pool_add (pools_of other))).
    - apply (Hcall (fun other => add_connections (connections_of other))).
    - apply (Hcall (fun other => add_variables (variables_of other))).
    - apply (Hcall (fun other => add_env_vars (env_vars_of other))).
    - apply (Hcall (fun other => add_includes (includes_of other))). }
  destruct (H h0 Ho) as (h' & E & Hself & Hrest).
  exists h'. split_and!; auto.
  - rewrite E. f_equal. unfold bind.
    repeat (match goal with |- context [match ?m ?s with _ => _ end] =>
      destruct (m s) as [[?|[]] ?]; simpl; try reflexivity end).
  - rewrite Hself. unfold bind.
    repeat (match goal with |- context [match ?m ?s with _ => _ end] =>
      destruct (m s) as [[?|[]] ?]; simpl; try reflexivity end).
Qed.

End combine_facts.

(** C10: [self + other] changes the left operand in place and returns it.
    A falsy right operand returns [self] with the heap as it was; a truthy
    one that is not a project raises [TypeError] with the heap as it was.
    For a project [other], the seven add-operations run on [self] with the
    collections of [other] as arguments, in the order dags, requirements,
    pools, connections, variables, env vars, includes: the result is the
    reference [self], no other object of the heap changes, [self] keeps all
    it had, and, when no add-operation raised, holds every entity of
    [other] under its identity key. *)
Theorem add_combines_in_place
    (pool_add : OrbiterPool -> OrbiterPool -> OrbiterPool)
    (dag_add : OrbiterDAG -> OrbiterDAG -> OrbiterDAG)
    (limit : nat) (self : loc) (h : heap) :
  (forall t,
     __add__ pool_add dag_add limit self (Value t) h =
     if py_truthy t
     then (inl (TypeError ("Expected OrbiterProject, got " ++ py_type t)), h)
     else (inr self, h)) /\
  (forall o, o <> self ->
     exists h',
       __add__ pool_add dag_add limit self (Ref o) h =
         (match fst (fold_in pool_add dag_add limit (h o) (h self)) with
          | inr _ => inr self
          | inl e => inl e
          end, h') /\
       h' self = snd (fold_in pool_add dag_add limit (h o) (h self)) /\
       (forall l, l <> self -> h' l = h l) /\
       grows (h self) (h' self) /\
       (fst (fold_in pool_add dag_add limit (h o) (h self)) = inr tt ->
        absorbed (h o) (h' self))).
Proof.
  split.
  - intros t. simpl. destruct (py_truthy t); reflexivity.
  - intros o Hne.
    destruct (add_lifts pool_add dag_add limit self o h Hne h eq_refl)
      as (h' & E & Hself & Hrest).
    unfold bind in E, Hself.
    destruct (fold_in pool_add dag_add limit (h o) (h self)) as [r P'] eqn:Efold.
    assert (Hself' : h' self = P') by (rewrite Hself; destruct r as [e|[]]; reflexivity).
    exists h'. simpl in *. split_and!.
    + rewrite E. destruct r as [e|[]]; reflexivity.
    + exact Hself'.
    + exact Hrest.
    + rewrite Hself'. eapply snd_grows; [apply growing_fold_in|exact Efold].
    + intros ->. rewrite Hself'. eapply fold_in_absorbs. exact Efold.
Qed.

Definition two_projects : heap :=
  <[1%nat := mkProject [] ∅ [("p1", mkPool "p1" "" 3%Z)]
               [("c2", mkConnection "c2" "generic")] [] [] [("foo.txt", mkInclude "foo.txt" "hi")]]>
  (fun _ => mkProject [] ∅ [("p1", mkPool "p1" "" 2%Z)]
               [("c1", mkConnection "c1" "generic")] [] [] []).

Example add_two_projects :
  let r := __add__ newer_wins newer_wins 100 0 (Ref 1) two_projects in
  fst r = inr 0%nat /\
  snd r 1%nat = two_projects 1%nat /\
  dict_keys (pools (snd r 0%nat)) = ["p1"] /\
  dict_keys (connections (snd r 0%nat)) = ["c1"; "c2"] /\
  dict_keys (includes (snd r 0%nat)) = ["foo.txt"].
Proof. vm_compute. repeat split. Qed.

(** ** Adding the same entity twice *)










(** *** The walker leaves the DAGs alone *)

Definition keeps_dags {A} (m : M OrbiterProject A) : Prop :=
  forall P, dags (snd (m P)) = dags P.

Lemma keeps_dags_ret {A} (a : A) : keeps_dags (ret a).
Proof. intros P. reflexivity. Qed.

Lemma keeps_dags_raise {A} e : keeps_dags (raise (A := A) e).
Proof. intros P. reflexivity. Qed.

Lemma keeps_dags_bind {A B} (m : M OrbiterProject A) (k : A -> M OrbiterProject B) :
  keeps_dags m -> (forall a, keeps_dags (k a)) -> keeps_dags (bind m k).
Proof.
  intros Hm Hk P. unfold bind. specialize (Hm P).
  destruct (m P) as [[e|a] P1]; simpl in *; [exact Hm|].
  rewrite Hk. exact Hm.
Qed.

Lemma keeps_dags_for_each {A} (xs : list A) body :
  (forall x, keeps_dags (body x)) -> keeps_dags (for_each xs body).
Proof.
  intros Hbody. induction xs as [|x xs IH]; simpl.
  - apply keeps_dags_ret.
  - apply keeps_dags_bind; [apply Hbody|intros _; exact IH].
Qed.

Lemma keeps_dags_validated_for {A} (isinstance : thing -> option A) body arg :
  (forall a, keeps_dags (body a)) -> keeps_dags (validated_for isinstance body arg).
Proof.
  intros Hbody. unfold validated_for. destruct (isinstance arg); [apply Hbody|].
  destruct (py_iter arg) as [items|]; [|apply keeps_dags_raise].
  induction items as [|x items IH]; simpl; [apply keeps_dags_ret|].
  destruct (isinstance x); [|apply keeps_dags_raise].
  apply keeps_dags_bind; [apply Hbody|intros _; exact IH].
Qed.

Lemma keeps_dags_probe t name add :
  (forall v, keeps_dags (add v)) -> keeps_dags (probe t name add).
Proof.
  intros Hadd. unfold probe. destruct (py_getattr t name); [|apply keeps_dags_ret].
  destruct (py_truthy _); [apply Hadd|apply keeps_dags_ret].
Qed.

Lemma keeps_dags_walker pool_add limit things :
  keeps_dags (_add_recursively pool_add limit things).
Proof.
  revert things. induction limit as [|limit IH]; intros things; simpl.
  - apply keeps_dags_raise.
  - destruct (py_iter things); [|apply keeps_dags_raise].
    apply keeps_dags_for_each. intros t. unfold visit.
    destruct (is_str t); [apply keeps_dags_ret|].
    repeat (apply keeps_dags_bind; [|intros _]);
      try (apply keeps_dags_probe; intros v; apply keeps_dags_validated_for;
           intros a P; reflexivity).
    + destruct (is_task_group t); [|apply keeps_dags_ret].
      destruct (py_getattr t "tasks"); [|apply keeps_dags_raise].
      destruct (py_truthy _); [apply IH|apply keeps_dags_ret].
    + destruct (py_vars t); [apply IH|apply keeps_dags_ret].
Qed.

Lemma add_dag_dags pool_add dag_add limit d P r P' :
  add_dag pool_add dag_add limit d P = (r, P') ->
  dags P' = merge_dag dag_add d (dags P).
Proof.
  unfold add_dag. intros Hrun.
  change (modify (set_dags (merge_dag dag_add d));;
          _add_recursively pool_add limit (PyList (map snd (tasks d)));;
          _add_recursively pool_add limit (PyList [PyDAG d]))
    with (bind (modify (set_dags (merge_dag dag_add d)))
               (fun _ => _add_recursively pool_add limit (PyList (map snd (tasks d)));;
                         _add_recursively pool_add limit (PyList [PyDAG d]))) in Hrun.
  unfold bind at 1 in Hrun. simpl in Hrun.
  pose proof (keeps_dags_bind _ _
    (keeps_dags_walker pool_add limit (PyList (map snd (tasks d))))
    (fun _ => keeps_dags_walker pool_add limit (PyList [PyDAG d]))
    (set_dags (merge_dag dag_add d) P)) as Hkeep.
  rewrite Hrun in Hkeep. simpl in Hkeep. rewrite Hkeep. destruct P; reflexivity.
Qed.






Section merge_laws.
Context {A : Type} (key : A -> string) (coll : OrbiterProject -> pydict A).
Context (merge : A -> A -> A) (inj : A -> thing) (add : thing -> Method).



End merge_laws.






(** ** Equality of projects *)

Definition include_only_project : OrbiterProject :=
  mkProject [] ∅ [] [] [] [] [("foo", mkInclude "foo" "bar")].

Definition dag_only_project : OrbiterProject :=
  mkProject [("foo", mkDAG "foo" "" [] [])] ∅ [] [] [] [] [].

(** C7: [__eq__] compares the DAGs by their text, and the requirements,
    pools, connections, variables and env vars by value, but it never
    looks at [includes]: changing the includes of either side does not
    change the answer, and a project whose only content is an include
    equals the empty project.  A DAG id that only one side has is looked
    up in the other and raises [KeyError] instead of answering [False]. *)
Theorem eq_ignores_includes (dag_str : OrbiterDAG -> string) :
  (forall P Q f g,
     __eq__ dag_str (set_includes f P) (set_includes g Q) = __eq__ dag_str P Q) /\
  __eq__ dag_str include_only_project empty_project = inr true /\
  includes include_only_project <> includes empty_project /\
  __eq__ dag_str dag_only_project empty_project = inl (KeyError "foo").
Proof.
  split_and!.
  - intros P Q f g. destruct P, Q. reflexivity.
  - reflexivity.
  - discriminate.
  - reflexivity.
Qed.

(** The doctest [OrbiterProject() == OrbiterProject()]. *)
Example empty_projects_equal dag_str : __eq__ dag_str empty_project empty_project = inr true.
Proof. reflexivity. Qed.

(** ** The doctests of [project.py], replayed *)

Example doctest_add_connections :
  connections (snd (add_connections
     (PyList [PyConnection (mkConnection "foo" "generic");
              PyConnection (mkConnection "bar" "generic")]) empty_project))
  = [("foo", mkConnection "foo" "generic"); ("bar", mkConnection "bar" "generic")].
Proof. reflexivity. Qed.

Example doctest_add_env_vars :
  env_vars (snd (add_env_vars (PyEnvVar (mkEnvVar "foo" "bar")) empty_project))
  = [("foo", mkEnvVar "foo" "bar")]
  /\ add_env_vars (PyList [PyEnvVar (mkEnvVar "foo" "bar")]) empty_project
     = add_env_vars (PyEnvVar (mkEnvVar "foo" "bar")) empty_project.
Proof. split; reflexivity. Qed.

Example doctest_add_includes :
  includes (snd (add_includes (PyInclude (mkInclude "foo" "bar")) empty_project))
  = [("foo", mkInclude "foo" "bar")].
Proof. reflexivity. Qed.

Example doctest_add_pools pool_add :
  pools (snd (add_pools pool_add (PyPool (mkPool "foo" "" 1)) empty_project))
  = [("foo", mkPool "foo" "" 1)].
Proof. reflexivity. Qed.

Example doctest_add_requirements :
  requirements (snd (add_requirements
     (PyRequirement (mkRequirement ["foo"] (Some "apache-airflow") (Some "bar") None))
     empty_project))
  = {[ mkRequirement ["foo"] (Some "apache-airflow") (Some "bar") None ]}.
Proof. simpl. apply (right_id_L ∅ (∪)). Qed.

Example doctest_add_variables :
  variables (snd (add_variables (PyVariable (mkVariable "foo" "bar")) empty_project))
  = [("foo", mkVariable "foo" "bar")].
Proof. reflexivity. Qed.

Example doctest_add_dags pool_add dag_add :
  dict_keys (dags (snd (add_dags pool_add dag_add 100
     (PyList [PyDAG (mkDAG "foo" "" [] []); PyDAG (mkDAG "bar" "" [] [])])
     empty_project)))
  = ["foo"; "bar"].
Proof. reflexivity. Qed.

Example doctest_wrong_type pool_add dag_add :
  fst (add_dags pool_add dag_add 100 (PyStr "foo") empty_project) = inl ValidationError /\
  fst (add_env_vars (PyList [PyStr "foo"]) empty_project) = inl ValidationError /\
  fst (add_includes (PyStr "foo") empty_project) = inl ValidationError /\
  fst (add_pools pool_add (PyList [PyStr "foo"]) empty_project) = inl ValidationError /\
  fst (add_requirements (PyStr "foo") empty_project) = inl ValidationError /\
  fst (add_variables (PyList [PyStr "foo"]) empty_project) = inl ValidationError.
Proof. repeat split. Qed.

(** [OrbiterProject() + OrbiterProject()] *)
Example doctest_add_empty pool_add dag_add :
  let r := __add__ pool_add dag_add 100 0 (Ref 1) (fun _ => empty_project) in
  fst r = inr 0 /\ snd r 0 = empty_project /\ snd r 1 = empty_project.
Proof. repeat split. Qed.

(** * Further properties of the code *)

(** ** Requirements are a set *)

Lemma fold_add_requirements rs P :
  fold_left (fun s r => set_requirements (fun t => {[ r ]} ∪ t) s) rs P
  = set_requirements (fun t => list_to_set rs ∪ t) P.
Proof.
  revert P. induction rs as [|r rs IH]; intros P; simpl.
  - destruct P. unfold set_requirements. simpl. f_equal.
    symmetry. apply (left_id_L ∅ (∪)).
  - rewrite IH. destruct P. unfold set_requirements. simpl. f_equal.
    rewrite (assoc_L (∪)), (comm_L (∪) (list_to_set rs)). reflexivity.
Qed.

(** X1: [add_requirements] of a sequence of requirements returns, and the set
    is then the old set together with the requirements of the sequence:
    neither their order nor how often each occurs matters, and nothing
    else of the project changes. *)
Theorem add_requirements_is_union (rs : list OrbiterRequirement) (P : OrbiterProject) :
  add_requirements (PyList (map PyRequirement rs)) P
  = (inr tt, set_requirements (fun s => list_to_set rs ∪ s) P) /\
  (forall rs', (forall r, r ∈ rs <-> r ∈ rs') ->
     add_requirements (PyList (map PyRequirement rs')) P
     = add_requirements (PyList (map PyRequirement rs)) P).
Proof.
  assert (Hrun : forall l, add_requirements (PyList (map PyRequirement l)) P
                 = (inr tt, set_requirements (fun s => list_to_set l ∪ s) P)).
  { intros l. unfold add_requirements, validated_for. simpl.
    rewrite (for_validated_entities as_requirement PyRequirement _ l (fun _ => eq_refl)).
    unfold add_requirement.
    rewrite (for_each_modify (fun r => set_requirements (fun t => {[ r ]} ∪ t))).
    rewrite fold_add_requirements. reflexivity. }
  split; [apply Hrun|].
  intros rs' Hsame. rewrite !Hrun. do 2 f_equal.
  assert (Hset : (list_to_set rs' : gset OrbiterRequirement) = list_to_set rs).
  { apply set_eq. intros r. rewrite !elem_of_list_to_set. symmetry. apply Hsame. }
  unfold set_requirements. rewrite Hset. reflexivity.
Qed.

(** The specification's example: [[A, B]] then [[B, C]] against [[C, A]]
    then [[B, B]]. *)
Example requirements_in_any_order (A B C : OrbiterRequirement) P :
  snd (add_requirements (PyList [PyRequirement B; PyRequirement C])
        (snd (add_requirements (PyList [PyRequirement A; PyRequirement B]) P)))
  = snd (add_requirements (PyList [PyRequirement B; PyRequirement B])
          (snd (add_requirements (PyList [PyRequirement C; PyRequirement A]) P))).
Proof.
  destruct P. unfold add_requirements, validated_for, add_requirement, modify,
    set_requirements, bind. simpl. f_equal.
  apply set_eq. intros r. rewrite !elem_of_union, !elem_of_singleton. tauto.
Qed.

(** ** Nothing is ever removed *)

(** X2: Whatever the argument, and whether the call returns or raises, an
    add-operation leaves every key and every requirement the project had
    in place, and keeps the keys of each dict distinct. *)
Theorem add_operations_never_remove
    (pool_add : OrbiterPool -> OrbiterPool -> OrbiterPool)
    (dag_add : OrbiterDAG -> OrbiterDAG -> OrbiterDAG)
    (limit : nat) (arg : thing) (P : OrbiterProject) :
  grows P (snd (add_connections arg P)) /\
  grows P (snd (add_dags pool_add dag_add limit arg P)) /\
  grows P (snd (add_env_vars arg P)) /\
  grows P (snd (add_includes arg P)) /\
  grows P (snd (add_pools pool_add arg P)) /\
  grows P (snd (add_requirements arg P)) /\
  grows P (snd (add_variables arg P)) /\
  grows P (snd (_add_recursively pool_add limit arg P)).
Proof.
  split_and!.
  - apply growing_add_connections.
  - apply growing_add_dags.
  - apply growing_add_env_vars.
  - apply growing_add_includes.
  - apply growing_add_pools.
  - apply growing_add_requirements.
  - apply growing_add_variables.
  - apply growing_walker.
Qed.

(** ** [add_dags] registers the DAG before it walks it *)

Lemma get_merge_dag dag_add d k (ds : pydict OrbiterDAG) :
  dict_get k (merge_dag dag_add d ds) =
  if decide (dag_id d = k)
  then Some (match dict_get k ds with
             | Some existing => dag_add existing d
             | None => d
             end)
  else dict_get k ds.
Proof.
  unfold merge_dag. destruct (decide (dag_id d = k)) as [<-|Hne].
  - destruct (dict_get (dag_id d) ds); apply dict_get_set_eq.
  - destruct (dict_get (dag_id d) ds); apply dict_get_set_ne; exact Hne.
Qed.

(** X3: However the walk of a DAG ends - it may raise [ValidationError] on an
    attribute of the wrong type, or [RecursionError] - the DAG has been
    stored by then: its id holds the DAG, or the merge of the DAG into
    what the id held, and every other id holds what it held. *)
Theorem add_dags_stores_before_walking
    (pool_add : OrbiterPool -> OrbiterPool -> OrbiterPool)
    (dag_add : OrbiterDAG -> OrbiterDAG -> OrbiterDAG)
    (limit : nat) (d : OrbiterDAG) (P : OrbiterProject) (k : string) :
  dict_get k (dags (snd (add_dags pool_add dag_add limit (PyDAG d) P))) =
  if decide (dag_id d = k)
  then Some (match dict_get k (dags P) with
             | Some existing => dag_add existing d
             | None => d
             end)
  else dict_get k (dags P).
Proof.
  destruct (add_dags pool_add dag_add limit (PyDAG d) P) as [r P'] eqn:Hrun.
  unfold add_dags, validated_for in Hrun. simpl in Hrun.
  apply add_dag_dags in Hrun. simpl. rewrite Hrun. apply get_merge_dag.
Qed.

Definition ill_typed_dag : OrbiterDAG :=
  mkDAG "foo" "foo.py"
    [("t", PyObj OrbiterOperator [("orbiter_pool", PyStr "default_pool")])] [].

Example add_dags_fails_after_storing :
  add_dags newer_wins newer_wins 100 (PyDAG ill_typed_dag) empty_project
  = (inl ValidationError, mkProject [("foo", ill_typed_dag)] ∅ [] [] [] [] []).
Proof. reflexivity. Qed.

(** ** The walk of a well-typed DAG returns *)

(** The attribute [attr] of [n], when set and truthy, is an entity of the
    kind or an iterable of such entities. *)
Definition well_typed {A} (isinstance : thing -> option A) (n : thing)
    (attr : string) : Prop :=
  forall v, py_getattr n attr = Some v -> py_truthy v = true ->
    (exists a, isinstance v = Some a) \/
    (exists items, py_iter v = Some items /\
       forall x, In x items -> exists a, isinstance x = Some a).

(** The six attributes the walker probes are well typed, and a task group
    has its [tasks], iterable unless falsy. *)
Definition node_ok (n : thing) : Prop :=
  well_typed as_pool n "orbiter_pool" /\
  well_typed as_connection n "orbiter_conns" /\
  well_typed as_variable n "orbiter_vars" /\
  well_typed as_env_var n "orbiter_env_vars" /\
  well_typed as_include n "orbiter_includes" /\
  well_typed as_requirement n "imports" /\
  (is_task_group n = true ->
   exists tasks_, py_getattr n "tasks" = Some tasks_ /\
     (py_truthy tasks_ = true -> exists sub, py_iter tasks_ = Some sub)).

(** The call returns. *)
Definition returns {S A} (m : M S A) : Prop :=
  forall s, exists a, fst (m s) = inr a.

Lemma returns_ret {S A} (a : A) : returns (ret (S := S) a).
Proof. intros s. exists a. reflexivity. Qed.

Lemma returns_bind {S A B} (m : M S A) (k : A -> M S B) :
  returns m -> (forall a, returns (k a)) -> returns (bind m k).
Proof.
  intros Hm Hk s. unfold bind. destruct (Hm s) as [a Ha].
  destruct (m s) as [[e|a'] s1]; simpl in Ha; [discriminate|]. apply Hk.
Qed.

Lemma returns_for_each {S A} (xs : list A) (body : A -> M S unit) :
  (forall x, In x xs -> returns (body x)) -> returns (for_each xs body).
Proof.
  induction xs as [|x xs IH]; intros Hbody; simpl.
  - apply returns_ret.
  - apply returns_bind; [apply Hbody; left; reflexivity|].
    intros _. apply IH. intros y Hy. apply Hbody. right. exact Hy.
Qed.

Lemma returns_probe {A} (isinstance : thing -> option A) body n attr :
  (forall a, returns (body a)) ->
  well_typed isinstance n attr ->
  returns (probe n attr (validated_for isinstance body)).
Proof.
  intros Hbody Hok. unfold probe.
  unfold well_typed in Hok.
  destruct (py_getattr n attr) as [v|]; [|apply returns_ret].
  destruct (py_truthy v) eqn:Htruthy; [|apply returns_ret].
  unfold validated_for.
  destruct (Hok v eq_refl Htruthy) as [[a Ha]|(items & Hiter & Hitems)].
  - rewrite Ha. apply Hbody.
  - destruct (isinstance v); [apply Hbody|]. rewrite Hiter.
    clear Hiter. induction items as [|x items IH]; simpl; [apply returns_ret|].
    destruct (Hitems x (or_introl eq_refl)) as [a ->].
    apply returns_bind; [apply Hbody|]. intros _. apply IH.
    intros y Hy. apply Hitems. right. exact Hy.
Qed.

Lemma returns_modify {S} (f : S -> S) : returns (modify f).
Proof. intros s. exists tt. reflexivity. Qed.

Section well_typed_walk.
Variable pool_add : OrbiterPool -> OrbiterPool -> OrbiterPool.
Variable dag_add : OrbiterDAG -> OrbiterDAG -> OrbiterDAG.

Lemma returns_visit recur t :
  node_ok t ->
  (forall v, is_task_group t = true -> py_getattr t "tasks" = Some v ->
             py_truthy v = true -> returns (recur v)) ->
  (forall vs, py_vars t = Some vs -> returns (recur (PyList (map snd vs)))) ->
  returns (visit pool_add recur t).
Proof.
  intros (Hp & Hc & Hv & He & Hi & Hr & Htg) Htasks Hvars. unfold visit.
  destruct (is_str t); [apply returns_ret|].
  apply returns_bind; [apply returns_probe; [intros a; apply returns_modify|exact Hp]|intros _].
  apply returns_bind; [apply returns_probe; [intros a; apply returns_modify|exact Hc]|intros _].
  apply returns_bind; [apply returns_probe; [intros a; apply returns_modify|exact Hv]|intros _].
  apply returns_bind; [apply returns_probe; [intros a; apply returns_modify|exact He]|intros _].
  apply returns_bind; [apply returns_probe; [intros a; apply returns_modify|exact Hi]|intros _].
  apply returns_bind; [apply returns_probe; [intros a; apply returns_modify|exact Hr]|intros _].
  apply returns_bind; [|intros _].
  - destruct (is_task_group t) eqn:Etg; [|apply returns_ret].
    destruct (Htg eq_refl) as (tasks_ & Hattr & _). rewrite Hattr.
    destruct (py_truthy tasks_) eqn:Etruthy; [|apply returns_ret].
    apply Htasks; auto.
  - destruct (py_vars t) as [vs|]; [apply Hvars; reflexivity|apply returns_ret].
Qed.

Lemma walker_returns limit things items :
  py_iter things = Some items ->
  height things < limit ->
  (forall n, visits items n -> node_ok n) ->
  returns (_add_recursively pool_add limit things).
Proof.
  revert things items. induction limit as [|limit IH];
    intros things items Hiter Hh Hok; [lia|].
  simpl. rewrite Hiter. apply returns_for_each. intros t Hin.
  destruct (is_str t) eqn:Hstr.
  { unfold visit. rewrite Hstr. apply returns_ret. }
  apply returns_visit.
  - apply Hok. apply visits_item; assumption.
  - intros v Htg Hattr Htruthy.
    destruct (Hok t (visits_item _ _ Hin Hstr)) as (_&_&_&_&_&_&Htasks).
    destruct (Htasks Htg) as (tasks_ & Hattr' & Hsub).
    rewrite Hattr in Hattr'. injection Hattr' as <-.
    destruct (Hsub Htruthy) as [sub Hsub'].
    apply (IH v sub Hsub').
    + destruct (height_iter _ _ _ Hiter Hin) as [Hlt|[_ Hno]]; [|congruence].
      apply height_getattr in Hattr. lia.
    + intros n Hn. apply Hok. eapply visits_task; eassumption.
  - intros vs Hvars. apply (IH (PyList (map snd vs)) (map snd vs) eq_refl).
    + destruct (height_iter _ _ _ Hiter Hin) as [Hlt|[Hno _]]; [|congruence].
      apply height_vars in Hvars. lia.
    + intros n Hn. apply Hok. eapply visits_attr; eassumption.
Qed.

End well_typed_walk.

(** X4: When every node the walker reaches from a DAG is well typed and the
    interpreter allows more nested calls than the DAG is high, [add_dags]
    of the DAG returns: no [ValidationError], [TypeError],
    [AttributeError] or [RecursionError]. *)
Theorem add_dags_returns_on_well_typed
    (pool_add : OrbiterPool -> OrbiterPool -> OrbiterPool)
    (dag_add : OrbiterDAG -> OrbiterDAG -> OrbiterDAG)
    (limit : nat) (d : OrbiterDAG) (P : OrbiterProject) :
  (forall n, reachable d n -> node_ok n) ->
  S (height (PyDAG d)) < limit ->
  fst (add_dags pool_add dag_add limit (PyDAG d) P) = inr tt.
Proof.
  intros Hok Hlimit.
  assert (Hret : returns (add_dags pool_add dag_add limit (PyDAG d))).
  { unfold add_dags, validated_for. simpl. unfold add_dag.
    apply returns_bind; [apply returns_modify|intros _].
    apply returns_bind; [|intros _].
    - apply (walker_returns pool_add limit (PyList (map snd (tasks d))) (map snd (tasks d)) eq_refl).
      + rewrite height_PyList. rewrite height_PyDAG in Hlimit.
        pose proof (Nat.le_max_l (heights (map snd (tasks d))) (heights (map snd (dag_attrs d)))).
        lia.
      + intros n Hn. apply Hok. left. exact Hn.
    - apply (walker_returns pool_add limit (PyList [PyDAG d]) [PyDAG d] eq_refl).
      + rewrite height_PyList. unfold heights, fold_right.
        pose proof (Nat.max_0_r (height (PyDAG d))). lia.
      + intros n Hn. apply Hok. right. exact Hn. }
  destruct (Hret P) as [[] H]. exact H.
Qed.

Lemma visits_inv items n :
  visits items n ->
  exists t, In t items /\ is_str t = false /\
    (n = t \/
     (is_task_group t = true /\
      exists tasks_ sub, py_getattr t "tasks" = Some tasks_ /\
        py_truthy tasks_ = true /\ py_iter tasks_ = Some sub /\ visits sub n) \/
     (exists vs, py_vars t = Some vs /\ visits (map snd vs) n)).
Proof.
  intros H. destruct H as [items t Hin Hstr|items t tasks_ sub n Hin Hstr Htg Hget Htruthy Hiter Hsub
                          |items t vs n Hin Hstr Hvars Hsub];
    exists t; (split; [exact Hin|split; [exact Hstr|]]).
  - left. reflexivity.
  - right. left. split; [exact Htg|]. exists tasks_, sub. auto.
  - right. right. exists vs. auto.
Qed.

(** A node that has none of the probed attributes and is no task group. *)
Lemma node_ok_plain n :
  py_getattr n "orbiter_pool" = None -> py_getattr n "orbiter_conns" = None ->
  py_getattr n "orbiter_vars" = None -> py_getattr n "orbiter_env_vars" = None ->
  py_getattr n "orbiter_includes" = None -> py_getattr n "imports" = None ->
  is_task_group n = false -> node_ok n.
Proof.
  intros H1 H2 H3 H4 H5 H6 Htg. unfold node_ok, well_typed.
  rewrite H1, H2, H3, H4, H5, H6, Htg. split_and!; intros; discriminate.
Qed.

Definition pooled_task : thing :=
  PyObj OrbiterOperator [("orbiter_pool", PyPool (mkPool "p" "" 1))].

Definition pooled_dag : OrbiterDAG := mkDAG "foo" "foo.py" [("t", pooled_task)] [].

Lemma pooled_dag_well_typed n : reachable pooled_dag n -> node_ok n.
Proof.
  intros [H|H].
  - apply visits_inv in H as (t & [<-|[]] & _ & [->|[[Htg _]|(vs & [= <-] & H)]]).
    + unfold node_ok, well_typed.
      split_and!; [intros ? [= <-] _; left; eexists; reflexivity|..];
        intros; discriminate.
    + discriminate.
    + apply visits_inv in H as (t & [<-|[]] & _ & [->|[[Htg _]|(vs & [= <-] & H)]]).
      * apply node_ok_plain; reflexivity.
      * discriminate.
      * apply visits_inv in H as (t & Hin & Hstr & Ht).
        simpl in Hin. destruct Hin as [<-|[<-|[<-|[]]]]; try discriminate.
        destruct Ht as [->|[[Htg _]|(vs & [=] & _)]];
          [apply node_ok_plain; reflexivity|discriminate].
  - apply visits_inv in H as (t & [<-|[]] & _ & [->|[[Htg _]|(vs & [= <-] & H)]]).
    + apply node_ok_plain; reflexivity.
    + discriminate.
    + apply visits_inv in H as (t & Hin & Hstr & Ht).
      simpl in Hin. destruct Hin as [<-|[<-|[<-|[]]]]; try discriminate.
      destruct Ht as [->|[[Htg _]|(vs & [=] & _)]];
        [apply node_ok_plain; reflexivity|discriminate].
Qed.

Lemma add_dags_returns_on_well_typed_witness :
  fst (add_dags newer_wins newer_wins 10 (PyDAG pooled_dag) empty_project) = inr tt.
Proof.
  apply (add_dags_returns_on_well_typed newer_wins newer_wins 10 pooled_dag empty_project).
  - exact pooled_dag_well_typed.
  - vm_compute. lia.
Defined.

(** ** Entities are stored under their own keys *)

Definition keyed_by {A} (key : A -> string) (d : pydict A) : Prop :=
  forall k v, In (k, v) d -> key v = k.

(** Every connection, variable, env var and include of the project sits
    under its own [conn_id], [key], [key] or [filepath]. *)
Definition own_keys (P : OrbiterProject) : Prop :=
  keyed_by conn_id (connections P) /\
  keyed_by var_key (variables P) /\
  keyed_by env_key (env_vars P) /\
  keyed_by filepath (includes P).

Lemma dict_set_In {V} k (v : V) d k' v' :
  In (k', v') (dict_set k v d) -> (k', v') = (k, v) \/ In (k', v') d.
Proof.
  induction d as [|[k0 v0] d IH]; simpl.
  - intros [H|[]]. left. symmetry. exact H.
  - destruct (decide (k = k0)) as [->|Hne]; simpl.
    + intros [H|H]; [left; symmetry; exact H|right; right; exact H].
    + intros [H|H]; [right; left; exact H|].
      destruct (IH H) as [E|E]; [left; exact E|right; right; exact E].
Qed.

Lemma keyed_by_set {A} (key : A -> string) (a : A) d :
  keyed_by key d -> keyed_by key (dict_set (key a) a d).
Proof.
  intros Hd k v Hin. apply dict_set_In in Hin as [[= -> ->]|Hin]; [reflexivity|].
  apply Hd. exact Hin.
Qed.

Section preserved.
Variable I : OrbiterProject -> Prop.

(** The call keeps [I], whether it returns or raises. *)
Definition preserves {A} (m : M OrbiterProject A) : Prop :=
  forall P, I P -> I (snd (m P)).

Lemma preserves_ret {A} (a : A) : preserves (ret a).
Proof. intros P H. exact H. Qed.

Lemma preserves_raise {A} e : preserves (raise (A := A) e).
Proof. intros P H. exact H. Qed.

Lemma preserves_bind {A B} (m : M OrbiterProject A) (k : A -> M OrbiterProject B) :
  preserves m -> (forall a, preserves (k a)) -> preserves (bind m k).
Proof.
  intros Hm Hk P HP. unfold bind. specialize (Hm P HP).
  destruct (m P) as [[e|a] P1]; simpl in *; [exact Hm|]. apply Hk. exact Hm.
Qed.

Lemma preserves_for_each {A} (xs : list A) body :
  (forall x, preserves (body x)) -> preserves (for_each xs body).
Proof.
  intros Hbody. induction xs as [|x xs IH]; simpl.
  - apply preserves_ret.
  - apply preserves_bind; [apply Hbody|intros _; exact IH].
Qed.

Lemma preserves_validated_for {A} (isinstance : thing -> option A) body arg :
  (forall a, preserves (body a)) -> preserves (validated_for isinstance body arg).
Proof.
  intros Hbody. unfold validated_for. destruct (isinstance arg); [apply Hbody|].
  destruct (py_iter arg) as [items|]; [|apply preserves_raise].
  induction items as [|x items IH]; simpl; [apply preserves_ret|].
  destruct (isinstance x); [|apply preserves_raise].
  apply preserves_bind; [apply Hbody|intros _; exact IH].
Qed.

Lemma preserves_probe t name add :
  (forall v, preserves (add v)) -> preserves (probe t name add).
Proof.
  intros Hadd. unfold probe. destruct (py_getattr t name); [|apply preserves_ret].
  destruct (py_truthy _); [apply Hadd|apply preserves_ret].
Qed.

Variable pool_add : OrbiterPool -> OrbiterPool -> OrbiterPool.
Variable dag_add : OrbiterDAG -> OrbiterDAG -> OrbiterDAG.
Hypothesis Hconnection : forall c, preserves (add_connection c).
Hypothesis Hvariable : forall v, preserves (add_variable v).
Hypothesis Henv_var : forall e, preserves (add_env_var e).
Hypothesis Hinclude : forall i, preserves (add_include i).
Hypothesis Hrequirement : forall r, preserves (add_requirement r).
Hypothesis Hpool : forall p, preserves (add_pool pool_add p).
Hypothesis Hdag : forall d, preserves (modify (set_dags (merge_dag dag_add d))).

Lemma preserves_walker limit things :
  preserves (_add_recursively pool_add limit things).
Proof.
  revert things. induction limit as [|limit IH]; intros things; simpl.
  - apply preserves_raise.
  - destruct (py_iter things); [|apply preserves_raise].
    apply preserves_for_each. intros t. unfold visit.
    destruct (is_str t); [apply preserves_ret|].
    repeat (apply preserves_bind; [|intros _]);
      try (apply preserves_probe; intros v; apply preserves_validated_for; assumption).
    + destruct (is_task_group t); [|apply preserves_ret].
      destruct (py_getattr t "tasks"); [|apply preserves_raise].
      destruct (py_truthy _); [apply IH|apply preserves_ret].
    + destruct (py_vars t); [apply IH|apply preserves_ret].
Qed.

Lemma preserves_add_dags limit arg :
  preserves (add_dags pool_add dag_add limit arg).
Proof.
  apply preserves_validated_for. intros d. unfold add_dag.
  repeat (apply preserves_bind; [|intros _]); auto using preserves_walker.
Qed.

Lemma preserves_fold_in limit other :
  preserves (fold_in pool_add dag_add limit other).
Proof.
  unfold fold_in.
  repeat (apply preserves_bind; [|intros _]);
    try (apply preserves_validated_for; assumption).
  apply preserves_add_dags.
Qed.

End preserved.

Lemma own_keys_steps pool_add dag_add :
  (forall c, preserves own_keys (add_connection c)) /\
  (forall v, preserves own_keys (add_variable v)) /\
  (forall e, preserves own_keys (add_env_var e)) /\
  (forall i, preserves own_keys (add_include i)) /\
  (forall r, preserves own_keys (add_requirement r)) /\
  (forall p, preserves own_keys (add_pool pool_add p)) /\
  (forall d, preserves own_keys (modify (set_dags (merge_dag dag_add d)))).
Proof.
  unfold preserves, own_keys.
  split_and!; intros x [] (Hc & Hv & He & Hi); simpl in *;
    split_and!; try assumption; apply keyed_by_set; assumption.
Qed.

(** X5: The invariant is kept by each add-operation, by the walker, and by the
    seven calls [+] makes on its left operand, for any argument and also
    when the call raises. *)
Theorem own_keys_invariant
    (pool_add : OrbiterPool -> OrbiterPool -> OrbiterPool)
    (dag_add : OrbiterDAG -> OrbiterDAG -> OrbiterDAG)
    (limit : nat) (arg : thing) (other P : OrbiterProject) :
  own_keys P ->
  own_keys (snd (add_connections arg P)) /\
  own_keys (snd (add_dags pool_add dag_add limit arg P)) /\
  own_keys (snd (add_env_vars arg P)) /\
  own_keys (snd (add_includes arg P)) /\
  own_keys (snd (add_pools pool_add arg P)) /\
  own_keys (snd (add_requirements arg P)) /\
  own_keys (snd (add_variables arg P)) /\
  own_keys (snd (fold_in pool_add dag_add limit other P)).
Proof.
  intros HP.
  destruct (own_keys_steps pool_add dag_add) as (Hc & Hv & He & Hi & Hr & Hp & Hd).
  split_and!.
  - apply (preserves_validated_for own_keys); assumption.
  - apply (preserves_add_dags own_keys pool_add dag_add); assumption.
  - apply (preserves_validated_for own_keys); assumption.
  - apply (preserves_validated_for own_keys); assumption.
  - apply (preserves_validated_for own_keys); assumption.
  - apply (preserves_validated_for own_keys); assumption.
  - apply (preserves_validated_for own_keys); assumption.
  - apply (preserves_fold_in own_keys pool_add dag_add); assumption.
Qed.

Lemma own_keys_empty : own_keys empty_project.
Proof. unfold own_keys, keyed_by. simpl. tauto. Qed.

Lemma own_keys_invariant_witness :
  own_keys (snd (add_connections (PyConnection (mkConnection "a" "generic")) empty_project)) /\
  own_keys (snd (add_dags newer_wins newer_wins 100 (PyDAG everything_dag) empty_project)) /\
  own_keys (snd (add_env_vars (PyDAG everything_dag) empty_project)) /\
  own_keys (snd (add_includes (PyDAG everything_dag) empty_project)) /\
  own_keys (snd (add_pools newer_wins (PyDAG everything_dag) empty_project)) /\
  own_keys (snd (add_requirements (PyDAG everything_dag) empty_project)) /\
  own_keys (snd (add_variables (PyDAG everything_dag) empty_project)) /\
  own_keys (snd (fold_in newer_wins newer_wins 100 no_dags_project empty_project)).
Proof.
  destruct (own_keys_invariant newer_wins newer_wins 100
              (PyDAG everything_dag) no_dags_project empty_project own_keys_empty)
    as (_ & H2 & H3 & H4 & H5 & H6 & H7 & H8).
  destruct (own_keys_invariant newer_wins newer_wins 100
              (PyConnection (mkConnection "a" "generic")) no_dags_project
              empty_project own_keys_empty) as (H1 & _).
  split_and!; assumption.
Defined.

(** ** The empty project is a right identity of [+] *)

(** X6: [self + OrbiterProject()] returns [self] and changes no object. *)
Theorem add_empty_project_changes_nothing
    (pool_add : OrbiterPool -> OrbiterPool -> OrbiterPool)
    (dag_add : OrbiterDAG -> OrbiterDAG -> OrbiterDAG)
    (limit : nat) (self o : loc) (h : heap) :
  o <> self -> h o = empty_project ->
  exists h',
    __add__ pool_add dag_add limit self (Ref o) h = (inr self, h') /\
    forall l, h' l = h l.
Proof.
  intros Hne Hempty.
  destruct (add_lifts pool_add dag_add limit self o h Hne h eq_refl)
    as (h' & E & Hself & Hrest).
  rewrite Hempty in E, Hself.
  exists h'. split; [exact E|].
  intros l. destruct (decide (l = self)) as [->|Hl]; [exact Hself|apply Hrest, Hl].
Qed.

Lemma add_empty_project_changes_nothing_witness :
  exists h',
    __add__ newer_wins newer_wins 100 0 (Ref 1)
      (<[1 := empty_project]> (fun _ => no_dags_project)) = (inr 0, h') /\
    forall l, h' l = (<[1 := empty_project]> (fun _ => no_dags_project)) l.
Proof.
  apply (add_empty_project_changes_nothing newer_wins newer_wins 100 0 1
           (<[1 := empty_project]> (fun _ => no_dags_project))).
  - discriminate.
  - reflexivity.
Defined.

(** ** What [==] answers, and when it raises *)

Section eq_facts.
Variable dag_str : OrbiterDAG -> string.

Lemma comprehension_same_text self other ks :
  match comprehension (same_text dag_str self other) ks with
  | inr bs =>
      bs = map (fun k => bool_decide
                  (option_map dag_str (dict_get k (dags self)) =
                   option_map dag_str (dict_get k (dags other)))) ks /\
      forall k, In k ks ->
        In k (dict_keys (dags self)) /\ In k (dict_keys (dags other))
  | inl e =>
      exists k, e = KeyError k /\ In k ks /\
        (~ In k (dict_keys (dags self)) \/ ~ In k (dict_keys (dags other)))
  end.
Proof.
  induction ks as [|k ks IH]; simpl.
  - split; [reflexivity|]. intros k [].
  - unfold same_text at 1, getitem.
    destruct (dict_get k (dags self)) as [a|] eqn:Ea.
    2:{ exists k. split; [reflexivity|]. split; [left; reflexivity|].
        left. apply dict_get_None_keys. exact Ea. }
    destruct (dict_get k (dags other)) as [b|] eqn:Eb.
    2:{ exists k. split; [reflexivity|]. split; [left; reflexivity|].
        right. apply dict_get_None_keys. exact Eb. }
    destruct (comprehension (same_text dag_str self other) ks) as [e|bs].
    + destruct IH as (k' & -> & Hin & Hor). exists k'. auto.
    + destruct IH as [-> Hks]. split.
      * f_equal. simpl. destruct (String.eqb_spec (dag_str a) (dag_str b)) as [E|E].
        -- rewrite bool_decide_eq_true_2; congruence.
        -- rewrite bool_decide_eq_false_2; congruence.
      * intros k' [<-|Hin]; [|apply Hks, Hin].
        split; eapply dict_get_Some_keys; eassumption.
Qed.

End eq_facts.

(** X7: [==] raises [KeyError] exactly when the two projects do not have the
    same DAG ids, and the key it names is an id that one side lacks; with
    the same ids it answers. *)
Theorem eq_raises_unless_same_dag_ids
    (dag_str : OrbiterDAG -> string) (self other : OrbiterProject) :
  match __eq__ dag_str self other with
  | inr _ =>
      forall k, In k (dict_keys (dags self)) <-> In k (dict_keys (dags other))
  | inl e =>
      exists k, e = KeyError k /\
        ~ (In k (dict_keys (dags self)) <-> In k (dict_keys (dags other)))
  end.
Proof.
  unfold __eq__.
  pose proof (comprehension_same_text dag_str self other (dict_keys (dags self))) as H1.
  pose proof (comprehension_same_text dag_str self other (dict_keys (dags other))) as H2.
  destruct (comprehension _ (dict_keys (dags self))) as [e|bs1].
  { destruct H1 as (k & -> & Hin & Hor). exists k. split; [reflexivity|]. tauto. }
  destruct (comprehension _ (dict_keys (dags other))) as [e|bs2].
  { destruct H2 as (k & -> & Hin & Hor). exists k. split; [reflexivity|]. tauto. }
  destruct H1 as [_ H1], H2 as [_ H2]. intros k. split; intros Hk.
  - apply H1, Hk.
  - apply H2, Hk.
Qed.

(** Two dicts are equal as Python compares them when each key has the same
    value, or is absent, in both. *)
Lemma dict_get_In {V} k (v : V) d : dict_get k d = Some v -> In (k, v) d.
Proof.
  unfold dict_get. induction d as [|[k' v'] d IH]; simpl; [discriminate|].
  destruct (decide (k = k')) as [->|Hne]; [intros [= ->]; left; reflexivity|].
  intros H. right. apply IH, H.
Qed.

Lemma dict_In_get {V} k (v : V) d : dict_wf d -> In (k, v) d -> dict_get k d = Some v.
Proof.
  unfold dict_wf, dict_get, dict_keys. induction d as [|[k' v'] d IH]; simpl; [tauto|].
  intros Hwf. apply NoDup_cons in Hwf as [Hk Hwf].
  intros [[= -> ->]|Hin].
  - destruct (decide (k = k)); congruence.
  - destruct (decide (k = k')) as [->|Hne]; [|apply IH; assumption].
    exfalso. apply Hk. apply list_elem_of_In. apply in_map_iff.
    exists (k', v). split; [reflexivity|exact Hin].
Qed.

Lemma dict_eqb_spec {V} `{EqDecision V} (d1 d2 : pydict V) :
  dict_wf d1 -> dict_wf d2 ->
  dict_eqb d1 d2 = true <-> forall k, dict_get k d1 = dict_get k d2.
Proof.
  intros Hwf1 Hwf2. unfold dict_eqb. rewrite andb_true_iff, Nat.eqb_eq, forallb_forall.
  split.
  - intros [Hlen Hall].
    assert (Hsub : incl (dict_keys d1) (dict_keys d2)).
    { intros k Hk. unfold dict_keys in Hk. apply in_map_iff in Hk as ([k' v] & <- & Hin).
      specialize (Hall _ Hin). apply bool_decide_eq_true in Hall.
      eapply dict_get_Some_keys. exact Hall. }
    assert (Hsup : incl (dict_keys d2) (dict_keys d1)).
    { apply NoDup_length_incl.
      - apply NoDup_ListNoDup. exact Hwf1.
      - unfold dict_keys. rewrite !length_map. lia.
      - exact Hsub. }
    intros k. destruct (dict_get k d1) as [v|] eqn:E1.
    + apply dict_get_In in E1. specialize (Hall _ E1).
      apply bool_decide_eq_true in Hall. symmetry. exact Hall.
    + symmetry. apply dict_get_None_keys. intros Hk.
      apply dict_get_None_keys in E1. apply E1, Hsup, Hk.
  - intros Hget. split.
    + assert (Hp : dict_keys d1 ≡ₚ dict_keys d2).
      { apply NoDup_Permutation; [exact Hwf1|exact Hwf2|].
        intros k. rewrite !list_elem_of_In. split; intros Hk.
        - destruct (dict_get k d2) eqn:E; [eapply dict_get_Some_keys; exact E|].
          rewrite <- Hget in E. apply dict_get_None_keys in E. contradiction.
        - destruct (dict_get k d1) eqn:E; [eapply dict_get_Some_keys; exact E|].
          rewrite Hget in E. apply dict_get_None_keys in E. contradiction. }
      apply Permutation_length in Hp. unfold dict_keys in Hp.
      rewrite !length_map in Hp. exact Hp.
    + intros [k v] Hin. apply bool_decide_eq_true. simpl.
      rewrite <- Hget. apply dict_In_get; assumption.
Qed.

(** What [==] compares: the text of the DAG under every id, the
    requirements, and the value under every key of the pools, connections,
    variables and env vars. *)
Definition same_project (dag_str : OrbiterDAG -> string) (P Q : OrbiterProject) : Prop :=
  (forall k, option_map dag_str (dict_get k (dags P)) =
             option_map dag_str (dict_get k (dags Q))) /\
  requirements P = requirements Q /\
  (forall k, dict_get k (pools P) = dict_get k (pools Q)) /\
  (forall k, dict_get k (connections P) = dict_get k (connections Q)) /\
  (forall k, dict_get k (variables P) = dict_get k (variables Q)) /\
  (forall k, dict_get k (env_vars P) = dict_get k (env_vars Q)).

Lemma forallb_id_map {A} (f : A -> bool) xs :
  forallb (fun b => b) (map f xs) = true <-> forall x, In x xs -> f x = true.
Proof.
  rewrite forallb_forall. split.
  - intros H x Hx. apply H. apply in_map. exact Hx.
  - intros H b Hb. apply in_map_iff in Hb as (x & <- & Hx). apply H, Hx.
Qed.

Lemma eq_true_spec dag_str self other :
  project_wf self -> project_wf other ->
  __eq__ dag_str self other = inr true <-> same_project dag_str self other.
Proof.
  intros (_ & Hp1 & Hc1 & Hv1 & He1 & _) (_ & Hp2 & Hc2 & Hv2 & He2 & _).
  unfold __eq__, same_project.
  pose proof (comprehension_same_text dag_str self other (dict_keys (dags self))) as H1.
  pose proof (comprehension_same_text dag_str self other (dict_keys (dags other))) as H2.
  rewrite <- (dict_eqb_spec (pools self)), <- (dict_eqb_spec (connections self)),
    <- (dict_eqb_spec (variables self)), <- (dict_eqb_spec (env_vars self)) by assumption.
  destruct (comprehension _ (dict_keys (dags self))) as [e|bs1].
  { destruct H1 as (k & -> & Hin & Hor). split; [discriminate|].
    intros (Hd & _). exfalso. specialize (Hd k).
    destruct Hor as [Hn|Hn]; [contradiction|].
    apply dict_get_None_keys in Hn. rewrite Hn in Hd.
    destruct (dict_get k (dags self)) eqn:E; [discriminate|].
    apply dict_get_None_keys in E. contradiction. }
  destruct (comprehension _ (dict_keys (dags other))) as [e|bs2].
  { destruct H2 as (k & -> & Hin & Hor). split; [discriminate|].
    intros (Hd & _). exfalso. specialize (Hd k).
    destruct Hor as [Hn|Hn]; [|contradiction].
    apply dict_get_None_keys in Hn. rewrite Hn in Hd.
    destruct (dict_get k (dags other)) eqn:E; [discriminate|].
    apply dict_get_None_keys in E. contradiction. }
  destruct H1 as [-> H1], H2 as [-> H2].
  rewrite !forallb_app. simpl. rewrite !andb_true_r.
  split.
  - intros [= H]. do 6 (apply andb_true_iff in H as [? H]).
    split_and!; try assumption; [|eapply bool_decide_eq_true_1; eassumption].
    intros k. destruct (dict_get k (dags self)) as [a|] eqn:Ea.
    + rewrite <- Ea.
      match goal with Hf : forallb _ (map _ (dict_keys (dags self))) = true |- _ =>
        rewrite forallb_id_map in Hf;
        specialize (Hf k (dict_get_Some_keys _ _ _ Ea));
        apply bool_decide_eq_true in Hf; exact Hf end.
    + destruct (dict_get k (dags other)) as [b|] eqn:Eb; [|reflexivity].
      exfalso. apply dict_get_None_keys in Ea. apply Ea.
      apply (H2 k). eapply dict_get_Some_keys. exact Eb.
  - intros (Hd & Hr & Hp & Hc & Hv & He). f_equal.
    rewrite Hp, Hc, Hv, He. rewrite !andb_true_r.
    rewrite (bool_decide_eq_true_2 _ Hr), andb_true_r.
    apply andb_true_iff. split; apply forallb_id_map; intros k _;
      apply bool_decide_eq_true; apply Hd.
Qed.

(** X8: On projects whose dicts hold each key once, [==] answers [True]
    exactly when the two sides have the same DAG ids with the same text
    under each, the same requirements, and the same value under every key
    of the pools, connections, variables and env vars. *)
Theorem eq_answers_true_iff_same
    (dag_str : OrbiterDAG -> string) (self other : OrbiterProject) :
  project_wf self -> project_wf other ->
  __eq__ dag_str self other = inr true <-> same_project dag_str self other.
Proof. apply eq_true_spec. Qed.

Definition foo_then_bar : OrbiterProject :=
  mkProject [("a", mkDAG "a" "a.py" [] [])] ∅
    [("foo", mkPool "foo" "" 1%Z); ("bar", mkPool "bar" "" 2%Z)] [] [] []
    [("x.txt", mkInclude "x.txt" "x")].

Definition bar_then_foo : OrbiterProject :=
  mkProject [("a", mkDAG "a" "a.py" [] [])] ∅
    [("bar", mkPool "bar" "" 2%Z); ("foo", mkPool "foo" "" 1%Z)] [] [] [] [].

Lemma foo_then_bar_wf : project_wf foo_then_bar.
Proof. unfold project_wf, dict_wf. simpl. split_and!; apply NoDup_ListNoDup; repeat constructor; simpl; intuition discriminate. Qed.

Lemma bar_then_foo_wf : project_wf bar_then_foo.
Proof. unfold project_wf, dict_wf. simpl. split_and!; apply NoDup_ListNoDup; repeat constructor; simpl; intuition discriminate. Qed.

Lemma eq_answers_true_iff_same_witness :
  __eq__ (fun d => dag_id d) foo_then_bar bar_then_foo = inr true <->
  same_project (fun d => dag_id d) foo_then_bar bar_then_foo.
Proof.
  apply (eq_answers_true_iff_same (fun d => dag_id d) foo_then_bar bar_then_foo).
  - exact foo_then_bar_wf.
  - exact bar_then_foo_wf.
Defined.

Lemma same_project_equivalence dag_str :
  (forall P, same_project dag_str P P) /\
  (forall P Q, same_project dag_str P Q -> same_project dag_str Q P) /\
  (forall P Q R, same_project dag_str P Q -> same_project dag_str Q R ->
                 same_project dag_str P R).
Proof.
  unfold same_project. split_and!.
  - intros P. split_and!; reflexivity.
  - intros P Q (H1 & H2 & H3 & H4 & H5 & H6). split_and!; intros; symmetry; auto.
  - intros P Q R (H1 & H2 & H3 & H4 & H5 & H6) (G1 & G2 & G3 & G4 & G5 & G6).
    split_and!; intros; etrans; eauto.
Qed.

(** X9: On such projects [==] is reflexive, symmetric and transitive. *)
Theorem eq_is_an_equivalence
    (dag_str : OrbiterDAG -> string) (P Q R : OrbiterProject) :
  project_wf P -> project_wf Q -> project_wf R ->
  __eq__ dag_str P P = inr true /\
  (__eq__ dag_str P Q = inr true -> __eq__ dag_str Q P = inr true) /\
  (__eq__ dag_str P Q = inr true -> __eq__ dag_str Q R = inr true ->
   __eq__ dag_str P R = inr true).
Proof.
  intros HP HQ HR.
  destruct (same_project_equivalence dag_str) as (Hrefl & Hsym & Htrans).
  split_and!.
  - apply eq_true_spec; [assumption..|]. apply Hrefl.
  - intros H. apply eq_true_spec; [assumption..|]. apply Hsym.
    apply eq_true_spec in H; assumption.
  - intros H1 H2. apply eq_true_spec; [assumption..|].
    apply (Htrans P Q R); apply eq_true_spec; assumption.
Qed.

Lemma eq_is_an_equivalence_witness :
  __eq__ (fun d => dag_id d) foo_then_bar foo_then_bar = inr true /\
  (__eq__ (fun d => dag_id d) foo_then_bar bar_then_foo = inr true ->
   __eq__ (fun d => dag_id d) bar_then_foo foo_then_bar = inr true) /\
  (__eq__ (fun d => dag_id d) foo_then_bar bar_then_foo = inr true ->
   __eq__ (fun d => dag_id d) bar_then_foo foo_then_bar = inr true ->
   __eq__ (fun d => dag_id d) foo_then_bar foo_then_bar = inr true).
Proof.
  apply (eq_is_an_equivalence (fun d => dag_id d) foo_then_bar bar_then_foo foo_then_bar).
  - exact foo_then_bar_wf.
  - exact bar_then_foo_wf.
  - exact foo_then_bar_wf.
Defined.

(** ** What [repr] shows *)

(** X10: [repr] shows the keys in sorted order and the requirements, and nothing
    else: two projects with the same DAG ids, requirements and keys have
    the same [repr], whatever the order they were added in, the values
    under the keys, and the includes. *)
Theorem repr_shows_sorted_keys_only
    (str_repr : string -> string)
    (requirements_text : gset OrbiterRequirement -> string)
    (P Q : OrbiterProject) :
  dict_keys (dags P) ≡ₚ dict_keys (dags Q) ->
  requirements P = requirements Q ->
  dict_keys (pools P) ≡ₚ dict_keys (pools Q) ->
  dict_keys (connections P) ≡ₚ dict_keys (connections Q) ->
  dict_keys (variables P) ≡ₚ dict_keys (variables Q) ->
  dict_keys (env_vars P) ≡ₚ dict_keys (env_vars Q) ->
  __repr__ str_repr requirements_text P = __repr__ str_repr requirements_text Q.
Proof.
  intros Hd Hr Hp Hc Hv He. unfold __repr__.
  rewrite (sorted_Permutation _ _ Hd), Hr, (sorted_Permutation _ _ Hp),
    (sorted_Permutation _ _ Hc), (sorted_Permutation _ _ Hv),
    (sorted_Permutation _ _ He).
  reflexivity.
Qed.

Lemma repr_shows_sorted_keys_only_witness :
  __repr__ (fun s => "'" ++ s ++ "'") (fun _ => "[]") foo_then_bar =
  __repr__ (fun s => "'" ++ s ++ "'") (fun _ => "[]") bar_then_foo.
Proof.
  apply (repr_shows_sorted_keys_only _ _ foo_then_bar bar_then_foo);
    try reflexivity.
  simpl. apply perm_swap.
Defined.

(** The doctest [OrbiterProject() + OrbiterProject()], whose result is
    shown by its [repr]. *)
Example doctest_repr_empty str_repr :
  __repr__ str_repr (fun _ => "[]") empty_project =
  "OrbiterProject(dags=[], requirements=[], pools=[], connections=[], variables=[], env_vars=[])".
Proof. reflexivity. Qed.

(** ** The analysis table *)

Lemma dict_update_get {V} k (d other : pydict V) :
  dict_wf other ->
  dict_get k (dict_update d other) =
  match dict_get k other with Some v => Some v | None => dict_get k d end.
Proof.
  unfold dict_update. revert d.
  induction other as [|[k0 v0] other IH]; intros d Hwf; [reflexivity|].
  unfold dict_wf, dict_keys in Hwf. simpl in Hwf. apply NoDup_cons in Hwf as [Hk Hwf].
  simpl fold_left. rewrite (IH _ Hwf).
  change (dict_get k ((k0, v0) :: other)) with (assoc k ((k0, v0) :: other)). simpl.
  destruct (decide (k = k0)) as [->|Hne].
  - assert (E : dict_get k0 other = None).
    { apply dict_get_None_keys. intros Hin. apply Hk, list_elem_of_In, Hin. }
    rewrite E. apply dict_get_set_eq.
  - fold (dict_get k other). destruct (dict_get k other); [reflexivity|].
    apply dict_get_set_ne. congruence.
Qed.

Lemma dict_update_wf {V} (d other : pydict V) :
  dict_wf d -> dict_wf (dict_update d other).
Proof.
  unfold dict_update. revert d. induction other as [|[k v] other IH]; intros d Hwf;
    [exact Hwf|].
  simpl. apply IH, dict_wf_set, Hwf.
Qed.

Lemma dict_update_keys {V} k (d other : pydict V) :
  In k (dict_keys (dict_update d other)) <->
  In k (dict_keys d) \/ In k (dict_keys other).
Proof.
  unfold dict_update. revert d. induction other as [|[k0 v0] other IH]; intros d; simpl.
  - tauto.
  - rewrite IH, dict_keys_set. unfold dict_mem.
    destruct (dict_get k0 d) eqn:E.
    + apply dict_get_Some_keys in E. split; [|intuition (subst; auto)]. tauto.
    + rewrite in_app_iff. simpl. tauto.
Qed.

Lemma dict_wf_nil {V} : dict_wf ([] : pydict V).
Proof. apply NoDup_nil_2. Qed.

(** How often a task type occurs. *)
Definition occurrences (t : string) (types : list string) : nat :=
  List.length (filter (fun x => x = t) types).

Lemma occurrences_0 t types : occurrences t types = 0 <-> ~ In t types.
Proof.
  unfold occurrences. induction types as [|x types IH]; simpl; [tauto|].
  rewrite filter_cons. destruct (decide (x = t)) as [->|Hne]; simpl.
  - split; [discriminate|]. intros H. exfalso. apply H. left. reflexivity.
  - rewrite IH. intuition congruence.
Qed.

Section tally.
Let step (acc : pydict nat) (task_type : string) : pydict nat :=
  dict_set task_type (default 0 (dict_get task_type acc) + 1) acc.

Lemma tally_get t types acc :
  dict_get t (fold_left step types acc) =
  match dict_get t acc with
  | Some n => Some (n + occurrences t types)
  | None => if Nat.eqb (occurrences t types) 0 then None
            else Some (occurrences t types)
  end.
Proof.
  revert acc. induction types as [|x types IH]; intros acc.
  - simpl. unfold occurrences. simpl. destruct (dict_get t acc); f_equal; lia.
  - simpl fold_left. rewrite IH. unfold step, occurrences. rewrite filter_cons.
    destruct (decide (x = t)) as [->|Hne].
    + rewrite dict_get_set_eq. simpl List.length.
      destruct (dict_get t acc); simpl; f_equal; lia.
    + rewrite dict_get_set_ne by exact Hne. reflexivity.
Qed.

Lemma tally_wf types acc : dict_wf acc -> dict_wf (fold_left step types acc).
Proof.
  revert acc. induction types as [|x types IH]; intros acc Hwf; [exact Hwf|].
  simpl. apply IH, dict_wf_set, Hwf.
Qed.
End tally.

Lemma tasks_of_type_get t types :
  dict_get t (tasks_of_type types) =
  if Nat.eqb (occurrences t types) 0 then None else Some (occurrences t types).
Proof. unfold tasks_of_type. rewrite tally_get. reflexivity. Qed.

Lemma tasks_of_type_wf types : dict_wf (tasks_of_type types).
Proof. apply tally_wf, dict_wf_nil. Qed.

Lemma analysis_output_get fa a t :
  t <> "DAGs" ->
  dict_get t (analysis_output fa a) =
  if Nat.eqb (occurrences t (analysis_task_types a)) 0
  then dict_get (analysis_file a) fa ≫= dict_get t
  else Some (occurrences t (analysis_task_types a)).
Proof.
  intros Ht. unfold analysis_output.
  rewrite dict_update_get by apply tasks_of_type_wf.
  rewrite tasks_of_type_get.
  destruct (Nat.eqb _ 0); [|reflexivity].
  rewrite dict_get_set_ne by congruence.
  destruct (dict_get (analysis_file a) fa); reflexivity.
Qed.

Section file_analysis_facts.
Variable type_name : thing -> string.
Variable report_file : OrbiterDAG -> string.

Local Abbreviation step :=
  (fun (fa : pydict (pydict nat)) (a : analysis) =>
     dict_set (analysis_file a) (analysis_output fa a) fa).

Lemma file_analysis_count f t (l : list analysis) :
  t <> "DAGs" ->
  dict_get f (fold_left step l []) ≫= dict_get t =
  option_map (fun a => occurrences t (analysis_task_types a))
    (last (filter (fun a => analysis_file a = f /\ t ∈ analysis_task_types a) l)).
Proof.
  intros Ht. induction l as [|a l IH] using rev_ind; [reflexivity|].
  rewrite fold_left_app. simpl fold_left. rewrite filter_app.
  destruct (decide (analysis_file a = f)) as [<-|Hf].
  - rewrite dict_get_set_eq. simpl. rewrite analysis_output_get by exact Ht.
    rewrite filter_cons. destruct (Nat.eqb_spec (occurrences t (analysis_task_types a)) 0) as [E|E].
    + apply occurrences_0 in E. rewrite decide_False.
      * rewrite filter_nil, app_nil_r. exact IH.
      * intros [_ Hin]. apply E, list_elem_of_In, Hin.
    + rewrite decide_True.
      * rewrite filter_nil, last_snoc. reflexivity.
      * split; [reflexivity|].
        destruct (decide (t ∈ analysis_task_types a)) as [Hin|Hin]; [exact Hin|].
        exfalso. apply E, occurrences_0. rewrite <- list_elem_of_In. exact Hin.
  - rewrite dict_get_set_ne by exact Hf. rewrite filter_cons, decide_False by tauto.
    rewrite filter_nil, app_nil_r. exact IH.
Qed.

End file_analysis_facts.

(** X11: When several DAGs are reported under one file, the count of a task
    type in the row of the file is the number of such tasks in the last of
    these DAGs that has any, not their number in the file: [|=] overwrites
    the counts of the earlier DAGs. *)
Theorem analyze_counts_tasks_of_last_dag
    (type_name : thing -> string) (report_file : OrbiterDAG -> string)
    (self : OrbiterProject) (f t : string) :
  t <> "DAGs" ->
  dict_get f (file_analysis type_name report_file self) ≫= dict_get t =
  option_map (fun a => occurrences t (analysis_task_types a))
    (last (filter (fun a => analysis_file a = f /\ t ∈ analysis_task_types a)
                  (dag_analysis type_name report_file self))).
Proof. intros Ht. unfold file_analysis. apply file_analysis_count. exact Ht. Qed.

Definition empty_op : thing := PyObj OrbiterOperator [("task_id", PyStr "t")].

(** Two DAGs of one task each, both reported under [f.py]. *)
Definition two_dags_one_file : OrbiterProject :=
  set_dags (fun _ => [("foo", mkDAG "foo" "f.py" [("bar", empty_op)] []);
                      ("baz", mkDAG "baz" "f.py" [("bop", empty_op)] [])])
           empty_project.

Lemma analyze_counts_tasks_of_last_dag_witness :
  dict_get "f.py" (file_analysis (fun _ => "OrbiterEmptyOperator") file_path
                     two_dags_one_file) ≫= dict_get "OrbiterEmptyOperator" =
  option_map (fun a => occurrences "OrbiterEmptyOperator" (analysis_task_types a))
    (last (filter (fun a => analysis_file a = "f.py" /\
                            "OrbiterEmptyOperator" ∈ analysis_task_types a)
                  (dag_analysis (fun _ => "OrbiterEmptyOperator") file_path
                     two_dags_one_file))).
Proof.
  apply (analyze_counts_tasks_of_last_dag (fun _ => "OrbiterEmptyOperator") file_path
           two_dags_one_file "f.py" "OrbiterEmptyOperator").
  discriminate.
Defined.

(** The file has two tasks, the table says one. *)
Example analyze_undercounts :
  analyze (fun _ => "OrbiterEmptyOperator") file_path two_dags_one_file "md" =
  inr [[("", Label "f.py"); ("DAGs", Count 2); ("OrbiterEmptyOperator", Count 1)];
       [("", Label "Totals"); ("DAGs", Count 2); ("OrbiterEmptyOperator", Count 1)]].
Proof. reflexivity. Qed.

(** The doctest of [analyze]. *)
Example doctest_analyze :
  analyze (fun _ => "OrbiterEmptyOperator") file_path
    (set_dags (fun _ => [("foo", mkDAG "foo" "foo.py" [("bar", empty_op)] []);
                         ("baz", mkDAG "baz" "baz.py" [("bop", empty_op)] [])])
              empty_project) "md" =
  inr [[("", Label "foo.py"); ("DAGs", Count 1); ("OrbiterEmptyOperator", Count 1)];
       [("", Label "baz.py"); ("DAGs", Count 1); ("OrbiterEmptyOperator", Count 1)];
       [("", Label "Totals"); ("DAGs", Count 2); ("OrbiterEmptyOperator", Count 2)]].
Proof. reflexivity. Qed.

(** *** The totals *)

(** The count in a row under a key, [0] where the row has none. *)
Definition count_at (k : string) (row : pydict cell) : nat :=
  match dict_get k row with Some (Count n) => n | _ => 0 end.

(** The sum of a column over the rows. *)
Definition column (k : string) (rows : list (pydict cell)) : nat :=
  list_sum (map (count_at k) rows).

(** Every cell of the row is a count, but for the one under [""]. *)
Definition counts_only (row : pydict cell) : Prop :=
  forall k c, In (k, c) row -> k <> "" -> exists n, c = Count n.

Definition totals_ok (T : pydict cell) : Prop :=
  dict_get "" T = Some (Label "Totals") /\
  forall k, k <> "" -> dict_get k T = None \/ exists n, dict_get k T = Some (Count n).

Lemma count_at_Some k T n : dict_get k T = Some (Count n) -> count_at k T = n.
Proof. unfold count_at. intros ->. reflexivity. Qed.

Lemma count_at_None k T : dict_get k T = None -> count_at k T = 0.
Proof. unfold count_at. intros ->. reflexivity. Qed.

Lemma add_to_totals_ok T k c :
  totals_ok T -> (k <> "" -> exists n, c = Count n) ->
  exists T', add_to_totals T (k, c) = inr T' /\ totals_ok T' /\
    forall k', k' <> "" ->
      dict_get k' T' =
      if decide (k' = k) then Some (Count (count_at k' T + match c with Count n => n | _ => 0 end))
      else dict_get k' T.
Proof.
  intros [Hlabel Hcounts] Hc. unfold add_to_totals. simpl.
  destruct (decide (k = "")) as [->|Hk].
  - exists T. split; [reflexivity|]. split; [split; assumption|].
    intros k' Hk'. rewrite decide_False by exact Hk'. reflexivity.
  - destruct (Hc Hk) as [n ->].
    assert (E : default (Count 0) (dict_get k T) = Count (count_at k T)).
    { destruct (Hcounts k Hk) as [E|[m E]]; unfold count_at; rewrite E; reflexivity. }
    rewrite E. eexists. split; [reflexivity|]. split.
    + split.
      * rewrite dict_get_set_ne by exact Hk. exact Hlabel.
      * intros k' Hk'. destruct (decide (k = k')) as [<-|Hne].
        -- right. rewrite dict_get_set_eq. eauto.
        -- rewrite dict_get_set_ne by exact Hne. apply Hcounts, Hk'.
    + intros k' Hk'. destruct (decide (k' = k)) as [->|Hne].
      * apply dict_get_set_eq.
      * apply dict_get_set_ne. congruence.
Qed.

Lemma add_row_ok (row : pydict cell) T :
  dict_wf row -> counts_only row -> totals_ok T ->
  exists T', fold_exn add_to_totals row T = inr T' /\ totals_ok T' /\
    forall k, k <> "" ->
      dict_get k T' =
      if dict_mem k row then Some (Count (count_at k T + count_at k row))
      else dict_get k T.
Proof.
  revert T. induction row as [|[k0 c0] row IH]; intros T Hwf Hrow HT.
  - exists T. split; [reflexivity|]. split; [exact HT|]. intros k _. reflexivity.
  - unfold dict_wf, dict_keys in Hwf. simpl in Hwf. apply NoDup_cons in Hwf as [Hk0 Hwf].
    assert (Hc0 : k0 <> "" -> exists n, c0 = Count n).
    { intros Hne. apply (Hrow k0 c0); [left; reflexivity|exact Hne]. }
    destruct (add_to_totals_ok T k0 c0 HT Hc0) as (T1 & E1 & HT1 & Hget1).
    assert (Hrow' : counts_only row).
    { intros k c Hin. apply (Hrow k c). right. exact Hin. }
    destruct (IH T1 Hwf Hrow' HT1) as (T2 & E2 & HT2 & Hget2).
    exists T2. simpl fold_exn. rewrite E1. split; [exact E2|]. split; [exact HT2|].
    intros k Hk. rewrite (Hget2 k Hk), (Hget1 k Hk).
    unfold dict_mem, count_at, dict_get. simpl assoc.
    fold (dict_get k row). fold (dict_get k T). fold (dict_get k T1).
    destruct (decide (k = k0)) as [->|Hne].
    + assert (E : dict_get k0 row = None).
      { apply dict_get_None_keys. intros Hin. apply Hk0, list_elem_of_In, Hin. }
      rewrite E. destruct (Hc0 Hk) as [n ->]. reflexivity.
    + destruct (dict_get k row) as [c|] eqn:E; [|reflexivity].
      rewrite (Hget1 k Hk), decide_False by exact Hne. reflexivity.
Qed.

Lemma column_absent k rows : existsb (dict_mem k) rows = false -> column k rows = 0.
Proof.
  unfold column. induction rows as [|row rows IH]; simpl; [reflexivity|].
  intros H. apply orb_false_iff in H as [Hrow Hrows]. rewrite (IH Hrows).
  unfold dict_mem in Hrow. unfold count_at.
  destruct (dict_get k row); [discriminate|reflexivity].
Qed.

Lemma totals_fold_ok (rows : list (pydict cell)) T :
  Forall (fun row => dict_wf row /\ counts_only row) rows -> totals_ok T ->
  exists T',
    fold_exn (fun totals file => fold_exn add_to_totals file totals) rows T = inr T' /\
    totals_ok T' /\
    forall k, k <> "" ->
      dict_get k T' =
      if existsb (dict_mem k) rows then Some (Count (count_at k T + column k rows))
      else dict_get k T.
Proof.
  revert T. induction rows as [|row rows IH]; intros T Hrows HT.
  - exists T. split; [reflexivity|]. split; [exact HT|]. intros k _. reflexivity.
  - apply Forall_cons in Hrows as [[Hwf Hrow] Hrows].
    destruct (add_row_ok row T Hwf Hrow HT) as (T1 & E1 & HT1 & Hget1).
    destruct (IH T1 Hrows HT1) as (T2 & E2 & HT2 & Hget2).
    exists T2. simpl fold_exn. rewrite E1. split; [exact E2|]. split; [exact HT2|].
    intros k Hk. rewrite (Hget2 k Hk). simpl existsb. unfold column. simpl list_sum.
    fold (column k rows).
    assert (Hrow0 : dict_mem k row = false -> count_at k row = 0).
    { unfold dict_mem, count_at. destruct (dict_get k row); [discriminate|reflexivity]. }
    specialize (Hget1 k Hk). destruct (dict_mem k row) eqn:Em; simpl.
    + rewrite (count_at_Some _ _ _ Hget1).
      destruct (existsb (dict_mem k) rows) eqn:Ex; [f_equal; f_equal; lia|].
      rewrite Hget1, (column_absent _ _ Ex). f_equal. f_equal. lia.
    + rewrite (Hrow0 eq_refl). unfold count_at at 1. rewrite Hget1.
      fold (count_at k T). destruct (existsb (dict_mem k) rows); reflexivity.
Qed.

Lemma dict_update_In {V} k (v : V) d other :
  In (k, v) (dict_update d other) -> In (k, v) d \/ In (k, v) other.
Proof.
  unfold dict_update. revert d. induction other as [|[k0 v0] other IH]; intros d; simpl.
  - tauto.
  - intros H. apply IH in H as [H|H]; [|tauto].
    apply dict_set_In in H as [[= -> ->]|H]; tauto.
Qed.

(** The counts of a file as cells. *)
Definition as_cells (out : pydict nat) : pydict cell :=
  map (fun tn => (fst tn, Count (snd tn))) out.

Lemma as_cells_keys out : dict_keys (as_cells out) = dict_keys out.
Proof. unfold as_cells, dict_keys. rewrite map_map. reflexivity. Qed.

Lemma as_cells_get k out : dict_get k (as_cells out) = option_map Count (dict_get k out).
Proof.
  unfold dict_get. induction out as [|[k0 n0] out IH]; simpl; [reflexivity|].
  destruct (decide (k = k0)); [reflexivity|exact IH].
Qed.

Lemma file_row_ok f out :
  dict_wf out ->
  dict_wf (dict_update [("", Label f)] (as_cells out)) /\
  counts_only (dict_update [("", Label f)] (as_cells out)) /\
  forall k, k <> "" ->
    dict_get k (dict_update [("", Label f)] (as_cells out)) =
    option_map Count (dict_get k out).
Proof.
  intros Hwf. split_and!.
  - apply dict_update_wf. unfold dict_wf. simpl. apply NoDup_ListNoDup.
    constructor; [simpl; tauto|constructor].
  - intros k c Hin Hk. apply dict_update_In in Hin as [[[= <- _]|[]]|Hin]; [congruence|].
    unfold as_cells in Hin. apply in_map_iff in Hin as ([k' n] & [= <- <-] & _). eauto.
  - intros k Hk. rewrite dict_update_get.
    + rewrite as_cells_get. destruct (dict_get k out); [reflexivity|].
      unfold dict_get. simpl. rewrite decide_False by exact Hk. reflexivity.
    + unfold dict_wf. rewrite as_cells_keys. exact Hwf.
Qed.

Section table_facts.
Variable type_name : thing -> string.
Variable report_file : OrbiterDAG -> string.

Local Abbreviation step :=
  (fun (fa : pydict (pydict nat)) (a : analysis) =>
     dict_set (analysis_file a) (analysis_output fa a) fa).

Lemma analysis_output_wf fa a :
  (forall f out, In (f, out) fa -> dict_wf out) -> dict_wf (analysis_output fa a).
Proof.
  intros Hfa. unfold analysis_output. apply dict_update_wf, dict_wf_set.
  destruct (dict_get (analysis_file a) fa) as [out|] eqn:E; simpl.
  - apply (Hfa (analysis_file a)). apply dict_get_In. exact E.
  - apply dict_wf_nil.
Qed.

Lemma analysis_output_has_dags fa a : In "DAGs" (dict_keys (analysis_output fa a)).
Proof.
  unfold analysis_output. apply dict_update_keys. left.
  eapply dict_get_Some_keys. apply dict_get_set_eq.
Qed.

(** What holds of the dict of the files after any number of turns. *)
Lemma file_analysis_shape (l : list analysis) :
  let fa := fold_left step l [] in
  dict_wf fa /\
  (forall f, In f (dict_keys fa) <-> exists a, In a l /\ analysis_file a = f) /\
  (forall f out, In (f, out) fa -> dict_wf out /\ In "DAGs" (dict_keys out)).
Proof.
  induction l as [|a l IH] using rev_ind; simpl.
  - split_and!; [apply dict_wf_nil| |intros ? ? []].
    intros f. simpl. split; [tauto|]. intros (a & [] & _).
  - rewrite fold_left_app. simpl. destruct IH as (Hwf & Hkeys & Houts).
    set (fa := fold_left step l []) in *. split_and!.
    + apply dict_wf_set, Hwf.
    + intros f. rewrite dict_keys_set. unfold dict_mem.
      destruct (dict_get (analysis_file a) fa) eqn:E.
      * rewrite Hkeys. split.
        -- intros (a' & Hin & Hf). exists a'. split; [apply in_app_iff; tauto|exact Hf].
        -- intros (a' & Hin & Hf). apply in_app_iff in Hin as [Hin|[<-|[]]]; [eauto|].
           subst f. apply Hkeys. eapply dict_get_Some_keys. exact E.
      * rewrite in_app_iff, Hkeys. simpl. split.
        -- intros [(a' & Hin & Hf)|[<-|[]]].
           ++ exists a'. split; [apply in_app_iff; tauto|exact Hf].
           ++ exists a. split; [apply in_app_iff; simpl; tauto|reflexivity].
        -- intros (a' & Hin & Hf). apply in_app_iff in Hin as [Hin|[<-|[]]]; eauto.
    + intros f out Hin. apply dict_set_In in Hin as [[= -> ->]|Hin]; [|apply (Houts f), Hin].
      split; [|apply analysis_output_has_dags].
      apply analysis_output_wf. intros f' out' Hin'. apply (Houts f' out' Hin').
Qed.

(** The DAGs counted in the dict of the files. *)
Definition dags_counted (fa : pydict (pydict nat)) : nat :=
  list_sum (map (fun kv => default 0 (dict_get "DAGs" (snd kv))) fa).

Lemma dags_counted_set f out (fa : pydict (pydict nat)) :
  dags_counted (dict_set f out fa)
  + default 0 (dict_get "DAGs" (default [] (dict_get f fa)))
  = dags_counted fa + default 0 (dict_get "DAGs" out).
Proof.
  unfold dags_counted, dict_get. induction fa as [|[f0 out0] fa IH]; simpl.
  - lia.
  - destruct (decide (f = f0)) as [->|Hne]; simpl; lia.
Qed.

Lemma file_analysis_counts_dags (l : list analysis) :
  (forall a, In a l -> ~ In "DAGs" (analysis_task_types a)) ->
  dags_counted (fold_left step l []) = List.length l.
Proof.
  induction l as [|a l IH] using rev_ind; intros Hl; [reflexivity|].
  rewrite fold_left_app, length_app. simpl.
  pose proof (dags_counted_set (analysis_file a)
                (analysis_output (fold_left step l []) a) (fold_left step l [])) as Hset.
  rewrite IH in Hset by (intros a' Hin; apply Hl, in_app_iff; tauto).
  assert (E : dict_get "DAGs" (analysis_output (fold_left step l []) a) =
              Some (default 0 (dict_get "DAGs"
                      (default [] (dict_get (analysis_file a) (fold_left step l [])))) + 1)).
  { unfold analysis_output. rewrite dict_update_get by apply tasks_of_type_wf.
    rewrite tasks_of_type_get.
    assert (E0 : occurrences "DAGs" (analysis_task_types a) = 0).
    { apply occurrences_0. apply Hl, in_app_iff. simpl. tauto. }
    rewrite E0. simpl. apply dict_get_set_eq. }
  rewrite E in Hset. simpl in Hset. lia.
Qed.

Lemma file_rows_ok (fa : pydict (pydict nat)) :
  (forall f out, In (f, out) fa -> dict_wf out) ->
  Forall (fun row => dict_wf row /\ counts_only row) (file_rows fa).
Proof.
  intros Hfa. apply List.Forall_forall. intros row Hin.
  unfold file_rows in Hin. apply in_map_iff in Hin as ([f out] & <- & Hin).
  destruct (file_row_ok f out (Hfa f out Hin)) as (H1 & H2 & _). split; assumption.
Qed.

Lemma column_dags (fa : pydict (pydict nat)) :
  (forall f out, In (f, out) fa -> dict_wf out) ->
  column "DAGs" (file_rows fa) = dags_counted fa.
Proof.
  unfold column, dags_counted, file_rows. induction fa as [|[f out] fa IH]; intros Hfa;
    [reflexivity|].
  simpl. rewrite IH by (intros f' out' Hin; apply (Hfa f' out'); right; exact Hin).
  f_equal. unfold count_at. fold (as_cells out).
  destruct (file_row_ok f out (Hfa f out (or_introl eq_refl))) as (_ & _ & Hget).
  rewrite Hget by discriminate. destruct (dict_get "DAGs" out); reflexivity.
Qed.

Lemma dags_column_present (fa : pydict (pydict nat)) :
  (forall f out, In (f, out) fa -> dict_wf out /\ In "DAGs" (dict_keys out)) ->
  existsb (dict_mem "DAGs") (file_rows fa) = negb (Nat.eqb (List.length fa) 0).
Proof.
  destruct fa as [|[f out] fa]; intros Hfa; [reflexivity|].
  simpl. destruct (Hfa f out (or_introl eq_refl)) as [Hwf Hin].
  destruct (file_row_ok f out Hwf) as (_ & _ & Hget).
  unfold dict_mem at 1. fold (as_cells out). rewrite Hget by discriminate.
  destruct (dict_get "DAGs" out) eqn:E; [reflexivity|].
  apply dict_get_None_keys in E. contradiction.
Qed.

Lemma analyze_returns self output_fmt :
  output_fmt ∈ ["json"; "csv"; "md"] ->
  exists t,
    analyze type_name report_file self output_fmt =
      inr (file_rows (file_analysis type_name report_file self) ++ [t])%list /\
    dict_get "" t = Some (Label "Totals") /\
    forall k, k <> "" ->
      dict_get k t =
      if existsb (dict_mem k) (file_rows (file_analysis type_name report_file self))
      then Some (Count (column k (file_rows (file_analysis type_name report_file self))))
      else None.
Proof.
  intros Hfmt. unfold analyze. rewrite bool_decide_eq_true_2 by exact Hfmt.
  unfold totals, file_analysis.
  pose proof (file_analysis_shape (dag_analysis type_name report_file self)) as Hshape.
  cbv zeta in Hshape. destruct Hshape as (Hwf & _ & Houts).
  set (fa := fold_left step (dag_analysis type_name report_file self) []) in *.
  destruct (totals_fold_ok (file_rows fa) [("", Label "Totals")])
    as (t & E & [Hlabel _] & Hget).
  - apply file_rows_ok. intros f out Hin. apply (Houts f out Hin).
  - split; [reflexivity|]. intros k Hk. left. unfold dict_get. simpl.
    rewrite decide_False by exact Hk. reflexivity.
  - exists t. rewrite E. split; [reflexivity|]. split; [exact Hlabel|].
    intros k Hk. rewrite (Hget k Hk).
    destruct (existsb _ _); [|unfold dict_get; simpl; rewrite decide_False by exact Hk; reflexivity].
    unfold count_at, dict_get. simpl. rewrite decide_False by exact Hk. reflexivity.
Qed.

End table_facts.

(** X12: [analyze] with one of its three formats does not raise; the row it
    ends with is labelled [Totals] and holds, under every key that some
    file row has, the sum of that column, and no other key. *)
Theorem analyze_totals_are_column_sums
    (type_name : thing -> string) (report_file : OrbiterDAG -> string)
    (self : OrbiterProject) (output_fmt : string) :
  output_fmt ∈ ["json"; "csv"; "md"] ->
  exists t,
    analyze type_name report_file self output_fmt =
      inr (file_rows (file_analysis type_name report_file self) ++ [t])%list /\
    dict_get "" t = Some (Label "Totals") /\
    forall k, k <> "" ->
      dict_get k t =
      if existsb (dict_mem k) (file_rows (file_analysis type_name report_file self))
      then Some (Count (column k (file_rows (file_analysis type_name report_file self))))
      else None.
Proof. apply analyze_returns. Qed.

Lemma md_is_a_format : "md" ∈ ["json"; "csv"; "md"].
Proof. repeat constructor. Qed.

Lemma analyze_totals_are_column_sums_witness :
  exists t,
    analyze (fun _ => "OrbiterEmptyOperator") file_path two_dags_one_file "md" =
      inr (file_rows (file_analysis (fun _ => "OrbiterEmptyOperator") file_path
                        two_dags_one_file) ++ [t])%list /\
    dict_get "" t = Some (Label "Totals") /\
    forall k, k <> "" ->
      dict_get k t =
      if existsb (dict_mem k)
           (file_rows (file_analysis (fun _ => "OrbiterEmptyOperator") file_path
                         two_dags_one_file))
      then Some (Count (column k
             (file_rows (file_analysis (fun _ => "OrbiterEmptyOperator") file_path
                           two_dags_one_file))))
      else None.
Proof.
  apply (analyze_totals_are_column_sums (fun _ => "OrbiterEmptyOperator") file_path
           two_dags_one_file "md").
  exact md_is_a_format.
Defined.

(** X13: When no task is of a class called [DAGs], the totals count the DAGs of
    the project; a project without DAGs has no such column. *)
Theorem analyze_totals_count_the_dags
    (type_name : thing -> string) (report_file : OrbiterDAG -> string)
    (self : OrbiterProject) (output_fmt : string) :
  (forall dag task, In dag (dict_values (dags self)) ->
                    In task (dict_values (tasks dag)) -> type_name task <> "DAGs") ->
  output_fmt ∈ ["json"; "csv"; "md"] ->
  exists rows t,
    analyze type_name report_file self output_fmt = inr (rows ++ [t])%list /\
    dict_get "DAGs" t =
    match dags self with
    | [] => None
    | _ => Some (Count (List.length (dags self)))
    end.
Proof.
  intros Htypes Hfmt.
  destruct (analyze_returns type_name report_file self output_fmt Hfmt)
    as (t & E & _ & Hget).
  eexists _, t. split; [exact E|]. rewrite (Hget "DAGs") by discriminate.
  unfold file_analysis.
  pose proof (file_analysis_shape (dag_analysis type_name report_file self)) as Hshape.
  cbv zeta in Hshape. destruct Hshape as (_ & Hkeys & Houts).
  rewrite dags_column_present by exact Houts.
  rewrite column_dags by (intros f out Hin; apply (Houts f out Hin)).
  rewrite file_analysis_counts_dags.
  2:{ intros a Ha Hin. unfold dag_analysis in Ha.
      apply in_map_iff in Ha as (dag & <- & Hdag). simpl in Hin.
      apply in_map_iff in Hin as (task & Hname & Htask).
      exact (Htypes dag task Hdag Htask Hname). }
  assert (Hlen : List.length (dag_analysis type_name report_file self)
                 = List.length (dags self)).
  { unfold dag_analysis, dict_values. rewrite !length_map. reflexivity. }
  rewrite Hlen.
  destruct (dags self) as [|d ds] eqn:Ed.
  - unfold dag_analysis. rewrite Ed. reflexivity.
  - assert (Hin : In (report_file (snd d))
                    (dict_keys (fold_left
                       (fun fa a => dict_set (analysis_file a) (analysis_output fa a) fa)
                       (dag_analysis type_name report_file self) []))).
    { apply Hkeys.
      exists (mkAnalysis (report_file (snd d)) (dag_id (snd d))
                (map type_name (dict_values (tasks (snd d))))).
      split; [|reflexivity]. unfold dag_analysis. rewrite Ed. left. reflexivity. }
    destruct (fold_left
                (fun (fa : pydict (pydict nat)) a =>
                   dict_set (analysis_file a) (analysis_output fa a) fa)
                (dag_analysis type_name report_file self) []);
      [destruct Hin|reflexivity].
Qed.

Lemma analyze_totals_count_the_dags_witness :
  exists rows t,
    analyze (fun _ => "OrbiterEmptyOperator") file_path two_dags_one_file "md"
      = inr (rows ++ [t])%list /\
    dict_get "DAGs" t = Some (Count 2).
Proof.
  apply (analyze_totals_count_the_dags (fun _ => "OrbiterEmptyOperator") file_path
           two_dags_one_file "md").
  - intros; discriminate.
  - exact md_is_a_format.
Defined.

Section row_facts.
Variable type_name : thing -> string.
Variable report_file : OrbiterDAG -> string.

Local Abbreviation step :=
  (fun (fa : pydict (pydict nat)) (a : analysis) =>
     dict_set (analysis_file a) (analysis_output fa a) fa).

Lemma tasks_of_type_keys k types :
  In k (dict_keys (tasks_of_type types)) -> In k types.
Proof.
  intros Hin. destruct (decide (k ∈ types)) as [H|H]; [apply list_elem_of_In, H|].
  exfalso. rewrite list_elem_of_In in H. apply occurrences_0 in H.
  assert (E : dict_get k (tasks_of_type types) = None).
  { rewrite tasks_of_type_get, H. reflexivity. }
  apply dict_get_None_keys in E. contradiction.
Qed.

Lemma analysis_output_keys (fa : pydict (pydict nat)) a k :
  In k (dict_keys (analysis_output fa a)) ->
  k = "DAGs" \/ In k (analysis_task_types a) \/
  exists out0, In (analysis_file a, out0) fa /\ In k (dict_keys out0).
Proof.
  unfold analysis_output. intros Hk. apply dict_update_keys in Hk as [Hk|Hk].
  - rewrite dict_keys_set in Hk.
    assert (H : In k (dict_keys (default [] (dict_get (analysis_file a) fa))) \/ k = "DAGs").
    { destruct (dict_mem _ _); [tauto|].
      apply in_app_iff in Hk as [Hk|[<-|[]]]; tauto. }
    destruct H as [H|H]; [|tauto].
    destruct (dict_get (analysis_file a) fa) as [out0|] eqn:E0; [|destruct H].
    right. right. exists out0. split; [apply dict_get_In, E0|exact H].
  - right. left. apply tasks_of_type_keys, Hk.
Qed.

Lemma file_analysis_columns (l : list analysis) f out k :
  In (f, out) (fold_left step l []) -> In k (dict_keys out) ->
  k = "DAGs" \/ exists a, In a l /\ In k (analysis_task_types a).
Proof.
  revert f out k. induction l as [|a l IH] using rev_ind; intros f out k; [intros []|].
  rewrite fold_left_app. simpl. intros Hin Hk.
  assert (Hold : forall f out, In (f, out) (fold_left step l []) -> In k (dict_keys out) ->
                 k = "DAGs" \/ exists a', In a' (l ++ [a])%list /\ In k (analysis_task_types a')).
  { intros f' out' Hin' Hk'. destruct (IH f' out' k Hin' Hk') as [?|(a' & Ha' & Hka')];
      [tauto|]. right. exists a'. split; [apply in_app_iff; tauto|exact Hka']. }
  apply dict_set_In in Hin as [[= -> ->]|Hin]; [|apply (Hold f out Hin Hk)].
  apply analysis_output_keys in Hk as [Hk|[Hk|(out0 & Hin0 & Hk)]].
  - tauto.
  - right. exists a. split; [apply in_app_iff; simpl; tauto|exact Hk].
  - apply (Hold _ _ Hin0 Hk).
Qed.

End row_facts.

(** X14: The table has one row for each file that a DAG of the project is
    reported under, and the totals after them; unless a task is of a class
    with the empty name, each of these rows carries its file under the key
    [""]. *)
Theorem analyze_has_one_row_per_file
    (type_name : thing -> string) (report_file : OrbiterDAG -> string)
    (self : OrbiterProject) (output_fmt : string) :
  output_fmt ∈ ["json"; "csv"; "md"] ->
  exists files rows t,
    analyze type_name report_file self output_fmt = inr (rows ++ [t])%list /\
    NoDup files /\
    (forall f, In f files <->
               exists dag, In dag (dict_values (dags self)) /\ report_file dag = f) /\
    List.length rows = List.length files /\
    ((forall dag task, In dag (dict_values (dags self)) ->
                       In task (dict_values (tasks dag)) -> type_name task <> "") ->
     map (dict_get "") rows = map (fun f => Some (Label f)) files).
Proof.
  intros Hfmt.
  destruct (analyze_returns type_name report_file self output_fmt Hfmt) as (t & E & _).
  pose proof (file_analysis_shape (dag_analysis type_name report_file self)) as Hshape.
  cbv zeta in Hshape. destruct Hshape as (Hwf & Hkeys & Houts).
  pose proof (file_analysis_columns (dag_analysis type_name report_file self)) as Hcols.
  fold (file_analysis type_name report_file self) in Hwf, Hkeys, Houts, Hcols.
  exists (dict_keys (file_analysis type_name report_file self)),
         (file_rows (file_analysis type_name report_file self)), t.
  split; [exact E|]. split; [exact Hwf|]. split_and!.
  - intros f. rewrite Hkeys. unfold dag_analysis. split.
    + intros (a & Ha & <-). apply in_map_iff in Ha as (dag & <- & Hdag). eauto.
    + intros (dag & Hdag & <-). eexists. split; [apply in_map; exact Hdag|reflexivity].
  - unfold file_rows, dict_keys. rewrite !length_map. reflexivity.
  - intros Htypes. unfold file_rows, dict_keys. rewrite !map_map.
    apply map_ext_in. intros [f out] Hin. simpl.
    destruct (Houts f out Hin) as [Hout _].
    rewrite dict_update_get by (unfold dict_wf; fold (as_cells out);
                                rewrite as_cells_keys; exact Hout).
    fold (as_cells out). rewrite as_cells_get.
    destruct (dict_get "" out) as [n|] eqn:En; [|reflexivity].
    exfalso. apply dict_get_Some_keys in En.
    destruct (Hcols f out "" Hin En) as [?|(a & Ha & Hk)]; [discriminate|].
    unfold dag_analysis in Ha. apply in_map_iff in Ha as (dag & <- & Hdag). simpl in Hk.
    apply in_map_iff in Hk as (task & Hname & Htask).
    exact (Htypes dag task Hdag Htask Hname).
Qed.

Lemma analyze_has_one_row_per_file_witness :
  exists files rows t,
    analyze (fun _ => "OrbiterEmptyOperator") file_path two_dags_one_file "md"
      = inr (rows ++ [t])%list /\
    NoDup files /\
    (forall f, In f files <->
               exists dag, In dag (dict_values (dags two_dags_one_file)) /\
                           file_path dag = f) /\
    List.length rows = List.length files /\
    ((forall dag task, In dag (dict_values (dags two_dags_one_file)) ->
                       In task (dict_values (tasks dag)) ->
                       (fun _ : thing => "OrbiterEmptyOperator") task <> "") ->
     map (dict_get "") rows = map (fun f => Some (Label f)) files).
Proof.
  apply (analyze_has_one_row_per_file (fun _ => "OrbiterEmptyOperator") file_path
           two_dags_one_file "md").
  exact md_is_a_format.
Defined.

(** ** What [render] leaves on the file system *)

Lemma render_trace rs set_iter self output_dir fs :
  render rs set_iter self output_dir fs =
  match dags self with
  | [] => (inl (RuntimeError "No DAGs to render!"), fs)
  | _ => (inr tt, (fs ++ artifacts rs set_iter self output_dir)%list)
  end.
Proof.
  destruct (dags self) as [|d ds] eqn:Ed.
  - unfold render. rewrite Ed. reflexivity.
  - apply render_produces. congruence.
Qed.

(** X15: The only directories [render] makes, each with its parents, are
    the [dags] directory and the directory of each DAG file: the files of
    the includes, which may lie in directories of their own, are written
    without a directory being made for them. *)
Theorem render_makes_directories_for_dags_only
    (rs : Renderers)
    (set_iter : forall (A : Type) (E : EqDecision A) (C : Countable A), gset A -> list A)
    (self : OrbiterProject) (output_dir : string) (fs : list fs_op) (p : string) :
  In (Mkdir p) (snd (render rs set_iter self output_dir fs)) ->
  In (Mkdir p) fs \/
  p = joinpath rs output_dir "dags" \/
  exists dag, In dag (dict_values (dags self)) /\
    p = parent rs (joinpath rs (joinpath rs output_dir "dags") (file_path dag)).
Proof.
  rewrite render_trace. destruct (dags self) as [|d ds] eqn:Ed; simpl; [tauto|].
  rewrite in_app_iff. intros [H|H]; [tauto|]. right.
  unfold artifacts in H. rewrite Ed in H.
  apply in_app_iff in H as [[[= <-]|[]]|H]; [tauto|]. right.
  apply in_app_iff in H as [H|H].
  - apply in_flat_map in H as ([k dag] & Hin & [[= <-]|[[=]|[]]]).
    exists dag. split; [|reflexivity].
    unfold dict_values. apply (in_map snd) in Hin. exact Hin.
  - exfalso. revert H. rewrite !in_app_iff.
    intros [H|[H|[H|[H|H]]]].
    + destruct (manifest set_iter package self); simpl in H; intuition discriminate.
    + destruct (manifest set_iter sys_package self); simpl in H; intuition discriminate.
    + destruct (pools self), (variables self), (connections self); simpl in H;
        intuition discriminate.
    + apply in_map_iff in H as (i & [=] & _).
    + destruct (env_vars self); simpl in H; intuition discriminate.
Qed.

Definition include_in_directory : OrbiterProject :=
  mkProject [("foo", mkDAG "foo" "foo.py" [] [])] ∅ [] [] [] []
    [("include/lib.py", mkInclude "include/lib.py" "pass")].

Lemma render_makes_directories_for_dags_only_witness :
  In (Mkdir "out/dags/foo.py/..") [] \/
  "out/dags/foo.py/.." = joinpath sample_renderers "out" "dags" \/
  exists dag, In dag (dict_values (dags include_in_directory)) /\
    "out/dags/foo.py/.." =
    parent sample_renderers
      (joinpath sample_renderers (joinpath sample_renderers "out" "dags") (file_path dag)).
Proof.
  apply (render_makes_directories_for_dags_only sample_renderers forwards
           include_in_directory "out" [] "out/dags/foo.py/..").
  vm_compute. tauto.
Defined.

(** The include of the example is written, its directory is not made. *)
Example render_writes_include_without_directory :
  snd (render sample_renderers forwards include_in_directory "out" []) =
  [Mkdir "out/dags"; Mkdir "out/dags/foo.py/.."; WriteText "out/dags/foo.py" "dag foo";
   WriteText "out/include/lib.py" "pass"].
Proof. reflexivity. Qed.

